(** * Fencing estimator: the estimator, the pricebook loader, the quote
    and the HTTP handlers

    A shallow embedding of [app/estimator.py], [app/pricebook_loader.py],
    [app/pdf_quote.py] and the handlers of [app/main.py].

    - Python [float] is IEEE 754 binary64: Rocq's primitive [float], whose
      operations are specified through [Prim2SF] and [SpecFloat].
    - Python [int] is unbounded: [Z].
    - The builtins the code calls on numbers ([round(x, 2)], [math.ceil],
      the conversion of an int that meets a float, the true division of
      two ints) are written out in [PyNum].
    - A raised exception is a value of [exn]; a function that may raise
      returns a [result].
    - The pricebook, a [dict] in insertion order, is an association list. *)

From Stdlib Require Import ZArith List String Ascii DecimalString Lia Bool Floats.
Import ListNotations.

#[local] Set Warnings "-inexact-float".
#[local] Open Scope string_scope.
#[local] Open Scope list_scope.
#[local] Open Scope Z_scope.

(* ===================================================================== *)
(** ** Exceptions *)
(* ===================================================================== *)

Inductive exn : Type :=
| ValueError (msg : string)
| KeyError (msg : string)
| OverflowError (msg : string).

Inductive result (A : Type) : Type :=
| Ok (a : A)
| Raise (e : exn).

Arguments Ok {A} a.
Arguments Raise {A} e.

Definition bind {A B : Type} (c : result A) (k : A -> result B) : result B :=
  match c with
  | Ok a => k a
  | Raise e => Raise e
  end.

Notation "x <- c ;; k" := (bind c (fun x => k))
  (at level 61, c at next level, right associativity).
Notation "' pat <- c ;; k" := (bind c (fun x => match x with pat => k end))
  (at level 61, pat pattern, c at next level, right associativity).

Definition is_ok {A : Type} (c : result A) : bool :=
  match c with
  | Ok _ => true
  | Raise _ => false
  end.

(* ===================================================================== *)
(** ** Python numbers *)
(* ===================================================================== *)

Module PyNum.

(** A value stored in a field annotated [float]: the HTTP layer passes
    floats, [build_fence_bom] passes ints. *)
Inductive pynum : Type :=
| PyInt (n : Z)
| PyFloat (x : float).

(** [x < 0] and [x <= 0] against the int literal [0]; Python compares a
    float with an int exactly, which for [0] is the comparison with [0.0]. *)
Definition float_lt0 (x : float) : bool := (x <? 0)%float.

Definition num_le0 (q : pynum) : bool :=
  match q with
  | PyInt n => n <=? 0
  | PyFloat x => (x <=? 0)%float
  end.

(** [math.ceil] on a float: the exact integer ceiling; NaN and the
    infinities have none. *)
Definition ceil_scaled (m e : Z) : Z :=
  if 0 <=? e then m * 2 ^ e else - ((- m) / 2 ^ (- e)).

Definition py_ceil (x : float) : result Z :=
  match Prim2SF x with
  | S754_nan => Raise (ValueError "cannot convert float NaN to integer")
  | S754_infinity _ =>
      Raise (OverflowError "cannot convert float infinity to integer")
  | S754_zero _ => Ok 0
  | S754_finite s m e => Ok (ceil_scaled (cond_Zopp s (Z.pos m)) e)
  end.

(** Round half to even of [a / 2^k], for [0 < k]. *)
Definition rne_shift (a k : Z) : Z :=
  let q := Z.shiftr a k in
  let r := a - Z.shiftl q k in
  match 2 * r ?= 2 ^ k with
  | Lt => q
  | Gt => q + 1
  | Eq => if Z.even q then q else q + 1
  end.

(** A positive int [a] as [m * 2^k] with [m] of at most 53 bits, or
    [2^53] after a carry: the bits beyond the 53rd are rounded off, half
    to even. *)
Definition long_frexp (a : Z) : Z * Z :=
  let d := Z.log2 a + 1 in
  if d <=? 53 then (a, 0) else (rne_shift a (d - 53), d - 53).

(** The conversion of an int operand to a float: the magnitude is rounded
    by [long_frexp] and scaled back; a rounded magnitude of [2^1024] or
    more raises. *)
Definition int_as_double (n : Z) : result float :=
  match n with
  | Z0 => Ok 0%float
  | _ =>
      let '(m, k) := long_frexp (Z.abs n) in
      if 1024 <? Z.log2 m + 1 + k then
        Raise (OverflowError "int too large to convert to float")
      else
        let x := Z.ldexp (of_uint63 (Uint63.of_Z m)) k in
        Ok (if n <? 0 then (- x)%float else x)
  end.

(** The conversion of an operand of a float operation: a float is taken
    as it is, an int is converted. *)
Definition num_as_float (q : pynum) : result float :=
  match q with
  | PyInt n => int_as_double n
  | PyFloat x => Ok x
  end.

(** [q * y] with [y] a float. *)
Definition num_mul_float (q : pynum) (y : float) : result float :=
  x <- num_as_float q ;; Ok (x * y)%float.

(** The binary64 value nearest to the fraction [p / q] (ties to even). *)
Definition nearest_double (s : bool) (p q : positive) : spec_float :=
  SF64div (S754_finite s p 0) (S754_finite false q 0).

(** [a / b] on two ints, [b] positive: the correctly rounded quotient. *)
Definition int_truediv (a : Z) (b : positive) : result float :=
  match a with
  | Z0 => Ok 0%float
  | Z.pos p | Z.neg p =>
      match nearest_double (a <? 0) p b with
      | S754_infinity _ =>
          Raise (OverflowError "integer division result too large for a float")
      | q => Ok (SF2Prim q)
      end
  end.

(** [round(x, 2)] on a float: the exact value of [x] is rounded half to
    even to two decimals, and the binary64 value nearest to that decimal
    is returned; NaN and the infinities round to themselves, and the sign
    of a result that rounds to zero is kept. *)
Definition py_round2 (x : float) : float :=
  match Prim2SF x with
  | S754_finite s m e =>
      let n := if 0 <=? e then Z.pos m * 100 * 2 ^ e
               else rne_shift (Z.pos m * 100) (- e) in
      match n with
      | Z.pos p => SF2Prim (nearest_double s p 100)
      | _ => if s then neg_zero else zero
      end
  | _ => x
  end.

End PyNum.
Import PyNum.

(* ===================================================================== *)
(** ** The pricebook ([app/pricebook_loader.py]) *)
(* ===================================================================== *)

Module Loader.

Record PricebookItem : Type := mkPricebookItem {
  pb_sku : string;
  pb_description : string;
  pb_unit : string;
  pb_unit_price : float;
  pb_unit_cost : option float;
  pb_category : option string
}.

(** [Pricebook = Dict[str, PricebookItem]]: the bindings in insertion
    order. A dict holds one binding per key; [pb_lookup] reads the first
    binding of a key, so on the list of a dict it is the dict's
    subscript. *)
Definition Pricebook : Type := list (string * PricebookItem).

Fixpoint pb_lookup (pricebook : Pricebook) (sku : string)
  : option PricebookItem :=
  match pricebook with
  | [] => None
  | (k, item) :: rest =>
      if String.eqb k sku then Some item else pb_lookup rest sku
  end.

(** [pricebook.values()] *)
Definition pb_values (pricebook : Pricebook) : list PricebookItem :=
  map snd pricebook.

Definition get_item (pricebook : Pricebook) (sku : string)
  : result PricebookItem :=
  match pb_lookup pricebook sku with
  | Some item => Ok item
  | None => Raise (KeyError ("SKU not found in pricebook: " ++ sku)%string)
  end.

End Loader.
Import Loader.

(* ===================================================================== *)
(** ** The estimator ([app/estimator.py]) *)
(* ===================================================================== *)

Module Estimator.

Record FenceEstimateInput : Type := mkFenceEstimateInput {
  fence_length_ft : float;
  style : string;
  posts_per_ft : float;
  gates : Z
}.

Record LineItemInput : Type := mkLineItemInput {
  li_sku : string;
  li_quantity : pynum
}.

Record LineItemEstimate : Type := mkLineItemEstimate {
  le_sku : string;
  le_description : string;
  le_quantity : pynum;
  le_unit : string;
  le_unit_price : float;
  le_extended_price : float
}.

Record EstimateBreakdown : Type := mkEstimateBreakdown {
  materials_subtotal : float;
  labor_hours : float;
  labor_rate : float;
  labor_total : float;
  subtotal : float;
  margin_pct : float;
  margin_amount : float;
  total : float;
  line_items : list LineItemEstimate
}.

(** *** [build_fence_bom] *)

(** [item.category == category]; [None] equals no string. *)
Definition category_is (category : string) (item : PricebookItem) : bool :=
  match pb_category item with
  | Some c => String.eqb c category
  | None => false
  end.

Definition category_error (category : string) : exn :=
  KeyError ("No pricebook item with category='" ++ category ++ "'")%string.

Fixpoint first_by_category (values : list PricebookItem) (category : string)
  : result PricebookItem :=
  match values with
  | [] => Raise (category_error category)
  | item :: rest =>
      if category_is category item then Ok item
      else first_by_category rest category
  end.

Definition pick_by_category (pricebook : Pricebook) (category : string)
  : result PricebookItem :=
  first_by_category (pb_values pricebook) category.

Record FenceQuantities : Type := mkFenceQuantities {
  posts_qty : Z;
  rails_qty : Z;
  pickets_qty : Z;
  concrete_qty : Z;
  fasteners_boxes : Z;
  gate_qty : Z
}.

(** The quantity formulas, lines 41 to 56 of the source, in the order in
    which they are evaluated. *)
Definition fence_quantities (fence : FenceEstimateInput)
  : result FenceQuantities :=
  c_posts <- py_ceil (fence_length_ft fence * posts_per_ft fence)%float ;;
  let posts_qty := Z.max 2 c_posts in
  let rails_per_section := 2 in
  let rails_qty := Z.max 0 ((posts_qty - 1) * rails_per_section) in
  let pickets_per_ft :=
    if String.eqb (style fence) "wood" then 2%float else 2%float in
  pickets_qty <- py_ceil (fence_length_ft fence * pickets_per_ft)%float ;;
  let bags_per_post := 0.75%float in
  bags <- num_mul_float (PyInt posts_qty) bags_per_post ;;
  concrete_qty <- py_ceil bags ;;
  boxes <- int_truediv pickets_qty 200 ;;
  c_boxes <- py_ceil boxes ;;
  let fasteners_boxes := Z.max 1 c_boxes in
  let gate_qty := Z.max 0 (gates fence) in
  Ok (mkFenceQuantities posts_qty rails_qty pickets_qty concrete_qty
        fasteners_boxes gate_qty).

Definition build_fence_bom (pricebook : Pricebook) (fence : FenceEstimateInput)
  : result (list LineItemInput) :=
  q <- fence_quantities fence ;;
  post_item <- pick_by_category pricebook "post" ;;
  rail_item <- pick_by_category pricebook "rail" ;;
  picket_item <- pick_by_category pricebook "picket" ;;
  concrete_item <- pick_by_category pricebook "concrete" ;;
  fastener_item <- pick_by_category pricebook "fastener" ;;
  let gate_item :=
    if 0 <? gate_qty q then
      match pick_by_category pricebook "gate" with
      | Ok item => Some item
      | Raise _ => None
      end
    else None in
  let bom :=
    [ mkLineItemInput (pb_sku post_item) (PyInt (posts_qty q));
      mkLineItemInput (pb_sku rail_item) (PyInt (rails_qty q));
      mkLineItemInput (pb_sku picket_item) (PyInt (pickets_qty q));
      mkLineItemInput (pb_sku concrete_item) (PyInt (concrete_qty q));
      mkLineItemInput (pb_sku fastener_item) (PyInt (fasteners_boxes q)) ] in
  match gate_item with
  | Some item =>
      if 0 <? gate_qty q
      then Ok (bom ++ [mkLineItemInput (pb_sku item) (PyInt (gate_qty q))])
      else Ok bom
  | None => Ok bom
  end.

(** *** [calculate_estimate] *)

Definition _round_money (value : float) : float := py_round2 value.

Definition labor_error : exn :=
  ValueError "labor_hours, labor_rate, and margin_pct must be non-negative".

Definition quantity_error (sku : string) : exn :=
  ValueError ("Quantity must be positive for SKU " ++ sku)%string.

(** The loop over [line_items]: the state is the list of priced lines built
    so far and the running, unrounded materials subtotal. *)
Fixpoint price_lines (pricebook : Pricebook) (items : list LineItemInput)
    (estimated_lines : list LineItemEstimate) (materials : float)
  : result (list LineItemEstimate * float) :=
  match items with
  | [] => Ok (estimated_lines, materials)
  | item :: rest =>
      if num_le0 (li_quantity item) then Raise (quantity_error (li_sku item))
      else
        pb_item <- get_item pricebook (li_sku item) ;;
        extended_price <- num_mul_float (li_quantity item) (pb_unit_price pb_item) ;;
        price_lines pricebook rest
          (estimated_lines ++
             [ mkLineItemEstimate (pb_sku pb_item) (pb_description pb_item)
                 (li_quantity item) (pb_unit pb_item) (pb_unit_price pb_item)
                 (_round_money extended_price) ])
          (materials + extended_price)%float
  end.

Definition calculate_estimate (pricebook : Pricebook)
    (line_items : list LineItemInput)
    (labor_hours labor_rate margin_pct : float)
  : result EstimateBreakdown :=
  if float_lt0 labor_hours || float_lt0 labor_rate || float_lt0 margin_pct
  then Raise labor_error
  else
    '(estimated_lines, materials_subtotal) <-
       price_lines pricebook line_items [] 0%float ;;
    let labor_total := (labor_hours * labor_rate)%float in
    let subtotal := (materials_subtotal + labor_total)%float in
    let margin_amount := (subtotal * (margin_pct / 100))%float in
    let total := (subtotal + margin_amount)%float in
    Ok (mkEstimateBreakdown
          (_round_money materials_subtotal)
          (_round_money labor_hours)
          (_round_money labor_rate)
          (_round_money labor_total)
          (_round_money subtotal)
          (_round_money margin_pct)
          (_round_money margin_amount)
          (_round_money total)
          estimated_lines).

End Estimator.
Import Estimator.

(* ===================================================================== *)
(** ** Vocabulary of the statements *)
(* ===================================================================== *)

(** [0 <= x] and [0 < q], as Python evaluates them. *)
Definition float_nonneg (x : float) : bool := (0 <=? x)%float.

Definition num_pos (q : pynum) : bool :=
  match q with
  | PyInt n => 0 <? n
  | PyFloat x => (0 <? x)%float
  end.

(** The quantity is a float, or an int that Python converts to a float
    when it multiplies it with one. *)
Definition float_valued (q : pynum) : bool := is_ok (num_as_float q).

Definition in_catalog (pricebook : Pricebook) (item : LineItemInput) : Prop :=
  pb_lookup pricebook (li_sku item) <> None.

(** The unrounded product [quantity * unit_price] of a line. *)
Definition line_product (pricebook : Pricebook) (item : LineItemInput)
  : option float :=
  match pb_lookup pricebook (li_sku item), num_as_float (li_quantity item) with
  | Some pb_item, Ok q => Some (q * pb_unit_price pb_item)%float
  | _, _ => None
  end.

(** The left-to-right sum of a list of floats, from [0.0]. *)
Definition float_sum (xs : list float) : float :=
  fold_left PrimFloat.add xs 0%float.

(** A line that the loop of [calculate_estimate] passes without raising. *)
Definition prices_ok (pricebook : Pricebook) (item : LineItemInput) : Prop :=
  num_le0 (li_quantity item) = false /\ line_product pricebook item <> None.

(** The guard of [calculate_estimate] on its three float parameters. *)
Definition labor_negative (lh lr mp : float) : bool :=
  float_lt0 lh || float_lt0 lr || float_lt0 mp.

(** A one-item pricebook, the catalog of the examples of the spec. *)
Definition single_pricebook : Pricebook :=
  [ ("A", mkPricebookItem "A" "Cedar picket" "ea" 10%float None None) ].

(** A pricebook with one job priced 2693.30. *)
Definition job_pricebook : Pricebook :=
  [ ("M", mkPricebookItem "M" "Materials" "job" 2693.3%float None None) ].

(** The vocabulary of the statements on [build_fence_bom]. *)
Definition required_categories : list string :=
  ["post"; "rail"; "picket"; "concrete"; "fastener"].

(** [item] is the first of [values], in order, whose category is exactly
    [category]. *)
Definition first_with_category (values : list PricebookItem)
    (category : string) (item : PricebookItem) : Prop :=
  exists before after,
    values = before ++ item :: after /\
    Forall (fun i => pb_category i <> Some category) before /\
    pb_category item = Some category.

Definition no_item_with_category (pb : Pricebook) (category : string) : Prop :=
  Forall (fun i => pb_category i <> Some category) (pb_values pb).

(** [category] is the first of [categories] that no item of the pricebook
    carries. *)
Definition first_missing_category (pb : Pricebook) (categories : list string)
    (category : string) : Prop :=
  exists before after,
    categories = before ++ category :: after /\
    Forall (fun c => ~ no_item_with_category pb c) before /\
    no_item_with_category pb category.

Definition required_lines (q : FenceQuantities)
    (post rail picket concrete fastener : PricebookItem)
  : list LineItemInput :=
  [ mkLineItemInput (pb_sku post) (PyInt (posts_qty q));
    mkLineItemInput (pb_sku rail) (PyInt (rails_qty q));
    mkLineItemInput (pb_sku picket) (PyInt (pickets_qty q));
    mkLineItemInput (pb_sku concrete) (PyInt (concrete_qty q));
    mkLineItemInput (pb_sku fastener) (PyInt (fasteners_boxes q)) ].

Definition gate_lines (pb : Pricebook) (q : FenceQuantities)
  : list LineItemInput :=
  if 0 <? gate_qty q then
    match pick_by_category pb "gate" with
    | Ok g => [mkLineItemInput (pb_sku g) (PyInt (gate_qty q))]
    | Raise _ => []
    end
  else [].

Definition with_gates (fence : FenceEstimateInput) (n : Z)
  : FenceEstimateInput :=
  mkFenceEstimateInput (fence_length_ft fence) (style fence)
    (posts_per_ft fence) n.

(** The number of binary digits of a mantissa, and the floats of sign [s]
    that are an infinity or finite with [digits + exponent] at least [D]:
    their magnitude is at least [2 ^ (D - 1)]. *)
Definition dg (m : positive) : Z := Z.pos (digits2_pos m).

Definition pos_mag (s : bool) (D : Z) (x : spec_float) : Prop :=
  x = S754_infinity s \/
  exists m e, x = S754_finite s m e /\ D <= dg m + e.

(** A pricebook with one item per category, a fence and its BOM. *)
Definition demo_item (sku cat : string) (price : float) : PricebookItem :=
  mkPricebookItem sku (sku ++ " item")%string "ea" price None (Some cat).

Definition demo_pricebook : Pricebook :=
  [ ("P1", demo_item "P1" "post" 12.5%float);
    ("R1", demo_item "R1" "rail" 8%float);
    ("K1", demo_item "K1" "picket" 2.35%float);
    ("C1", demo_item "C1" "concrete" 6.99%float);
    ("F1", demo_item "F1" "fastener" 24%float);
    ("G1", demo_item "G1" "gate" 149.99%float) ].

Definition demo_fence : FenceEstimateInput :=
  mkFenceEstimateInput 100 "wood" 0.0833 1.

Definition demo_bom : list LineItemInput :=
  [ mkLineItemInput "P1" (PyInt 9); mkLineItemInput "R1" (PyInt 16);
    mkLineItemInput "K1" (PyInt 200); mkLineItemInput "C1" (PyInt 7);
    mkLineItemInput "F1" (PyInt 1); mkLineItemInput "G1" (PyInt 1) ].

(* ===================================================================== *)
(** ** Vocabulary of the further statements on the estimator *)
(* ===================================================================== *)

(** The priced line that the loop of [calculate_estimate] builds for a
    line item: the catalog's own SKU, description, unit and unit price,
    the quantity as given, and the rounded product. *)
Definition priced_line (pricebook : Pricebook) (item : LineItemInput)
  : option LineItemEstimate :=
  match pb_lookup pricebook (li_sku item), num_as_float (li_quantity item) with
  | Some pb_item, Ok q =>
      Some (mkLineItemEstimate (pb_sku pb_item) (pb_description pb_item)
              (li_quantity item) (pb_unit pb_item) (pb_unit_price pb_item)
              (py_round2 (q * pb_unit_price pb_item)%float))
  | _, _ => None
  end.

(** A float that is neither NaN nor an infinity. *)
Definition is_finite (x : float) : bool :=
  match Prim2SF x with
  | S754_zero _ | S754_finite _ _ _ => true
  | _ => false
  end.

(** Every entry of the pricebook is stored under the SKU of its item, as
    [load_pricebook] stores it. *)
Definition keyed_by_sku (pricebook : Pricebook) : Prop :=
  Forall (fun entry => pb_sku (snd entry) = fst entry) pricebook.

(** A spec float that is a zero, a finite value or an infinity of sign
    [s]. *)
Definition has_sign (s : bool) (x : spec_float) : Prop :=
  match x with
  | S754_zero s' | S754_infinity s' | S754_finite s' _ _ => s' = s
  | S754_nan => False
  end.

Definition is_overflow {A : Type} (c : result A) : Prop :=
  exists msg, c = Raise (OverflowError msg).

Definition is_key_error {A : Type} (c : result A) : Prop :=
  exists msg, c = Raise (KeyError msg).

(* ===================================================================== *)
(** ** Loading the pricebook ([app/pricebook_loader.py])

    [load_pricebook] opens a CSV file and reads it through
    [csv.DictReader], row by row. The model starts from what opening and
    reading do: whether [path.open] raises, what reading the header row
    gives, the dicts that the reader yields for the data rows, and the
    exception with which the reader stops, if it stops with one. The
    builtins on strings, [str.strip], [str.lower], [float] and [repr],
    are taken as they are, as the fields of [Builtins]. *)
(* ===================================================================== *)

(** What the file system, the decoder of the file and the [csv] module
    raise: an [OSError] of some class ([IsADirectoryError],
    [PermissionError], ...), a [UnicodeDecodeError], a [_csv.Error]. *)
Inductive io_exn : Type :=
| OSError (cls msg : string)
| UnicodeDecodeError (msg : string)
| CsvError (msg : string).

(** The exceptions beyond those of the estimator. [IO] wraps what comes
    from outside; [UnicodeEncodeError] carries the attributes [start] and
    [end] of the exception; [HTTPException] is the one of the HTTP
    layer. *)
Inductive pyexn : Type :=
| Core (e : exn)
| FileNotFoundError (msg : string)
| AttributeError (msg : string)
| RuntimeError (msg : string)
| IO (e : io_exn)
| UnicodeEncodeError (start stop : nat)
| HTTPException (status_code : Z) (detail : string).

Inductive outcome (A : Type) : Type :=
| Returned (a : A)
| Raised (e : pyexn).

Arguments Returned {A} a.
Arguments Raised {A} e.

Definition and_then {A B : Type} (c : outcome A) (k : A -> outcome B)
  : outcome B :=
  match c with
  | Returned a => k a
  | Raised e => Raised e
  end.

Notation "x <~ c ;; k" := (and_then c (fun x => k))
  (at level 61, c at next level, right associativity).

(** An exception of the estimator, as the callers of the estimator see
    it. *)
Definition lift {A : Type} (c : result A) : outcome A :=
  match c with
  | Ok a => Returned a
  | Raise e => Raised (Core e)
  end.

(** A [dict] with string keys, in insertion order: a new key goes to the
    end, a key already there keeps its place and takes the new value. *)
Fixpoint dict_get {V : Type} (d : list (string * V)) (k : string)
  : option V :=
  match d with
  | [] => None
  | (k', v) :: rest => if String.eqb k' k then Some v else dict_get rest k
  end.

Fixpoint dict_set {V : Type} (d : list (string * V)) (k : string) (v : V)
  : list (string * V) :=
  match d with
  | [] => [(k, v)]
  | (k', v') :: rest =>
      if String.eqb k' k then (k, v) :: rest
      else (k', v') :: dict_set rest k v
  end.

Record Builtins : Type := mkBuiltins {
  py_strip : string -> string;        (* [s.strip()] *)
  py_lower : string -> string;        (* [s.lower()] *)
  py_float : string -> option float;  (* [float(s)]; [None]: [ValueError] *)
  py_repr : string -> string          (* [repr(s)] *)
}.

(** A value of a row of [csv.DictReader]: a string, [None] for a field
    the line did not reach, or the list of the fields beyond the header,
    which the reader stores under the key [None]. *)
Inductive cell : Type :=
| CellNone
| CellStr (s : string)
| CellList (l : list string).

Definition csv_row : Type := list (option string * cell).

(** A file at a path, as the loader meets it: [path.open] raises; or
    the reader raises on the header row; or the file has no line, and
    [reader.fieldnames] is [None]; or the reader gives the field names,
    yields [rows], and then ends, or raises [stop]. *)
Inductive csv_file : Type :=
| OpenRaises (e : io_exn)
| HeaderRaises (e : io_exn)
| NoHeader
| Rows (fieldnames : list string) (rows : list csv_row)
    (stop : option io_exn).

Fixpoint row_get (row : csv_row) (header : string) : option cell :=
  match row with
  | [] => None
  | (Some k, v) :: rest =>
      if String.eqb k header then Some v else row_get rest header
  | (None, _) :: rest => row_get rest header
  end.

Definition str_of_int (n : Z) : string :=
  DecimalString.NilZero.string_of_int (Z.to_int n).

Definition _FIELD_ALIASES : list (string * list string) :=
  [ ("sku", ["sku"; "item"; "item_code"]);
    ("description", ["description"; "desc"; "name"]);
    ("unit", ["unit"; "uom"]);
    ("unit_price", ["unit_price"; "price"; "sell_price"]);
    ("unit_cost", ["unit_cost"; "cost"]);
    ("category", ["category"; "group"]) ].

Definition required_fields : list string :=
  ["sku"; "description"; "unit"; "unit_price"].

Definition strip_error : pyexn :=
  AttributeError "'list' object has no attribute 'strip'".

Section LoaderModel.

Variable B : Builtins.

Definition _normalise_header (header : string) : string :=
  py_lower B (py_strip B header).

(** [{_normalise_header(h): h for h in headers}] *)
Definition normalised_headers (headers : list string)
  : list (string * string) :=
  fold_left (fun d h => dict_set d (_normalise_header h) h) headers [].

(** The inner loop over the aliases of a field: the header of the first
    alias that is a normalised header. *)
Fixpoint first_alias (normalised : list (string * string))
    (aliases : list string) : option string :=
  match aliases with
  | [] => None
  | alias :: rest =>
      match dict_get normalised alias with
      | Some header => Some header
      | None => first_alias normalised rest
      end
  end.

Definition alias_mapping (normalised : list (string * string))
  : list (string * string) :=
  fold_left
    (fun mapping entry =>
       match first_alias normalised (snd entry) with
       | Some header => dict_set mapping (fst entry) header
       | None => mapping
       end)
    _FIELD_ALIASES [].

Definition _build_header_map (headers : list string)
  : outcome (list (string * string)) :=
  let normalised := normalised_headers headers in
  let mapping := alias_mapping normalised in
  let missing :=
    filter (fun f => match dict_get mapping f with
                     | Some _ => false
                     | None => true
                     end) required_fields in
  match missing with
  | [] => Returned mapping
  | _ :: _ =>
      Raised (Core (ValueError
        ("Pricebook CSV is missing required columns: " ++
         String.concat ", " missing)%string))
  end.

(** The local function [get] of the loop, on the row at hand. *)
Definition get (header_map : list (string * string)) (row : csv_row)
    (field : string) : outcome string :=
  match dict_get header_map field with
  | Some header =>
      if String.eqb header "" then Returned ""
      else
        match row_get row header with
        | Some (CellStr s) => Returned (py_strip B s)
        | Some (CellList (_ :: _)) => Raised strip_error
        | Some CellNone | Some (CellList []) | None =>
            Returned (py_strip B "")
        end
  | None => Returned ""
  end.

(** [any(value.strip() for value in row.values() if value)] *)
Fixpoint any_stripped (values : list cell) : outcome bool :=
  match values with
  | [] => Returned false
  | CellStr s :: rest =>
      if String.eqb s "" then any_stripped rest
      else if String.eqb (py_strip B s) "" then any_stripped rest
      else Returned true
  | CellList (_ :: _) :: rest => Raised strip_error
  | CellNone :: rest | CellList [] :: rest => any_stripped rest
  end.

(** The body of the loop over the rows: the item of the row, or nothing
    for a row that is skipped. *)
Definition load_row (header_map : list (string * string)) (idx : Z)
    (row : csv_row) : outcome (option PricebookItem) :=
  sku <~ get header_map row "sku" ;;
  if String.eqb sku "" then
    some <~ any_stripped (map snd row) ;;
    if some then
      Raised (Core (ValueError
        ("Row " ++ str_of_int idx ++ ": missing SKU")%string))
    else Returned None
  else
    description <~ get header_map row "description" ;;
    unit <~ get header_map row "unit" ;;
    unit_price_raw <~ get header_map row "unit_price" ;;
    if String.eqb unit_price_raw "" then
      Raised (Core (ValueError
        ("Row " ++ str_of_int idx ++ " (SKU " ++ sku ++
         "): missing unit_price/price")%string))
    else
      match py_float B unit_price_raw with
      | None =>
          Raised (Core (ValueError
            ("Row " ++ str_of_int idx ++ " (SKU " ++ sku ++
             "): invalid unit_price '" ++ unit_price_raw ++ "'")%string))
      | Some unit_price =>
          unit_cost_raw <~ get header_map row "unit_cost" ;;
          let unit_cost_value :=
            if String.eqb unit_cost_raw "" then None
            else py_float B unit_cost_raw in
          category_raw <~ get header_map row "category" ;;
          let category :=
            if String.eqb category_raw "" then None else Some category_raw in
          Returned (Some (mkPricebookItem sku description unit unit_price
                            unit_cost_value category))
      end.

(** The loop: [idx] is the number of the row at hand, [items] the dict
    built so far. The reader is asked for a row after the body has run
    on the row before; [stop] is what it raises after the last row. *)
Fixpoint load_rows (header_map : list (string * string))
    (rows : list csv_row) (stop : option io_exn) (idx : Z)
    (items : Pricebook) : outcome Pricebook :=
  match rows with
  | [] =>
      match stop with
      | Some e => Raised (IO e)
      | None => Returned items
      end
  | row :: rest =>
      loaded <~ load_row header_map idx row ;;
      match loaded with
      | Some item =>
          load_rows header_map rest stop (idx + 1)
            (dict_set items (pb_sku item) item)
      | None => load_rows header_map rest stop (idx + 1) items
      end
  end.

(** [path] is the text of the path; [file] is [None] when nothing exists
    at the path. *)
Definition load_pricebook (path : string) (file : option csv_file)
  : outcome Pricebook :=
  match file with
  | None => Raised (FileNotFoundError ("Pricebook CSV not found: " ++ path)%string)
  | Some (OpenRaises e) => Raised (IO e)
  | Some (HeaderRaises e) => Raised (IO e)
  | Some NoHeader =>
      Raised (Core (ValueError "Pricebook CSV has no header row"))
  | Some (Rows fieldnames rows stop) =>
      header_map <~ _build_header_map fieldnames ;;
      load_rows header_map rows stop 2 []
  end.

End LoaderModel.

(** The builtins of the examples, on ASCII text: [strip] removes the
    ASCII white space at both ends, [lower] maps [A-Z] to [a-z]. [float]
    is given on the texts that the examples use: digits with at most one
    point among them, which it reads as Python does, and texts that hold
    a character that no number holds, which it refuses as Python does;
    signs, exponents, underscores, [inf] and [nan] are not read. *)
Definition ascii_is_space (c : Ascii.ascii) : bool :=
  let n := Ascii.N_of_ascii c in
  ((9 <=? n) && (n <=? 13) || (28 <=? n) && (n <=? 32))%N.

Fixpoint lstrip (s : string) : string :=
  match s with
  | String c rest => if ascii_is_space c then lstrip rest else s
  | EmptyString => EmptyString
  end.

Fixpoint rstrip (s : string) : string :=
  match s with
  | String c rest =>
      match rstrip rest with
      | EmptyString => if ascii_is_space c then EmptyString else String c EmptyString
      | r => String c r
      end
  | EmptyString => EmptyString
  end.

Definition ascii_strip (s : string) : string := rstrip (lstrip s).

Definition ascii_lower_char (c : Ascii.ascii) : Ascii.ascii :=
  let n := Ascii.N_of_ascii c in
  if ((65 <=? n) && (n <=? 90))%N then Ascii.ascii_of_N (n + 32) else c.

Fixpoint ascii_lower (s : string) : string :=
  match s with
  | String c rest => String (ascii_lower_char c) (ascii_lower rest)
  | EmptyString => EmptyString
  end.

(** Digits read as a number with [k] digits after the point ([k] is
    [None] before the point is met). *)
Fixpoint read_decimal (s : string) (acc : N) (k : option N)
  : option (N * N) :=
  match s with
  | EmptyString => Some (acc, match k with Some n => n | None => 0%N end)
  | String c rest =>
      let n := Ascii.N_of_ascii c in
      if ((48 <=? n) && (n <=? 57))%N then
        read_decimal rest (acc * 10 + (n - 48))%N (option_map N.succ k)
      else if (n =? 46)%N then
        match k with
        | None => read_decimal rest acc (Some 0%N)
        | Some _ => None
        end
      else None
  end.

Definition decimal_float (s : string) : option float :=
  match s with
  | EmptyString | String "."%char EmptyString => None
  | _ =>
      match read_decimal s 0 None with
      | Some (N0, _) => Some 0%float
      | Some (Npos p, k) =>
          Some (SF2Prim (nearest_double false p (Z.to_pos (10 ^ Z.of_N k))))
      | None => None
      end
  end.

(** [repr] on ASCII text: double quotes when the text holds a single
    quote and no double quote, single quotes otherwise; the backslash,
    the quote in use and the control characters are escaped. *)
Definition hex_digit (n : N) : Ascii.ascii :=
  (if n <? 10 then Ascii.ascii_of_N (48 + n) else Ascii.ascii_of_N (87 + n))%N.

Fixpoint repr_body (quote : Ascii.ascii) (s : string) : string :=
  match s with
  | EmptyString => EmptyString
  | String c rest =>
      let n := Ascii.N_of_ascii c in
      let escaped :=
        if (n =? 92)%N || Ascii.eqb c quote then String "\"%char (String c "")
        else if (n =? 9)%N then "\t"
        else if (n =? 10)%N then "\n"
        else if (n =? 13)%N then "\r"
        else if (n <? 32)%N || (n =? 127)%N then
          String "\"%char
            (String "x"%char
               (String (hex_digit (n / 16)) (String (hex_digit (n mod 16)) "")))
        else String c "" in
      (escaped ++ repr_body quote rest)%string
  end.

Fixpoint has_char (c : Ascii.ascii) (s : string) : bool :=
  match s with
  | EmptyString => false
  | String c' rest => Ascii.eqb c' c || has_char c rest
  end.

Definition ascii_repr (s : string) : string :=
  let double := Ascii.ascii_of_nat 34 in
  let quote :=
    if has_char "'"%char s && negb (has_char double s) then double
    else "'"%char in
  String quote (repr_body quote s ++ String quote "")%string.

(** The builtins of the examples. *)
Definition ascii_builtins : Builtins :=
  mkBuiltins ascii_strip ascii_lower decimal_float ascii_repr.

(** *** Vocabulary of the statements on the loader *)

Definition aliases_of (field : string) : list string :=
  match dict_get _FIELD_ALIASES field with
  | Some aliases => aliases
  | None => []
  end.

(** Some header is, once normalised, [alias]. *)
Definition header_named (B : Builtins) (headers : list string)
    (alias : string) : bool :=
  existsb (fun h => String.eqb (_normalise_header B h) alias) headers.

(** Some header is, once normalised, an alias of [field]. *)
Definition recognised (B : Builtins) (headers : list string)
    (field : string) : bool :=
  existsb (header_named B headers) (aliases_of field).

(** The rows from number [idx] on each run through the body of the loop
    without raising; [loaded] holds what each gives, in order. *)
Inductive rows_loaded (B : Builtins) (header_map : list (string * string))
  : list csv_row -> Z -> list (option PricebookItem) -> Prop :=
| rows_loaded_nil (idx : Z) : rows_loaded B header_map [] idx []
| rows_loaded_cons (row : csv_row) (rest : list csv_row) (idx : Z)
    (r : option PricebookItem) (rs : list (option PricebookItem)) :
    load_row B header_map idx row = Returned r ->
    rows_loaded B header_map rest (idx + 1) rs ->
    rows_loaded B header_map (row :: rest) idx (r :: rs).

(** The items among the results of the rows. *)
Fixpoint somes {A : Type} (l : list (option A)) : list A :=
  match l with
  | [] => []
  | Some a :: rest => a :: somes rest
  | None :: rest => somes rest
  end.

(** The last item of a list that carries [sku]. *)
Definition last_with_sku (items : list PricebookItem) (sku : string)
  : option PricebookItem :=
  find (fun item => String.eqb (pb_sku item) sku) (rev items).

Definition demo_headers : list string := [" SKU "; "Name"; "UOM"; "Price"; "Group"].

Definition demo_row (sku name uom price group : string) : csv_row :=
  [ (Some " SKU ", CellStr sku); (Some "Name", CellStr name);
    (Some "UOM", CellStr uom); (Some "Price", CellStr price);
    (Some "Group", CellStr group) ].

Definition demo_rows : list csv_row :=
  [ demo_row "P1" "Post 4x4" "ea" "12.50" "post";
    demo_row "" "" "" " " "";
    demo_row "R1" "Rail" "ea" "8" "";
    demo_row " P1 " "Post 6x6" "ea" "19.75" "post" ].

(** The dict after the loop has stored the items [loaded], in order, in
    [items]. *)
Definition store (items : Pricebook) (loaded : list PricebookItem)
  : Pricebook :=
  fold_left (fun d item => dict_set d (pb_sku item) item) loaded items.

(** What holds of every dict that the loader returns. *)
Definition well_keyed (pb : Pricebook) : Prop :=
  NoDup (map fst pb) /\
  Forall (fun entry =>
            pb_sku (snd entry) = fst entry /\ fst entry <> "" /\
            pb_category (snd entry) <> Some "") pb.


(** A row as [csv.DictReader] builds it: what stands under a header is a
    string or [None]; only the key [None] holds a list. *)
Definition reader_row (row : csv_row) : Prop :=
  forall header l, row_get row header = Some (CellList l) -> l = [].

Definition demo_header_map : list (string * string) :=
  [ ("sku", " SKU "); ("description", "Name"); ("unit", "UOM");
    ("unit_price", "Price"); ("category", "Group") ].

Definition demo_pricebook_loaded : Pricebook :=
  [ ("P1", mkPricebookItem "P1" "Post 6x6" "ea" 19.75 None (Some "post"));
    ("R1", mkPricebookItem "R1" "Rail" "ea" 8 None None) ].


(* ===================================================================== *)
(** ** The quote ([app/pdf_quote.py])

    A [str] is held as the bytes of its characters in UTF-8, a lone
    surrogate, which a [str] can hold although UTF-8 has no form for it,
    as the three bytes [ED A0..BF 80..BF] that the same scheme gives to
    its code point. The length of a [str] is the number of bytes that
    start a character, and [encode("utf-8")] leaves the bytes as they
    are, or raises on the first surrogate. What the function takes from
    outside is given to it: the text of
    [datetime.now().isoformat(timespec='seconds')], and what writing a
    file does. *)
(* ===================================================================== *)

Definition nl : string := String (Ascii.ascii_of_nat 10) EmptyString.

Definition dquote : string := String (Ascii.ascii_of_nat 34) EmptyString.

(** [len(s)] *)
Fixpoint py_len (s : string) : nat :=
  match s with
  | EmptyString => 0%nat
  | String c rest =>
      let n := Ascii.N_of_ascii c in
      if ((128 <=? n) && (n <? 192))%N then py_len rest
      else S (py_len rest)
  end.

(** The bytes at the head of [s] are a surrogate. *)
Definition surrogate_head (s : string) : bool :=
  match s with
  | String c (String d _) =>
      ((Ascii.N_of_ascii c =? 237) && (160 <=? Ascii.N_of_ascii d) &&
       (Ascii.N_of_ascii d <=? 191))%N
  | _ => false
  end.

(** The number of surrogates in a row at the head of [s]. *)
Fixpoint surrogate_run (s : string) : nat :=
  match s with
  | String c (String d (String e rest)) =>
      if surrogate_head s then S (surrogate_run rest) else 0%nat
  | _ => 0%nat
  end.

(** The first surrogates of [s], as the range of their indices in the
    [str]; [pos] is the index of the character at the head. *)
Fixpoint first_surrogates (s : string) (pos : nat) : option (nat * nat) :=
  match s with
  | EmptyString => None
  | String c rest =>
      let n := Ascii.N_of_ascii c in
      if ((128 <=? n) && (n <? 192))%N then first_surrogates rest pos
      else if surrogate_head s then
        Some (pos, (pos + Nat.max 1 (surrogate_run s))%nat)
      else first_surrogates rest (S pos)
  end.

(** [s.encode("utf-8")] *)
Definition encode_utf8 (s : string) : outcome string :=
  match first_surrogates s 0 with
  | Some (start, stop) => Raised (UnicodeEncodeError start stop)
  | None => Returned s
  end.

(** [s * n] *)
Fixpoint str_repeat (s : string) (n : nat) : string :=
  match n with
  | O => EmptyString
  | S n' => (s ++ str_repeat s n')%string
  end.

(** The format specs [<w] and [>w]: spaces after or before the text, up
    to the width; a longer text is left whole. *)
Definition ljust (w : nat) (s : string) : string :=
  (s ++ str_repeat " " (w - py_len s))%string.

Definition rjust (w : nat) (s : string) : string :=
  (str_repeat " " (w - py_len s) ++ s)%string.

(** The format spec [.pf] on a float, for [0 < p]: the exact value is
    rounded half to even to [p] decimals. *)
Definition format_fixed (p : nat) (x : float) : string :=
  match Prim2SF x with
  | S754_nan => "nan"
  | S754_infinity s => if s then "-inf" else "inf"
  | S754_zero s =>
      ((if s then "-" else "") ++ "0." ++ str_repeat "0" p)%string
  | S754_finite s m e =>
      let scale := 10 ^ Z.of_nat p in
      let n := if 0 <=? e then Z.pos m * scale * 2 ^ e
               else rne_shift (Z.pos m * scale) (- e) in
      let frac := str_of_int (n mod scale) in
      ((if s then "-" else "") ++ str_of_int (n / scale) ++ "." ++
       str_repeat "0" (p - String.length frac) ++ frac)%string
  end.

(** The format spec [>w.pf] on a float. *)
Definition format_float (w p : nat) (x : float) : string :=
  rjust w (format_fixed p x).

(** The same on the value of a field annotated [float]: an int is
    converted first. *)
Definition format_num (w p : nat) (q : pynum) : outcome string :=
  x <~ lift (num_as_float q) ;; Returned (format_float w p x).

(** ["\n".join(lines)] *)
Fixpoint join_lines (lines : list string) : string :=
  match lines with
  | [] => EmptyString
  | [line] => line
  | line :: rest => (line ++ nl ++ join_lines rest)%string
  end.

(** The lines of the loop over the priced lines. *)
Fixpoint item_lines (items : list LineItemEstimate) : outcome (list string) :=
  match items with
  | [] => Returned []
  | item :: rest =>
      quantity <~ format_num 7 2 (le_quantity item) ;;
      let line :=
        (ljust 12 (le_sku item) ++ " " ++
         quantity ++ " " ++ ljust 6 (le_unit item) ++ " " ++
         "@ " ++ format_float 8 2 (le_unit_price item) ++ " = " ++
         format_float 9 2 (le_extended_price item))%string in
      let described :=
        if String.eqb (le_description item) "" then [line]
        else [line; ("  " ++ le_description item)%string] in
      more <~ item_lines rest ;;
      Returned (described ++ more)
  end.

(** [if name:] on an optional string. *)
Definition given (name : option string) : bool :=
  match name with
  | Some s => negb (String.eqb s "")
  | None => false
  end.

Definition text_of (name : option string) : string :=
  match name with
  | Some s => s
  | None => EmptyString
  end.

(** The text of the quote, [content] in the source; [now] is the text
    of the time stamp. *)
Definition quote_content (now : string) (estimate : EstimateBreakdown)
    (customer_name project_name : option string) : outcome string :=
  let head :=
    [ "FENCE QUOTE"; str_repeat "=" 40; ("Generated: " ++ now)%string ] ++
    (if given customer_name
     then [("Customer: " ++ text_of customer_name)%string] else []) ++
    (if given project_name
     then [("Project: " ++ text_of project_name)%string] else []) ++
    [ ""; "LINE ITEMS"; str_repeat "-" 40 ] in
  items <~ item_lines (line_items estimate) ;;
  let totals :=
    [ ""; "TOTALS"; str_repeat "-" 40;
      ("Materials:     " ++
       format_float 10 2 (materials_subtotal estimate))%string;
      ("Labor:         " ++ format_float 5 2 (labor_hours estimate) ++
       " h x " ++ format_float 7 2 (labor_rate estimate) ++ " = " ++
       format_float 10 2 (labor_total estimate))%string;
      ("Subtotal:      " ++ format_float 10 2 (subtotal estimate))%string;
      ("Margin (" ++ format_float 4 1 (margin_pct estimate) ++ "%): " ++
       format_float 10 2 (margin_amount estimate))%string;
      ("TOTAL:         " ++ format_float 10 2 (total estimate))%string;
      ""; "Thank you for your business." ] in
  Returned (join_lines (head ++ items ++ totals) ++ nl)%string.

(** [write_file path bytes] is what writing [bytes] to [path] raises, if
    it raises. *)
Definition render_quote_pdf (now : string)
    (write_file : string -> string -> option pyexn)
    (estimate : EstimateBreakdown)
    (customer_name project_name output_path : option string)
  : outcome string :=
  content <~ quote_content now estimate customer_name project_name ;;
  pdf_bytes <~ encode_utf8 content ;;
  if given output_path then
    match write_file (text_of output_path) pdf_bytes with
    | Some e => Raised e
    | None => Returned pdf_bytes
    end
  else Returned pdf_bytes.

(* ===================================================================== *)
(** ** The HTTP layer ([app/main.py])

    A request is the object that the framework hands to the handler,
    after validation: its fields annotated [float] are floats, the field
    [gates] is an int. *)
(* ===================================================================== *)

(** [base64.b64encode(bytes).decode("ascii")] *)
Definition b64_char (n : N) : Ascii.ascii :=
  (if n <? 26 then Ascii.ascii_of_N (65 + n)
   else if n <? 52 then Ascii.ascii_of_N (97 + (n - 26))
   else if n <? 62 then Ascii.ascii_of_N (48 + (n - 52))
   else if n =? 62 then "+"%char else "/"%char)%N.

Fixpoint b64encode (bytes : string) : string :=
  match bytes with
  | EmptyString => EmptyString
  | String a EmptyString =>
      let n := (Ascii.N_of_ascii a * 65536)%N in
      String (b64_char (n / 262144))
        (String (b64_char ((n / 4096) mod 64)) "==")
  | String a (String b EmptyString) =>
      let n := (Ascii.N_of_ascii a * 65536 + Ascii.N_of_ascii b * 256)%N in
      String (b64_char (n / 262144))
        (String (b64_char ((n / 4096) mod 64))
           (String (b64_char ((n / 64) mod 64)) "="))
  | String a (String b (String c rest)) =>
      let n := (Ascii.N_of_ascii a * 65536 + Ascii.N_of_ascii b * 256 +
                Ascii.N_of_ascii c)%N in
      String (b64_char (n / 262144))
        (String (b64_char ((n / 4096) mod 64))
           (String (b64_char ((n / 64) mod 64))
              (String (b64_char (n mod 64)) (b64encode rest))))
  end.

Record LineItem : Type := mkLineItem {
  item_sku : string;
  item_quantity : float
}.

Record EstimateRequest : Type := mkEstimateRequest {
  er_line_items : list LineItem;
  er_labor_hours : float;
  er_labor_rate : float;
  er_margin_pct : float;
  er_customer_name : option string;
  er_project_name : option string;
  er_include_pdf : bool
}.

Record FenceEstimateRequest : Type := mkFenceEstimateRequest {
  fr_fence_length_ft : float;
  fr_style : string;
  fr_posts_per_ft : float;
  fr_gates : Z;
  fr_labor_hours : float;
  fr_labor_rate : float;
  fr_margin_pct : float;
  fr_customer_name : option string;
  fr_project_name : option string;
  fr_include_pdf : bool
}.

Record PORequest : Type := mkPORequest {
  po_line_items : list LineItem;
  po_customer_name : option string;
  po_project_name : option string
}.

(** The constraints of the fields: [Field(gt=0)] and [Field(ge=0)]. *)
Definition valid_line_item (item : LineItem) : bool :=
  (0 <? item_quantity item)%float.

Definition valid_estimate_request (request : EstimateRequest) : bool :=
  forallb valid_line_item (er_line_items request) &&
  (0 <=? er_labor_hours request)%float &&
  (0 <=? er_labor_rate request)%float &&
  (0 <=? er_margin_pct request)%float.

Definition valid_fence_request (request : FenceEstimateRequest) : bool :=
  (0 <? fr_fence_length_ft request)%float &&
  (0 <? fr_posts_per_ft request)%float &&
  (0 <=? fr_gates request) &&
  (0 <=? fr_labor_hours request)%float &&
  (0 <=? fr_labor_rate request)%float &&
  (0 <=? fr_margin_pct request)%float.

Definition valid_po_request (request : PORequest) : bool :=
  forallb valid_line_item (po_line_items request).

(** What a handler returns: the dict of the estimate, with the key
    [pdf_base64] when the quote was asked for. *)
Record EstimatePayload : Type := mkEstimatePayload {
  payload_estimate : EstimateBreakdown;
  pdf_base64 : option string
}.

Record StreamingResponse : Type := mkStreamingResponse {
  body : string;
  media_type : string;
  headers : list (string * string)
}.

Section App.

Variable B : Builtins.

(** The clauses [except KeyError] and [except ValueError] of the
    handlers: [str] of a [KeyError] is the [repr] of its message. *)
Definition as_bad_request {A : Type} (c : result A) : outcome A :=
  match c with
  | Ok a => Returned a
  | Raise (KeyError msg) => Raised (HTTPException 400 (py_repr B msg))
  | Raise (ValueError msg) => Raised (HTTPException 400 msg)
  | Raise (OverflowError msg) => Raised (Core (OverflowError msg))
  end.

(** [env_path] is [os.getenv("PRICEBOOK_PATH")], [sep] the separator of
    [os.path.join]; [file_at path] is [None] when nothing exists at
    [path], and otherwise what the reader yields on the file there. *)
Definition candidates (env_path : option string) (sep : string)
  : list string :=
  (if given env_path then [text_of env_path] else []) ++
  ["pricebook.csv"; ("samples" ++ sep ++ "pricebook.csv")%string].

Fixpoint load_first
    (file_at : string -> option csv_file)
    (paths : list string) : outcome Pricebook :=
  match paths with
  | [] =>
      Raised (RuntimeError
        "No pricebook CSV found. Set PRICEBOOK_PATH or add pricebook.csv.")
  | candidate :: rest =>
      if negb (String.eqb candidate "") then
        match file_at candidate with
        | Some file => load_pricebook B candidate (Some file)
        | None => load_first file_at rest
        end
      else load_first file_at rest
  end.

Definition _load_pricebook_for_app (env_path : option string) (sep : string)
    (file_at : string -> option csv_file)
  : outcome Pricebook :=
  load_first file_at (candidates env_path sep).

(** [app.state.pricebook] after [startup_event]. *)
Definition startup_event (env_path : option string) (sep : string)
    (file_at : string -> option csv_file)
  : outcome (option Pricebook) :=
  pricebook <~ _load_pricebook_for_app env_path sep file_at ;;
  Returned (Some pricebook).

(** [state] is [app.state.pricebook], [None] when the attribute is not
    set. *)
Definition _ensure_pricebook (state : option Pricebook) : outcome Pricebook :=
  match state with
  | Some (entry :: rest) => Returned (entry :: rest)
  | Some [] | None => Raised (HTTPException 500 "Pricebook is not loaded")
  end.

Definition line_inputs_of (items : list LineItem) : list LineItemInput :=
  map (fun item =>
         mkLineItemInput (item_sku item) (PyFloat (item_quantity item)))
      items.

Definition no_write (path bytes : string) : option pyexn := None.

Variable now : string.

Definition create_estimate (state : option Pricebook)
    (request : EstimateRequest) : outcome EstimatePayload :=
  match er_line_items request with
  | [] => Raised (HTTPException 400 "At least one line item is required")
  | _ :: _ =>
      pricebook <~ _ensure_pricebook state ;;
      let line_inputs := line_inputs_of (er_line_items request) in
      estimate <~ as_bad_request
        (calculate_estimate pricebook line_inputs (er_labor_hours request)
           (er_labor_rate request) (er_margin_pct request)) ;;
      if er_include_pdf request then
        pdf_bytes <~ render_quote_pdf now no_write estimate
          (er_customer_name request) (er_project_name request) None ;;
        Returned (mkEstimatePayload estimate (Some (b64encode pdf_bytes)))
      else Returned (mkEstimatePayload estimate None)
  end.

Definition create_purchase_order (state : option Pricebook)
    (request : PORequest) : outcome StreamingResponse :=
  match po_line_items request with
  | [] => Raised (HTTPException 400 "At least one line item is required")
  | _ :: _ =>
      pricebook <~ _ensure_pricebook state ;;
      let line_inputs := line_inputs_of (po_line_items request) in
      estimate <~ as_bad_request
        (calculate_estimate pricebook line_inputs 0 0 0) ;;
      pdf_bytes <~ render_quote_pdf now no_write estimate
        (po_customer_name request) (po_project_name request) None ;;
      Returned (mkStreamingResponse pdf_bytes "application/pdf"
        [ ("Content-Disposition",
           ("attachment; filename=" ++ dquote ++ "po.pdf" ++ dquote)%string) ])
  end.

Definition create_fence_estimate (state : option Pricebook)
    (request : FenceEstimateRequest) : outcome EstimatePayload :=
  pricebook <~ _ensure_pricebook state ;;
  let fence_input :=
    mkFenceEstimateInput (fr_fence_length_ft request) (fr_style request)
      (fr_posts_per_ft request) (fr_gates request) in
  estimate <~ as_bad_request
    (line_inputs <- build_fence_bom pricebook fence_input ;;
     calculate_estimate pricebook line_inputs (fr_labor_hours request)
       (fr_labor_rate request) (fr_margin_pct request)) ;;
  if fr_include_pdf request then
    pdf_bytes <~ render_quote_pdf now no_write estimate
      (fr_customer_name request) (fr_project_name request) None ;;
    Returned (mkEstimatePayload estimate (Some (b64encode pdf_bytes)))
  else Returned (mkEstimatePayload estimate None).

End App.

(** *** Vocabulary of the statements on the handlers *)

(** What a handler gives once the estimate is there: the payload alone
    when no quote is asked for; with a quote asked for, the payload with
    the quote in base 64, or the [UnicodeEncodeError] that rendering the
    quote raises. *)
Definition answers_with_estimate (now : string)
    (estimate : EstimateBreakdown) (customer project : option string)
    (include_pdf : bool) (response : outcome EstimatePayload) : Prop :=
  (include_pdf = false /\
   response = Returned (mkEstimatePayload estimate None)) \/
  (include_pdf = true /\
   ((exists pdf,
       render_quote_pdf now no_write estimate customer project None =
         Returned pdf /\
       response =
         Returned (mkEstimatePayload estimate (Some (b64encode pdf)))) \/
    (exists start stop,
       render_quote_pdf now no_write estimate customer project None =
         Raised (UnicodeEncodeError start stop) /\
       response = Raised (UnicodeEncodeError start stop)))).

(** *** Values of the examples *)

Definition demo_estimate : EstimateBreakdown :=
  match calculate_estimate demo_pricebook demo_bom 2 50 10 with
  | Ok estimate => estimate
  | Raise _ => mkEstimateBreakdown 0 0 0 0 0 0 0 0 []
  end.

(** A breakdown built by hand, with an int quantity of [2^1024]. *)
Definition huge_line : LineItemEstimate :=
  mkLineItemEstimate "P1" "Post" (PyInt (2 ^ 1024)) "ea" 1 1.

Definition huge_estimate : EstimateBreakdown :=
  mkEstimateBreakdown 1 0 0 0 1 0 0 1 [huge_line].

Definition fence_rows : list csv_row :=
  [ demo_row "P1" "Post 4x4" "ea" "12.50" "post";
    demo_row "R1" "Rail 2x4" "ea" "8" "rail";
    demo_row "K1" "Picket" "ea" "2.35" "picket";
    demo_row "C1" "Concrete bag" "bag" "6.99" "concrete";
    demo_row "F1" "Screws" "box" "24" "fastener";
    demo_row "G1" "Gate kit" "ea" "149.99" "gate" ].

(** A directory that holds [pricebook.csv] only, with the rows [rows]. *)
Definition only_pricebook_csv (rows : list csv_row) (path : string)
  : option csv_file :=
  if String.eqb path "pricebook.csv" then Some (Rows demo_headers rows None)
  else None.

Definition demo_estimate_request : EstimateRequest :=
  mkEstimateRequest
    [mkLineItem "P1" 9; mkLineItem "ZZ" 1; mkLineItem "R1" 16]
    2 50 10 (Some "Ann") None true.

Definition demo_fence_request : FenceEstimateRequest :=
  mkFenceEstimateRequest 100 "wood" 0.0833 1 2 50 10 (Some "Ann") None false.

Definition demo_po_request : PORequest :=
  mkPORequest [mkLineItem "P1" 9; mkLineItem "R1" 16] None (Some "Yard").

(** ["Ann"] followed by the lone surrogate U+D800. *)
Definition surrogate_name : string :=
  ("Ann" ++ String (Ascii.ascii_of_nat 237)
              (String (Ascii.ascii_of_nat 160)
                 (String (Ascii.ascii_of_nat 128) EmptyString)))%string.

(* ===================================================================== *)
(** ** The model on known values *)
(* ===================================================================== *)

(** [round(2.675, 2) == 2.67], [round(0.125, 2) == 0.12],
    [round(0.375, 2) == 0.38], [round(-0.001, 2) == -0.0]. *)
Example py_round2_values :
  py_round2 2.675%float = 2.67%float /\
  py_round2 0.125%float = 0.12%float /\
  py_round2 0.375%float = 0.38%float /\
  py_round2 (-0.001)%float = neg_zero.
Proof. repeat split; reflexivity. Qed.

(** [math.ceil(8.33) == 9], [math.ceil(-8.33) == -8], [math.ceil(7.0) == 7],
    and [math.ceil(float("inf"))] raises. *)
Example py_ceil_values :
  py_ceil 8.33%float = Ok 9 /\
  py_ceil (-8.33)%float = Ok (-8) /\
  py_ceil 7%float = Ok 7 /\
  py_ceil infinity =
    Raise (OverflowError "cannot convert float infinity to integer").
Proof. repeat split; reflexivity. Qed.

(** [float(2**53 + 1) == 2.0**53] (a tie, to even),
    [float(2**53 + 3) == 2.0**53 + 4], and [float(2**1024)] raises. *)
Example int_as_double_values :
  int_as_double (2 ^ 53 + 1) = Ok 9007199254740992%float /\
  int_as_double (2 ^ 53 + 3) = Ok 9007199254740996%float /\
  int_as_double (2 ^ 1024) =
    Raise (OverflowError "int too large to convert to float").
Proof. repeat split; reflexivity. Qed.

(** Examples 1 to 3 of the spec: three units at 10.00, then two hours of
    labor at 50, then a margin of 10 percent. *)
Example estimate_examples :
  calculate_estimate single_pricebook [mkLineItemInput "A" (PyFloat 3)] 0 0 0 =
    Ok (mkEstimateBreakdown 30 0 0 0 30 0 0 30
          [mkLineItemEstimate "A" "Cedar picket" (PyFloat 3) "ea" 10 30]) /\
  calculate_estimate single_pricebook [mkLineItemInput "A" (PyFloat 3)] 2 50 0 =
    Ok (mkEstimateBreakdown 30 2 50 100 130 0 0 130
          [mkLineItemEstimate "A" "Cedar picket" (PyFloat 3) "ea" 10 30]) /\
  calculate_estimate single_pricebook [mkLineItemInput "A" (PyFloat 3)] 2 50 10 =
    Ok (mkEstimateBreakdown 30 2 50 100 130 10 13 143
          [mkLineItemEstimate "A" "Cedar picket" (PyFloat 3) "ea" 10 30]).
Proof. repeat split; reflexivity. Qed.

(** Example 4 of the spec: 100 feet of fence at 0.0833 posts per foot,
    with one gate. *)
Example bom_example : build_fence_bom demo_pricebook demo_fence = Ok demo_bom.
Proof. reflexivity. Qed.

(* ===================================================================== *)
(** ** Comparisons with zero *)
(* ===================================================================== *)

Lemma Prim2SF_zero : Prim2SF 0%float = S754_zero false.
Proof. reflexivity. Qed.

Lemma float_nonneg_not_lt0 (x : float) :
  float_nonneg x = true -> float_lt0 x = false.
Proof.
  unfold float_nonneg, float_lt0.
  rewrite leb_spec, ltb_spec, Prim2SF_zero.
  destruct (Prim2SF x) as [s | s | | s m e]; try destruct s; cbn;
    congruence.
Qed.

Lemma float_pos_not_le0 (x : float) :
  (0 <? x)%float = true -> (x <=? 0)%float = false.
Proof.
  rewrite leb_spec, ltb_spec, Prim2SF_zero.
  destruct (Prim2SF x) as [s | s | | s m e]; try destruct s; cbn;
    congruence.
Qed.

Lemma num_pos_not_le0 (q : pynum) : num_pos q = true -> num_le0 q = false.
Proof.
  destruct q as [n | x]; cbn.
  - intros H. apply Z.ltb_lt in H. apply Z.leb_gt. exact H.
  - apply float_pos_not_le0.
Qed.

Lemma labor_guard_passes (lh lr mp : float) :
  float_nonneg lh = true -> float_nonneg lr = true ->
  float_nonneg mp = true ->
  float_lt0 lh || float_lt0 lr || float_lt0 mp = false.
Proof.
  intros H1 H2 H3.
  rewrite (float_nonneg_not_lt0 _ H1), (float_nonneg_not_lt0 _ H2),
    (float_nonneg_not_lt0 _ H3).
  reflexivity.
Qed.

(* ===================================================================== *)
(** ** The pricing loop *)
(* ===================================================================== *)

Section PricingLoop.

Variable pricebook : Pricebook.

Lemma line_product_some (item : LineItemInput) :
  in_catalog pricebook item -> float_valued (li_quantity item) = true ->
  line_product pricebook item <> None.
Proof.
  unfold in_catalog, float_valued, line_product.
  destruct (pb_lookup pricebook (li_sku item)); [| congruence].
  destruct (num_as_float (li_quantity item)); cbn; congruence.
Qed.

Lemma prices_ok_intro (item : LineItemInput) :
  num_pos (li_quantity item) = true -> in_catalog pricebook item ->
  float_valued (li_quantity item) = true -> prices_ok pricebook item.
Proof.
  intros Hq Hc Hf. split.
  - apply num_pos_not_le0, Hq.
  - apply line_product_some; assumption.
Qed.

(** One passing iteration: the line is appended with its rounded product
    and the unrounded product joins the running subtotal. *)
Lemma price_lines_step (item : LineItemInput) (rest : list LineItemInput)
    (acc : list LineItemEstimate) (mat : float) :
  prices_ok pricebook item ->
  exists line p,
    line_product pricebook item = Some p /\
    le_extended_price line = py_round2 p /\
    price_lines pricebook (item :: rest) acc mat =
      price_lines pricebook rest (acc ++ [line]) (mat + p)%float.
Proof.
  intros [Hq Hp]. unfold line_product in *. cbn [price_lines].
  rewrite Hq. unfold get_item, num_mul_float.
  destruct (pb_lookup pricebook (li_sku item)) as [pb_item |];
    [| congruence].
  destruct (num_as_float (li_quantity item)) as [q | e]; [| congruence].
  cbn [bind]. eexists _, _. split; [reflexivity |].
  split; [| reflexivity]. reflexivity.
Qed.

(** A passing prefix is consumed, and the loop goes on with the rest. *)
Lemma price_lines_prefix (pre rest : list LineItemInput) :
  Forall (prices_ok pricebook) pre ->
  forall acc mat, exists lines ps,
    map (line_product pricebook) pre = map Some ps /\
    map le_extended_price lines = map py_round2 ps /\
    price_lines pricebook (pre ++ rest) acc mat =
      price_lines pricebook rest (acc ++ lines) (fold_left PrimFloat.add ps mat).
Proof.
  induction 1 as [| item pre Hitem Hpre IH]; intros acc mat.
  - exists [], []. rewrite app_nil_r. repeat split; reflexivity.
  - destruct (price_lines_step item (pre ++ rest) acc mat Hitem)
      as (line & p & Hp & Hl & Hstep).
    destruct (IH (acc ++ [line]) (mat + p)%float)
      as (lines & ps & Hps & Hls & Hrest).
    exists (line :: lines), (p :: ps). cbn [map app fold_left].
    rewrite Hp, Hl, Hps, Hls. repeat split; try reflexivity.
    rewrite Hstep, Hrest, <- app_assoc. reflexivity.
Qed.

Lemma price_lines_all_ok (items : list LineItemInput) :
  Forall (prices_ok pricebook) items ->
  exists lines ps,
    map (line_product pricebook) items = map Some ps /\
    map le_extended_price lines = map py_round2 ps /\
    price_lines pricebook items [] 0%float = Ok (lines, float_sum ps).
Proof.
  intros H.
  destruct (price_lines_prefix items [] H [] 0%float)
    as (lines & ps & Hps & Hls & Heq).
  rewrite app_nil_r in Heq. exists lines, ps. auto.
Qed.

(** The loop raises a [ValueError] only at a non-positive quantity, and
    then every earlier line has passed. *)
Lemma price_lines_value_error (items : list LineItemInput) :
  forall acc mat msg,
    price_lines pricebook items acc mat = Raise (ValueError msg) ->
    exists pre item post,
      items = pre ++ item :: post /\
      Forall (prices_ok pricebook) pre /\
      num_le0 (li_quantity item) = true /\
      ValueError msg = quantity_error (li_sku item).
Proof.
  induction items as [| item rest IH]; intros acc mat msg H.
  - discriminate.
  - cbn [price_lines] in H.
    destruct (num_le0 (li_quantity item)) eqn:Hq.
    + exists [], item, rest. repeat split; auto. congruence.
    + unfold get_item, num_mul_float in H.
      destruct (pb_lookup pricebook (li_sku item)) as [pb_item |] eqn:Hl;
        [| discriminate].
      cbn [bind] in H.
      destruct (num_as_float (li_quantity item)) as [q | e] eqn:Hf.
      * cbn [bind] in H. apply IH in H.
        destruct H as (pre & it & post & -> & Hpre & Hle & Hmsg).
        exists (item :: pre), it, post. repeat split; auto.
        constructor; [| exact Hpre]. split; [exact Hq |].
        unfold line_product. rewrite Hl, Hf. discriminate.
      * cbn [bind] in H. destruct (li_quantity item) as [n | x];
          cbn in Hf; [| discriminate].
        unfold int_as_double in Hf.
        destruct n; try discriminate;
          destruct (long_frexp _) as [m k];
          destruct (1024 <? Z.log2 m + 1 + k); congruence.
Qed.

End PricingLoop.

(* ===================================================================== *)
(** ** [calculate_estimate] *)
(* ===================================================================== *)

(** C1, amended. With every SKU in the catalog, every quantity positive
    and a float, or an int that Python converts to a float, and with
    non-negative labor hours, labor rate and margin, [calculate_estimate]
    returns a breakdown: the extended price of each priced line is the
    rounding of its product [quantity * unit_price]; the materials
    subtotal is the rounding of the sum of the unrounded products; the
    total is the rounding of materials plus labor plus margin, the margin
    being [(materials + labor) * (margin_pct / 100)]. *)
Theorem calculate_estimate_arithmetic
    (pb : Pricebook) (items : list LineItemInput) (lh lr mp : float) :
  float_nonneg lh = true -> float_nonneg lr = true ->
  float_nonneg mp = true ->
  Forall (in_catalog pb) items ->
  Forall (fun it => num_pos (li_quantity it) = true) items ->
  Forall (fun it => float_valued (li_quantity it) = true) items ->
  exists b products,
    calculate_estimate pb items lh lr mp = Ok b /\
    map (line_product pb) items = map Some products /\
    map le_extended_price (line_items b) = map py_round2 products /\
    materials_subtotal b = py_round2 (float_sum products) /\
    total b =
      py_round2 (float_sum products + lh * lr +
                 (float_sum products + lh * lr) * (mp / 100))%float.
Proof.
  intros Hh Hr Hm Hcat Hpos Hval.
  assert (Hok : Forall (prices_ok pb) items).
  { rewrite Forall_forall in *. intros it Hin.
    apply prices_ok_intro; auto. }
  destruct (price_lines_all_ok pb items Hok) as (lines & ps & Hps & Hls & Hrun).
  unfold calculate_estimate.
  rewrite (labor_guard_passes _ _ _ Hh Hr Hm), Hrun. cbn [bind].
  eexists _, ps. split; [reflexivity |]. cbn. auto.
Qed.

Lemma calculate_estimate_arithmetic_witness :
  exists b products,
    calculate_estimate single_pricebook [mkLineItemInput "A" (PyFloat 3)]
      2 50 10 = Ok b /\
    map (line_product single_pricebook) [mkLineItemInput "A" (PyFloat 3)] =
      map Some products /\
    map le_extended_price (line_items b) = map py_round2 products /\
    materials_subtotal b = py_round2 (float_sum products) /\
    total b =
      py_round2 (float_sum products + 2 * 50 +
                 (float_sum products + 2 * 50) * (10 / 100))%float.
Proof.
  apply (calculate_estimate_arithmetic single_pricebook
           [mkLineItemInput "A" (PyFloat 3)] 2 50 10);
    try reflexivity; repeat constructor; discriminate.
Defined.

(** C1 as stated fails, twice. A quantity that is positive, with its SKU
    in the catalog, but an int too large for a float makes the product
    raise, and no breakdown is returned. And the margin is not [(materials
    + labor) * margin_pct / 100] evaluated from left to right: for one job
    at 2693.30 and a margin of 55 percent the total is 4174.62, where that
    formula gives 4174.61. *)
Lemma calculate_estimate_arithmetic_counterexample :
  (let items := [mkLineItemInput "A" (PyInt (2 ^ 1024))] in
   Forall (in_catalog single_pricebook) items /\
   Forall (fun it => num_pos (li_quantity it) = true) items /\
   calculate_estimate single_pricebook items 0 0 0 =
     Raise (OverflowError "int too large to convert to float")) /\
  (exists b,
     calculate_estimate job_pricebook [mkLineItemInput "M" (PyFloat 1)]
       0 0 55 = Ok b /\
     total b = 4174.62%float /\
     py_round2 (2693.3 + 0 * 0 + (2693.3 + 0 * 0) * 55 / 100)%float =
       4174.61%float).
Proof.
  split.
  - repeat split; try reflexivity; repeat constructor. discriminate.
  - eexists. split; [vm_compute; reflexivity |]. split; reflexivity.
Qed.

(** Such an int is a quantity that [build_fence_bom] itself can emit: the
    rails of a fence of 1e300 feet with 1e8 posts per foot. *)
Example overflowing_quantity_from_bom :
  exists bom,
    build_fence_bom demo_pricebook (mkFenceEstimateInput 1e300 "wood" 1e8 0)
      = Ok bom /\
    Forall (in_catalog demo_pricebook) bom /\
    Forall (fun it => num_pos (li_quantity it) = true) bom /\
    calculate_estimate demo_pricebook bom 0 0 0 =
      Raise (OverflowError "int too large to convert to float").
Proof.
  eexists. split; [vm_compute; reflexivity |].
  repeat split; try (vm_compute; reflexivity);
    repeat constructor; discriminate.
Qed.

(** The rounding of the sum is not the sum of the roundings: two lines of
    0.004 each are displayed as 0.0 and add up to a subtotal of 0.01. *)
Example subtotal_is_not_sum_of_rounded_lines :
  let pb := [("T", mkPricebookItem "T" "Tack" "ea" 0.004%float None None)] in
  exists b,
    calculate_estimate pb
      [mkLineItemInput "T" (PyFloat 1); mkLineItemInput "T" (PyFloat 1)]
      0 0 0 = Ok b /\
    map le_extended_price (line_items b) = [0%float; 0%float] /\
    materials_subtotal b = 0.01%float.
Proof.
  eexists. split; [vm_compute; reflexivity |]. split; reflexivity.
Qed.

(** C2, amended. [calculate_estimate] raises a [ValueError] exactly in two
    cases: one of labor hours, labor rate and margin is negative, with the
    fixed message that names the three parameters; or none is, and some
    line has a quantity [<= 0] while every line before it was priced
    without raising (positive quantity, SKU in the catalog), with the
    message that names the SKU of that line. *)
Theorem validation_error_iff
    (pb : Pricebook) (items : list LineItemInput) (lh lr mp : float)
    (msg : string) :
  calculate_estimate pb items lh lr mp = Raise (ValueError msg) <->
  (labor_negative lh lr mp = true /\ ValueError msg = labor_error) \/
  (labor_negative lh lr mp = false /\
   exists pre item post,
     items = pre ++ item :: post /\
     Forall (prices_ok pb) pre /\
     num_le0 (li_quantity item) = true /\
     ValueError msg = quantity_error (li_sku item)).
Proof.
  unfold calculate_estimate, labor_negative.
  destruct (float_lt0 lh || float_lt0 lr || float_lt0 mp).
  - split.
    + intros H. left. split; congruence.
    + intros [[_ H] | [H _]]; congruence.
  - split.
    + intros H. right. split; [reflexivity |].
      destruct (price_lines pb items [] 0%float) as [[lines mat] | e] eqn:Hrun;
        cbn [bind] in H; [discriminate |].
      apply (price_lines_value_error pb items [] 0%float msg). congruence.
    + intros [[H _] | [_ (pre & item & post & -> & Hpre & Hq & Hmsg)]];
        [discriminate |].
      destruct (price_lines_prefix pb pre (item :: post) Hpre [] 0%float)
        as (lines & ps & _ & _ & Hrun).
      rewrite Hrun. cbn [price_lines]. rewrite Hq. cbn [bind]. congruence.
Qed.

Lemma validation_error_iff_witness :
  calculate_estimate single_pricebook
    [mkLineItemInput "A" (PyFloat 3); mkLineItemInput "A" (PyFloat 0)] 0 0 0 =
  Raise (ValueError "Quantity must be positive for SKU A").
Proof.
  apply (validation_error_iff single_pricebook
           [mkLineItemInput "A" (PyFloat 3); mkLineItemInput "A" (PyFloat 0)]).
  right. split; [reflexivity |].
  exists [mkLineItemInput "A" (PyFloat 3)], (mkLineItemInput "A" (PyFloat 0)), [].
  repeat split; try reflexivity.
  repeat constructor. discriminate.
Defined.

(** C2 as stated fails on two counts. A line has quantity [0], yet the
    error raised is the lookup error of an earlier line, not a validation
    error. And the error for labor does not identify the offending value:
    negative labor hours, a negative labor rate and a negative margin, of
    different values, raise the same exception with the same message,
    which names all three parameters and no value. *)
Lemma validation_error_iff_counterexample :
  (Exists (fun it => num_le0 (li_quantity it) = true)
     [mkLineItemInput "B" (PyFloat 1); mkLineItemInput "A" (PyFloat 0)] /\
   calculate_estimate single_pricebook
     [mkLineItemInput "B" (PyFloat 1); mkLineItemInput "A" (PyFloat 0)]
     0 0 0 =
     Raise (KeyError "SKU not found in pricebook: B")) /\
  (calculate_estimate single_pricebook [] (-1) 0 0 =
     Raise (ValueError
       "labor_hours, labor_rate, and margin_pct must be non-negative") /\
   calculate_estimate single_pricebook [] 0 (-2.5) 0 =
     Raise (ValueError
       "labor_hours, labor_rate, and margin_pct must be non-negative") /\
   calculate_estimate single_pricebook [] 0 0 (-40) =
     Raise (ValueError
       "labor_hours, labor_rate, and margin_pct must be non-negative")).
Proof.
  split.
  - split; [| reflexivity].
    apply Exists_cons_tl, Exists_cons_hd. reflexivity.
  - repeat split; reflexivity.
Qed.

(** C3, amended. With non-negative labor hours, labor rate and margin and
    every quantity positive, a line whose SKU is the first one absent from
    the catalog makes [calculate_estimate] raise the [KeyError] that names
    that SKU, provided the quantity of every line before it is a float, or
    an int that Python converts to a float; no breakdown is returned. *)
Theorem first_missing_sku_raises
    (pb : Pricebook) (pre : list LineItemInput) (item : LineItemInput)
    (post : list LineItemInput) (lh lr mp : float) :
  float_nonneg lh = true -> float_nonneg lr = true ->
  float_nonneg mp = true ->
  Forall (fun it => num_pos (li_quantity it) = true) (pre ++ item :: post) ->
  Forall (fun it => float_valued (li_quantity it) = true) pre ->
  Forall (in_catalog pb) pre ->
  pb_lookup pb (li_sku item) = None ->
  calculate_estimate pb (pre ++ item :: post) lh lr mp =
    Raise (KeyError ("SKU not found in pricebook: " ++ li_sku item)%string).
Proof.
  intros Hh Hr Hm Hpos Hval Hcat Hmiss.
  apply Forall_app in Hpos. destruct Hpos as [Hpre Hrest].
  apply Forall_cons_iff in Hrest. destruct Hrest as [Hitem _].
  assert (Hok : Forall (prices_ok pb) pre).
  { rewrite Forall_forall in *. intros it Hin.
    apply prices_ok_intro; auto. }
  destruct (price_lines_prefix pb pre (item :: post) Hok [] 0%float)
    as (lines & ps & _ & _ & Hrun).
  unfold calculate_estimate.
  rewrite (labor_guard_passes _ _ _ Hh Hr Hm), Hrun. cbn [price_lines].
  rewrite (num_pos_not_le0 _ Hitem). unfold get_item. rewrite Hmiss.
  reflexivity.
Qed.

Lemma first_missing_sku_raises_witness :
  calculate_estimate single_pricebook
    ([mkLineItemInput "A" (PyFloat 3)] ++
     mkLineItemInput "B" (PyFloat 1) :: [mkLineItemInput "C" (PyFloat 2)])
    2 50 10 =
  Raise (KeyError "SKU not found in pricebook: B").
Proof.
  apply (first_missing_sku_raises single_pricebook
           [mkLineItemInput "A" (PyFloat 3)] (mkLineItemInput "B" (PyFloat 1))
           [mkLineItemInput "C" (PyFloat 2)] 2 50 10);
    try reflexivity; repeat constructor; discriminate.
Defined.

(** C3 as stated fails: "B" is the first SKU absent from the catalog and
    every quantity is positive, but the line before it holds an int too
    large for a float, and the exception is that of its product. *)
Lemma first_missing_sku_raises_counterexample :
  let items :=
    [mkLineItemInput "A" (PyInt (2 ^ 1024)); mkLineItemInput "B" (PyFloat 1)] in
  Forall (fun it => num_pos (li_quantity it) = true) items /\
  pb_lookup single_pricebook "A" <> None /\
  pb_lookup single_pricebook "B" = None /\
  calculate_estimate single_pricebook items 0 0 0 =
    Raise (OverflowError "int too large to convert to float").
Proof.
  repeat split; try reflexivity; repeat constructor. discriminate.
Qed.

(** C4, amended. The check of labor hours, labor rate and margin comes
    before any line is looked at. The quantity of a line is checked before
    the lookup of that same line, line after line in input order: when
    every earlier line was priced without raising, a line with a quantity
    [<= 0] raises the validation error whether or not its SKU is in the
    catalog, and a line with a positive quantity and a SKU absent from the
    catalog raises the lookup error whatever the quantities of the lines
    after it. *)
Theorem validation_interleaved_with_lookup
    (pb : Pricebook) (items pre : list LineItemInput) (item : LineItemInput)
    (post : list LineItemInput) (lh lr mp : float) :
  (labor_negative lh lr mp = true ->
   calculate_estimate pb items lh lr mp = Raise labor_error) /\
  (labor_negative lh lr mp = false ->
   Forall (prices_ok pb) pre ->
   (num_le0 (li_quantity item) = true ->
    calculate_estimate pb (pre ++ item :: post) lh lr mp =
      Raise (quantity_error (li_sku item))) /\
   (num_le0 (li_quantity item) = false ->
    pb_lookup pb (li_sku item) = None ->
    calculate_estimate pb (pre ++ item :: post) lh lr mp =
      Raise (KeyError ("SKU not found in pricebook: " ++ li_sku item)%string))).
Proof.
  unfold calculate_estimate, labor_negative. split.
  - intros ->. reflexivity.
  - intros -> Hpre.
    destruct (price_lines_prefix pb pre (item :: post) Hpre [] 0%float)
      as (lines & ps & _ & _ & Hrun).
    rewrite Hrun. cbn [price_lines]. split.
    + intros ->. reflexivity.
    + intros -> Hmiss. unfold get_item. rewrite Hmiss. reflexivity.
Qed.

Lemma validation_interleaved_with_lookup_witness :
  calculate_estimate single_pricebook
    ([mkLineItemInput "A" (PyFloat 3)] ++
     mkLineItemInput "Z" (PyFloat 0) :: [mkLineItemInput "B" (PyFloat 1)])
    0 0 0 =
  Raise (quantity_error "Z").
Proof.
  apply (validation_interleaved_with_lookup single_pricebook []
           [mkLineItemInput "A" (PyFloat 3)] (mkLineItemInput "Z" (PyFloat 0))
           [mkLineItemInput "B" (PyFloat 1)] 0 0 0);
    try reflexivity.
  repeat constructor. discriminate.
Defined.

(** C4 as stated fails: the second line has a negative quantity, the first
    a SKU absent from the catalog, and the lookup error of the first line
    is what is raised. *)
Lemma validation_interleaved_with_lookup_counterexample :
  let items :=
    [mkLineItemInput "ZZ" (PyFloat 2); mkLineItemInput "A" (PyFloat (-1))] in
  Exists (fun it => num_le0 (li_quantity it) = true) items /\
  calculate_estimate single_pricebook items 0 0 0 =
    Raise (KeyError "SKU not found in pricebook: ZZ").
Proof.
  split; [| reflexivity].
  apply Exists_cons_tl, Exists_cons_hd. reflexivity.
Qed.

(** C9. The empty list of line items is not rejected: with non-negative
    labor hours, labor rate and margin the breakdown has no priced line
    and a materials subtotal of zero, and with the three at zero every
    monetary field is zero. *)
Theorem empty_line_items (pb : Pricebook) (lh lr mp : float) :
  float_nonneg lh = true -> float_nonneg lr = true ->
  float_nonneg mp = true ->
  (exists b,
     calculate_estimate pb [] lh lr mp = Ok b /\
     line_items b = [] /\ materials_subtotal b = 0%float) /\
  calculate_estimate pb [] 0 0 0 =
    Ok (mkEstimateBreakdown 0 0 0 0 0 0 0 0 []).
Proof.
  intros Hh Hr Hm. split; [| reflexivity].
  unfold calculate_estimate.
  rewrite (labor_guard_passes _ _ _ Hh Hr Hm). cbn [price_lines bind].
  eexists. split; [reflexivity |]. split; reflexivity.
Qed.

Lemma empty_line_items_witness :
  (exists b,
     calculate_estimate demo_pricebook [] 2 50 10 = Ok b /\
     line_items b = [] /\ materials_subtotal b = 0%float) /\
  calculate_estimate demo_pricebook [] 0 0 0 =
    Ok (mkEstimateBreakdown 0 0 0 0 0 0 0 0 []).
Proof.
  apply (empty_line_items demo_pricebook 2 50 10); reflexivity.
Defined.

Lemma price_lines_same_lookup (pb1 pb2 : Pricebook)
    (items : list LineItemInput) :
  (forall it, In it items ->
     pb_lookup pb1 (li_sku it) = pb_lookup pb2 (li_sku it)) ->
  forall acc mat,
    price_lines pb1 items acc mat = price_lines pb2 items acc mat.
Proof.
  induction items as [| item rest IH]; intros Hsame acc mat.
  - reflexivity.
  - cbn [price_lines]. unfold get_item.
    rewrite (Hsame item (or_introl eq_refl)).
    destruct (num_le0 (li_quantity item)); [reflexivity |].
    destruct (pb_lookup pb2 (li_sku item)) as [pb_item |]; [| reflexivity].
    cbn [bind].
    destruct (num_mul_float (li_quantity item) (pb_unit_price pb_item));
      [| reflexivity].
    cbn [bind]. apply IH. intros it Hin. apply Hsame. right. exact Hin.
Qed.

(** C10. Two catalogs that hold the same entry, or none, for every SKU of
    the line items give the same outcome of [calculate_estimate], breakdown
    or exception: entries under other SKUs have no influence. *)
Theorem unreferenced_entries_irrelevant
    (pb1 pb2 : Pricebook) (items : list LineItemInput) (lh lr mp : float) :
  (forall it, In it items ->
     pb_lookup pb1 (li_sku it) = pb_lookup pb2 (li_sku it)) ->
  calculate_estimate pb1 items lh lr mp =
  calculate_estimate pb2 items lh lr mp.
Proof.
  intros Hsame. unfold calculate_estimate.
  rewrite (price_lines_same_lookup pb1 pb2 items Hsame). reflexivity.
Qed.

Lemma unreferenced_entries_irrelevant_witness :
  calculate_estimate demo_pricebook
    [mkLineItemInput "P1" (PyInt 9); mkLineItemInput "XX" (PyFloat 1)] 2 50 10 =
  calculate_estimate
    [ ("P1", demo_item "P1" "post" 12.5%float);
      ("R1", demo_item "R1" "rail" 99%float) ]
    [mkLineItemInput "P1" (PyInt 9); mkLineItemInput "XX" (PyFloat 1)] 2 50 10.
Proof.
  apply unreferenced_entries_irrelevant.
  intros it [<- | [<- | []]]; reflexivity.
Defined.

(* ===================================================================== *)
(** ** [build_fence_bom] *)
(* ===================================================================== *)

Lemma category_is_true (c : string) (item : PricebookItem) :
  category_is c item = true <-> pb_category item = Some c.
Proof.
  unfold category_is. destruct (pb_category item) as [c' |].
  - rewrite String.eqb_eq. split; congruence.
  - split; discriminate.
Qed.

Lemma category_is_false (c : string) (item : PricebookItem) :
  category_is c item = false <-> pb_category item <> Some c.
Proof.
  rewrite <- category_is_true. destruct (category_is c item);
    split; congruence.
Qed.

Lemma first_by_category_ok (values : list PricebookItem) (c : string)
    (item : PricebookItem) :
  first_by_category values c = Ok item <-> first_with_category values c item.
Proof.
  unfold first_with_category. induction values as [| v rest IH];
    cbn [first_by_category].
  - split; [discriminate |].
    intros (before & after & H & _). destruct before; discriminate.
  - destruct (category_is c v) eqn:Hv.
    + apply category_is_true in Hv. split.
      * intros [= <-]. exists [], rest. auto.
      * intros (before & after & H & Hb & Hi).
        destruct before as [| b before]; cbn in H.
        -- congruence.
        -- injection H as <- _. apply Forall_cons_iff in Hb. tauto.
    + apply category_is_false in Hv. rewrite IH. split.
      * intros (before & after & -> & Hb & Hi).
        exists (v :: before), after. auto.
      * intros (before & after & H & Hb & Hi).
        destruct before as [| b before]; cbn in H.
        -- congruence.
        -- injection H as <- ->. apply Forall_cons_iff in Hb.
           exists before, after. tauto.
Qed.

Lemma first_by_category_raise (values : list PricebookItem) (c : string)
    (e : exn) :
  first_by_category values c = Raise e <->
  e = category_error c /\ Forall (fun i => pb_category i <> Some c) values.
Proof.
  induction values as [| v rest IH]; cbn [first_by_category].
  - split; [intros [= <-]; auto | intros [-> _]; reflexivity].
  - destruct (category_is c v) eqn:Hv.
    + apply category_is_true in Hv. split; [discriminate |].
      intros [_ H]. apply Forall_cons_iff in H. tauto.
    + apply category_is_false in Hv. rewrite IH, Forall_cons_iff. tauto.
Qed.

Lemma pick_raise (pb : Pricebook) (c : string) (e : exn) :
  pick_by_category pb c = Raise e <->
  e = category_error c /\ no_item_with_category pb c.
Proof. apply first_by_category_raise. Qed.

Lemma pick_ok_has_item (pb : Pricebook) (c : string) (item : PricebookItem) :
  pick_by_category pb c = Ok item -> ~ no_item_with_category pb c.
Proof.
  intros H Hno.
  assert (Hr : pick_by_category pb c = Raise (category_error c))
    by (apply pick_raise; auto).
  congruence.
Qed.

Lemma pick_ok_of_item (pb : Pricebook) (c : string) :
  ~ no_item_with_category pb c -> exists item, pick_by_category pb c = Ok item.
Proof.
  intros Hsome. destruct (pick_by_category pb c) as [item | e] eqn:Hp;
    [eauto |].
  apply pick_raise in Hp. destruct Hp as [_ Hno]. contradiction.
Qed.

(** What a returned BOM is made of. *)
Lemma build_fence_bom_inv (pb : Pricebook) (fence : FenceEstimateInput)
    (bom : list LineItemInput) :
  build_fence_bom pb fence = Ok bom ->
  exists q post rail picket concrete fastener,
    fence_quantities fence = Ok q /\
    pick_by_category pb "post" = Ok post /\
    pick_by_category pb "rail" = Ok rail /\
    pick_by_category pb "picket" = Ok picket /\
    pick_by_category pb "concrete" = Ok concrete /\
    pick_by_category pb "fastener" = Ok fastener /\
    bom = required_lines q post rail picket concrete fastener ++ gate_lines pb q.
Proof.
  unfold build_fence_bom, gate_lines, required_lines.
  destruct (fence_quantities fence) as [q | e]; [| discriminate].
  destruct (pick_by_category pb "post") as [post | e]; [| discriminate].
  destruct (pick_by_category pb "rail") as [rail | e]; [| discriminate].
  destruct (pick_by_category pb "picket") as [picket | e]; [| discriminate].
  destruct (pick_by_category pb "concrete") as [concrete | e];
    [| discriminate].
  destruct (pick_by_category pb "fastener") as [fastener | e];
    [| discriminate].
  cbn [bind]. intros H.
  exists q, post, rail, picket, concrete, fastener.
  repeat (split; [reflexivity |]).
  destruct (0 <? gate_qty q);
    [destruct (pick_by_category pb "gate") |];
    injection H as <-; rewrite ?app_nil_r; reflexivity.
Qed.

(** What the quantities are when the formulas evaluate. *)
Lemma fence_quantities_inv (fence : FenceEstimateInput) (q : FenceQuantities) :
  fence_quantities fence = Ok q ->
  exists c_posts pickets bags concrete boxes c_boxes,
    py_ceil (fence_length_ft fence * posts_per_ft fence)%float = Ok c_posts /\
    py_ceil (fence_length_ft fence * 2)%float = Ok pickets /\
    num_mul_float (PyInt (Z.max 2 c_posts)) 0.75%float = Ok bags /\
    py_ceil bags = Ok concrete /\
    int_truediv pickets 200 = Ok boxes /\
    py_ceil boxes = Ok c_boxes /\
    q = mkFenceQuantities (Z.max 2 c_posts)
          (Z.max 0 ((Z.max 2 c_posts - 1) * 2)) pickets concrete
          (Z.max 1 c_boxes) (Z.max 0 (gates fence)).
Proof.
  unfold fence_quantities.
  destruct (py_ceil (fence_length_ft fence * posts_per_ft fence)%float)
    as [c_posts | e] eqn:H1; [| discriminate].
  cbn [bind].
  replace (if String.eqb (style fence) "wood" then 2%float else 2%float)
    with 2%float by (destruct (String.eqb (style fence) "wood"); reflexivity).
  destruct (py_ceil (fence_length_ft fence * 2)%float) as [pickets | e] eqn:H2;
    [| discriminate].
  cbn [bind].
  destruct (num_mul_float (PyInt (Z.max 2 c_posts)) 0.75%float)
    as [bags | e] eqn:H3; [| discriminate].
  cbn [bind].
  destruct (py_ceil bags) as [concrete | e] eqn:H4; [| discriminate].
  cbn [bind].
  destruct (int_truediv pickets 200) as [boxes | e] eqn:H5; [| discriminate].
  cbn [bind].
  destruct (py_ceil boxes) as [c_boxes | e] eqn:H6; [| discriminate].
  cbn [bind]. intros [= <-].
  exists c_posts, pickets, bags, concrete, boxes, c_boxes.
  repeat split; assumption.
Qed.




Lemma required_lines_first (pb : Pricebook) (q : FenceQuantities)
    (post rail picket concrete fastener : PricebookItem) :
  pick_by_category pb "post" = Ok post ->
  pick_by_category pb "rail" = Ok rail ->
  pick_by_category pb "picket" = Ok picket ->
  pick_by_category pb "concrete" = Ok concrete ->
  pick_by_category pb "fastener" = Ok fastener ->
  Forall2
    (fun c line =>
       exists item,
         first_with_category (pb_values pb) c item /\
         li_sku line = pb_sku item)
    required_categories
    (required_lines q post rail picket concrete fastener).
Proof.
  intros H1 H2 H3 H4 H5.
  repeat constructor; eexists; (split; [| reflexivity]);
    apply first_by_category_ok; assumption.
Qed.

(** C6, amended. The SKU of each required line of a returned BOM is that
    of the first item, in the order of the pricebook, whose category is
    exactly "post", "rail", "picket", "concrete", "fastener". When some
    required category has no item, no BOM is returned: if the quantity
    formulas evaluate, the exception is the category-not-found [KeyError]
    of the first required category without an item; if they do not, it is
    the exception that the formulas raise. *)
Theorem category_selection :
  (forall pb fence bom,
     build_fence_bom pb fence = Ok bom ->
     Forall2
       (fun c line =>
          exists item,
            first_with_category (pb_values pb) c item /\
            li_sku line = pb_sku item)
       required_categories (firstn 5 bom)) /\
  (forall pb fence,
     Exists (no_item_with_category pb) required_categories ->
     exists e,
       build_fence_bom pb fence = Raise e /\
       (forall q, fence_quantities fence = Ok q ->
          exists c,
            first_missing_category pb required_categories c /\
            e = category_error c) /\
       (forall e', fence_quantities fence = Raise e' -> e = e')).
Proof.
  split.
  - intros pb fence bom H. apply build_fence_bom_inv in H.
    destruct H as (q & post & rail & picket & concrete & fastener & _ & H1
                   & H2 & H3 & H4 & H5 & ->).
    apply required_lines_first; assumption.
  - intros pb fence Hex. unfold build_fence_bom.
    destruct (fence_quantities fence) as [q | eq].
    2:{ exists eq. split; [reflexivity |].
        split; [discriminate | congruence]. }
    cbn [bind].
    assert (Hmk : forall before c after,
              required_categories = before ++ c :: after ->
              Forall (fun c' => ~ no_item_with_category pb c') before ->
              pick_by_category pb c = Raise (category_error c) ->
              (forall q0 : FenceQuantities, Ok q = Ok q0 ->
               exists c0, first_missing_category pb required_categories c0 /\
                          category_error c = category_error c0) /\
              (forall e', Ok q = Raise e' -> category_error c = e')).
    { intros before c after Hsplit Hbefore Hc. split; [| discriminate].
      intros _ _. exists c. split; [| reflexivity].
      exists before, after. repeat split; auto.
      apply (pick_raise pb c (category_error c)). exact Hc. }
    destruct (pick_by_category pb "post") as [post | e] eqn:H1.
    2:{ apply pick_raise in H1 as Hp. destruct Hp as [-> _].
        eexists. split; [reflexivity |].
        apply (Hmk [] "post" ["rail"; "picket"; "concrete"; "fastener"]);
          [reflexivity | constructor | assumption]. }
    destruct (pick_by_category pb "rail") as [rail | e] eqn:H2.
    2:{ apply pick_raise in H2 as Hp. destruct Hp as [-> _].
        eexists. split; [reflexivity |].
        apply (Hmk ["post"] "rail" ["picket"; "concrete"; "fastener"]);
          [reflexivity | | assumption].
        repeat constructor; eapply pick_ok_has_item; eassumption. }
    destruct (pick_by_category pb "picket") as [picket | e] eqn:H3.
    2:{ apply pick_raise in H3 as Hp. destruct Hp as [-> _].
        eexists. split; [reflexivity |].
        apply (Hmk ["post"; "rail"] "picket" ["concrete"; "fastener"]);
          [reflexivity | | assumption].
        repeat constructor; eapply pick_ok_has_item; eassumption. }
    destruct (pick_by_category pb "concrete") as [concrete | e] eqn:H4.
    2:{ apply pick_raise in H4 as Hp. destruct Hp as [-> _].
        eexists. split; [reflexivity |].
        apply (Hmk ["post"; "rail"; "picket"] "concrete" ["fastener"]);
          [reflexivity | | assumption].
        repeat constructor; eapply pick_ok_has_item; eassumption. }
    destruct (pick_by_category pb "fastener") as [fastener | e] eqn:H5.
    2:{ apply pick_raise in H5 as Hp. destruct Hp as [-> _].
        eexists. split; [reflexivity |].
        apply (Hmk ["post"; "rail"; "picket"; "concrete"] "fastener" []);
          [reflexivity | | assumption].
        repeat constructor; eapply pick_ok_has_item; eassumption. }
    exfalso. unfold required_categories in Hex.
    repeat match goal with
      | H : Exists _ (_ :: _) |- _ =>
          apply Exists_cons in H; destruct H as [H | H]
      | H : Exists _ [] |- _ => inversion H
      | H : no_item_with_category pb ?c,
        H' : pick_by_category pb ?c = Ok _ |- _ =>
          exact (pick_ok_has_item _ _ _ H' H)
      end.
Qed.

Lemma category_selection_witness :
  Forall2
    (fun c line =>
       exists item,
         first_with_category (pb_values demo_pricebook) c item /\
         li_sku line = pb_sku item)
    required_categories (firstn 5 demo_bom) /\
  exists e,
    build_fence_bom single_pricebook demo_fence = Raise e /\
    (forall q,
       fence_quantities demo_fence = Ok q ->
       exists c,
         first_missing_category single_pricebook required_categories c /\
         e = category_error c) /\
    (forall e', fence_quantities demo_fence = Raise e' -> e = e').
Proof.
  split.
  - apply (proj1 category_selection demo_pricebook demo_fence demo_bom).
    reflexivity.
  - apply (proj2 category_selection single_pricebook demo_fence).
    apply Exists_cons_hd. repeat constructor. discriminate.
Defined.

(** C6 as stated fails: the empty pricebook has no item of any required
    category, and for a fence of 1e308 feet the exception is the overflow
    of [ceil], not a category-not-found error. *)
Lemma category_selection_counterexample :
  Exists (no_item_with_category []) required_categories /\
  build_fence_bom [] (mkFenceEstimateInput 1e308 "wood" 0.0833 0) =
    Raise (OverflowError "cannot convert float infinity to integer").
Proof.
  split; [| reflexivity].
  apply Exists_cons_hd. constructor.
Qed.

(** The gate count enters the quantities through [gate_qty] only. *)
Lemma fence_quantities_with_gates (fence : FenceEstimateInput) (n : Z) :
  fence_quantities (with_gates fence n) =
  q <- fence_quantities fence ;;
  Ok (mkFenceQuantities (posts_qty q) (rails_qty q) (pickets_qty q)
        (concrete_qty q) (fasteners_boxes q) (Z.max 0 n)).
Proof.
  unfold fence_quantities, with_gates.
  cbn [fence_length_ft style posts_per_ft gates].
  destruct (py_ceil (fence_length_ft fence * posts_per_ft fence)%float)
    as [c_posts | e]; [| reflexivity].
  cbn [bind].
  destruct (py_ceil _) as [pickets | e]; [| reflexivity].
  cbn [bind].
  destruct (num_mul_float _ _) as [bags | e]; [| reflexivity].
  cbn [bind].
  destruct (py_ceil bags) as [concrete | e]; [| reflexivity].
  cbn [bind].
  destruct (int_truediv pickets 200) as [boxes | e]; [| reflexivity].
  cbn [bind].
  destruct (py_ceil boxes) as [c_boxes | e]; reflexivity.
Qed.

(** C7. A returned BOM lists the post, rail, picket, concrete and fastener
    lines in this order, each with the SKU of the first item of its
    category, and then the gate line, with the gate count as quantity,
    exactly when the gate count is positive and some item has category
    "gate". Without such an item a positive gate count changes nothing:
    the outcome is the one for a gate count of zero. And the call
    succeeds, with or without an item of category "gate", whenever the
    quantity formulas evaluate and each of the five required categories
    has an item; without an item of category "gate" the BOM it returns
    has the five required lines and no other. *)
Theorem bom_line_order :
  (forall pb fence bom,
     build_fence_bom pb fence = Ok bom ->
     exists five,
       Forall2
         (fun c line =>
            exists item,
              first_with_category (pb_values pb) c item /\
              li_sku line = pb_sku item)
         required_categories five /\
       ((0 < gates fence /\
         exists g,
           first_with_category (pb_values pb) "gate" g /\
           bom = five ++ [mkLineItemInput (pb_sku g) (PyInt (gates fence))]) \/
        ((gates fence <= 0 \/ no_item_with_category pb "gate") /\
         bom = five))) /\
  (forall pb fence,
     no_item_with_category pb "gate" ->
     build_fence_bom pb fence = build_fence_bom pb (with_gates fence 0)) /\
  (forall pb fence q,
     fence_quantities fence = Ok q ->
     Forall (fun c => ~ no_item_with_category pb c) required_categories ->
     exists bom,
       build_fence_bom pb fence = Ok bom /\
       (no_item_with_category pb "gate" ->
        List.length bom = List.length required_categories)).
Proof.
  split; [| split].
  - intros pb fence bom H. apply build_fence_bom_inv in H.
    destruct H as (q & post & rail & picket & concrete & fastener & Hq & H1
                   & H2 & H3 & H4 & H5 & ->).
    exists (required_lines q post rail picket concrete fastener).
    split; [apply required_lines_first; assumption |].
    apply fence_quantities_inv in Hq.
    destruct Hq as (c_posts & pickets & bags & conc & boxes & c_boxes & _
                    & _ & _ & _ & _ & _ & Hq).
    assert (Hgate : gate_qty q = Z.max 0 (gates fence)) by (subst q; reflexivity).
    unfold gate_lines. rewrite Hgate.
    destruct (0 <? Z.max 0 (gates fence)) eqn:Hpos.
    + apply Z.ltb_lt in Hpos.
      destruct (pick_by_category pb "gate") as [g | e] eqn:Hg.
      * left. split; [lia |]. exists g.
        split; [apply first_by_category_ok; exact Hg |].
        rewrite Z.max_r by lia. reflexivity.
      * right. rewrite app_nil_r. split; [| reflexivity].
        right. apply (pick_raise pb "gate" e). exact Hg.
    + apply Z.ltb_ge in Hpos. right. rewrite app_nil_r.
      split; [| reflexivity]. left. lia.
  - intros pb fence Hno.
    assert (Hg : pick_by_category pb "gate" = Raise (category_error "gate"))
      by (apply pick_raise; auto).
    unfold build_fence_bom. rewrite fence_quantities_with_gates.
    destruct (fence_quantities fence) as [q | e]; [| reflexivity].
    cbn [bind].
    destruct (pick_by_category pb "post"); [| reflexivity].
    destruct (pick_by_category pb "rail"); [| reflexivity].
    destruct (pick_by_category pb "picket"); [| reflexivity].
    destruct (pick_by_category pb "concrete"); [| reflexivity].
    destruct (pick_by_category pb "fastener"); [| reflexivity].
    cbn [bind]. rewrite Hg.
    cbn [posts_qty rails_qty pickets_qty concrete_qty fasteners_boxes gate_qty].
    destruct (0 <? gate_qty q); reflexivity.
  - intros pb fence q Hq Hall. unfold required_categories in Hall.
    repeat match goal with
           | H : Forall _ (_ :: _) |- _ =>
               apply Forall_cons_iff in H; destruct H as [? H]
           end.
    repeat match goal with
           | H : ~ no_item_with_category pb ?c |- _ =>
               apply pick_ok_of_item in H; destruct H as [? H]
           end.
    unfold build_fence_bom. rewrite Hq. cbn [bind].
    repeat match goal with
           | H : pick_by_category pb _ = Ok _ |- _ =>
               rewrite H; clear H; cbn [bind]
           end.
    destruct (0 <? gate_qty q) eqn:Hpos.
    + destruct (pick_by_category pb "gate") as [g | e] eqn:Hg.
      * eexists. split; [reflexivity |]. intros Hno.
        exfalso. exact (pick_ok_has_item _ _ _ Hg Hno).
      * eexists. split; [reflexivity |]. intros _. reflexivity.
    + eexists. split; [reflexivity |]. intros _. reflexivity.
Qed.

Lemma bom_line_order_witness :
  (exists bom,
     build_fence_bom (firstn 5 demo_pricebook) demo_fence = Ok bom /\
     (no_item_with_category (firstn 5 demo_pricebook) "gate" ->
      List.length bom = List.length required_categories)) /\
  build_fence_bom (firstn 5 demo_pricebook) demo_fence =
  build_fence_bom (firstn 5 demo_pricebook) (with_gates demo_fence 0).
Proof.
  split.
  - apply (proj2 (proj2 bom_line_order) (firstn 5 demo_pricebook) demo_fence
             (mkFenceQuantities 9 16 200 7 1 1)).
    + reflexivity.
    + repeat constructor;
        (eapply pick_ok_has_item; reflexivity).
  - apply (proj1 (proj2 bom_line_order) (firstn 5 demo_pricebook)).
    repeat constructor; discriminate.
Defined.

(* ===================================================================== *)
(** ** Rounding keeps a positive value positive

    [binary_round_aux] shifts the mantissa right until its exponent is
    the one of the format, and rounds. A positive value at or above the
    smallest subnormal keeps a non-zero mantissa, and the result has at
    least the binary magnitude [digits + exponent] of the input. *)
(* ===================================================================== *)

Lemma dg_xO m : dg m~0 = dg m + 1.
Proof. unfold dg. cbn [digits2_pos]. lia. Qed.

Lemma dg_xI m : dg m~1 = dg m + 1.
Proof. unfold dg. cbn [digits2_pos]. lia. Qed.

Lemma dg_pos m : 1 <= dg m.
Proof. unfold dg. lia. Qed.

Lemma dg_bounds m : 2 ^ (dg m - 1) <= Z.pos m < 2 ^ dg m.
Proof.
  induction m as [m IH | m IH |].
  - rewrite dg_xI. replace (dg m + 1 - 1) with (dg m - 1 + 1) by lia.
    pose proof (dg_pos m).
    rewrite !Z.pow_add_r by lia. change (2 ^ 1) with 2. lia.
  - rewrite dg_xO. replace (dg m + 1 - 1) with (dg m - 1 + 1) by lia.
    pose proof (dg_pos m).
    rewrite !Z.pow_add_r by lia. change (2 ^ 1) with 2. lia.
  - cbn. lia.
Qed.

Lemma dg_lower m D : 2 ^ (D - 1) <= Z.pos m -> D <= dg m.
Proof.
  intros H. pose proof (dg_bounds m) as [_ Hu]. pose proof (dg_pos m).
  destruct (Z.le_gt_cases D (dg m)) as [|Hgt]; [assumption |].
  exfalso.
  assert (2 ^ dg m <= 2 ^ (D - 1)) by (apply Z.pow_le_mono_r; lia).
  lia.
Qed.

Lemma dg_mono m n : Z.pos m <= Z.pos n -> dg m <= dg n.
Proof.
  intros H. apply dg_lower. pose proof (dg_bounds m). lia.
Qed.

Lemma dg_mul m n : dg m + dg n - 1 <= dg (m * n).
Proof.
  apply dg_lower.
  pose proof (dg_bounds m) as [Hm _]. pose proof (dg_bounds n) as [Hn _].
  pose proof (dg_pos m). pose proof (dg_pos n).
  replace (dg m + dg n - 1 - 1) with ((dg m - 1) + (dg n - 1)) by lia.
  rewrite Z.pow_add_r by lia. rewrite Pos2Z.inj_mul.
  apply Z.mul_le_mono_nonneg; try assumption; apply Z.pow_nonneg; lia.
Qed.

Lemma dg_shl m d : dg (Pos.iter xO m d) = dg m + Z.pos d.
Proof.
  induction d as [| d IH] using Pos.peano_ind.
  - cbn [Pos.iter]. apply dg_xO.
  - rewrite Pos.iter_succ, dg_xO, IH. lia.
Qed.

Lemma shr_1_m mrs : 0 <= shr_m mrs -> shr_m (shr_1 mrs) = shr_m mrs / 2.
Proof.
  destruct mrs as [m r s]. cbn [shr_m]. intros Hm.
  rewrite <- Z.div2_div.
  destruct m as [| [p | p |] | p]; try reflexivity. lia.
Qed.

Lemma pow2_pos k : 0 < 2 ^ Z.pos k.
Proof. apply Z.pow_pos_nonneg; lia. Qed.

Lemma div_pow2_twice a k : a / 2 ^ Z.pos k / 2 ^ Z.pos k = a / 2 ^ Z.pos k~0.
Proof.
  pose proof (pow2_pos k).
  rewrite Z.div_div by lia. rewrite <- Z.pow_add_r by lia.
  f_equal. f_equal. lia.
Qed.

Lemma iter_shr_m p :
  forall mrs, 0 <= shr_m mrs ->
    shr_m (iter_pos shr_1 p mrs) = shr_m mrs / 2 ^ Z.pos p.
Proof.
  assert (Hnn : forall a k, 0 <= a -> 0 <= a / 2 ^ Z.pos k).
  { intros a k Ha. apply Z.div_pos; [assumption | apply pow2_pos]. }
  induction p as [p IH | p IH |]; intros mrs Hm; cbn [iter_pos].
  - assert (H1 : 0 <= shr_m (shr_1 mrs))
      by (rewrite shr_1_m by assumption; apply Z.div_pos; lia).
    rewrite IH, IH, shr_1_m; try assumption.
    + rewrite div_pow2_twice. pose proof (pow2_pos p~0).
      rewrite Z.div_div by lia. reflexivity.
    + rewrite IH by assumption. apply Hnn. assumption.
  - rewrite IH, IH; try assumption.
    + apply div_pow2_twice.
    + rewrite IH by assumption. apply Hnn. assumption.
  - apply shr_1_m. assumption.
Qed.

Lemma shr_record_of_loc_m m l : shr_m (shr_record_of_loc m l) = m.
Proof. destruct l as [| []]; reflexivity. Qed.

Lemma shr_fexp_pos m e l :
  emin < dg m + e ->
  exists m',
    shr_m (fst (shr_fexp prec emax (Z.pos m) e l)) = Z.pos m' /\
    dg m + e <= dg m' + snd (shr_fexp prec emax (Z.pos m) e l).
Proof.
  intros Hmag. unfold shr_fexp, shr. cbn [Zdigits2]. fold (dg m).
  destruct (fexp prec emax (dg m + e) - e) as [| k | k] eqn:Hk;
    cbn [fst snd]; rewrite ?shr_record_of_loc_m;
    try (exists m; split; [reflexivity | lia]).
  rewrite iter_shr_m by (rewrite shr_record_of_loc_m; lia).
  rewrite shr_record_of_loc_m.
  unfold fexp, SpecFloat.emin, prec, emax in *.
  assert (Hlt : Z.pos k <= dg m - 1) by lia.
  pose proof (dg_bounds m) as [Hlo _].
  assert (Hq : 2 ^ (dg m - 1 - Z.pos k) <= Z.pos m / 2 ^ Z.pos k).
  { apply Z.div_le_lower_bound; [apply Z.pow_pos_nonneg; lia |].
    rewrite <- Z.pow_add_r by lia.
    replace (Z.pos k + (dg m - 1 - Z.pos k)) with (dg m - 1) by lia.
    exact Hlo. }
  assert (0 < 2 ^ (dg m - 1 - Z.pos k)) by (apply Z.pow_pos_nonneg; lia).
  destruct (Z.pos m / 2 ^ Z.pos k) as [| m' | m'] eqn:Hdiv; try lia.
  exists m'. split; [reflexivity |].
  assert (dg m - Z.pos k <= dg m').
  { apply dg_lower. replace (dg m - Z.pos k - 1) with (dg m - 1 - Z.pos k) by lia.
    exact Hq. }
  lia.
Qed.

Lemma round_nearest_even_pos m l :
  exists m', round_nearest_even (Z.pos m) l = Z.pos m' /\ dg m <= dg m'.
Proof.
  assert (Hup : exists m', Z.pos m + 1 = Z.pos m' /\ dg m <= dg m').
  { exists (m + 1)%positive. split; [lia |]. apply dg_mono. lia. }
  destruct l as [| []]; cbn [round_nearest_even];
    try (exists m; split; [reflexivity | lia]); try exact Hup.
  destruct (Z.even (Z.pos m)); [exists m; split; [reflexivity | lia] | exact Hup].
Qed.

Lemma binary_round_aux_pos s m e l :
  emin < dg m + e ->
  pos_mag s (dg m + e) (binary_round_aux prec emax s (Z.pos m) e l).
Proof.
  intros Hmag. unfold binary_round_aux.
  destruct (shr_fexp_pos m e l Hmag) as (m1 & Hm1 & Hd1).
  destruct (shr_fexp prec emax (Z.pos m) e l) as [mrs1 e1].
  cbn [fst snd] in Hm1, Hd1. rewrite Hm1.
  destruct (round_nearest_even_pos m1 (loc_of_shr_record mrs1))
    as (m2 & -> & Hd2).
  assert (Hmag2 : emin < dg m2 + e1) by lia.
  destruct (shr_fexp_pos m2 e1 loc_Exact Hmag2) as (m3 & Hm3 & Hd3).
  destruct (shr_fexp prec emax (Z.pos m2) e1 loc_Exact) as [mrs3 e3].
  cbn [fst snd] in Hm3, Hd3. rewrite Hm3.
  destruct (e3 <=? emax - prec); [right | left; reflexivity].
  exists m3, e3. split; [reflexivity | lia].
Qed.

Lemma binary_round_pos s m e :
  emin < dg m + e ->
  pos_mag s (dg m + e) (binary_round prec emax s m e).
Proof.
  intros Hmag. unfold binary_round, shl_align.
  destruct (fexp prec emax (Z.pos (digits2_pos m) + e) - e) as [| d | d] eqn:Hd;
    try (apply binary_round_aux_pos; exact Hmag).
  fold (dg m) in Hd.
  assert (He : dg (Pos.iter xO m d) + fexp prec emax (dg m + e) = dg m + e)
    by (rewrite dg_shl; lia).
  fold (dg m).
  pose proof (binary_round_aux_pos s (Pos.iter xO m d)
                (fexp prec emax (dg m + e)) loc_Exact) as H.
  rewrite He in H. apply H. exact Hmag.
Qed.

Lemma SFmul_pos m1 e1 m2 e2 :
  emin < dg m1 + e1 + (dg m2 + e2) - 1 ->
  pos_mag false (dg m1 + e1 + (dg m2 + e2) - 1)
    (SFmul prec emax (S754_finite false m1 e1) (S754_finite false m2 e2)).
Proof.
  intros Hmag. cbn [SFmul xorb].
  pose proof (dg_mul m1 m2) as Hmul.
  destruct (binary_round_aux_pos false (m1 * m2) (e1 + e2) loc_Exact)
    as [Hinf | (m & e & Hfin & Hd)]; [lia | left; exact Hinf |].
  right. exists m, e. split; [exact Hfin | lia].
Qed.

Lemma SFldexp_pos m e k :
  emin < dg m + e + k ->
  pos_mag false (dg m + e + k)
    (SFldexp prec emax (S754_finite false m e) k).
Proof.
  intros Hmag. cbn [SFldexp].
  replace (dg m + e + k) with (dg m + (e + k)) by lia.
  apply binary_round_pos. lia.
Qed.


Lemma pos_mag_weaken s D D' x : D' <= D -> pos_mag s D x -> pos_mag s D' x.
Proof.
  intros Hle [Hinf | (m & e & Hfin & Hd)]; [left; exact Hinf |].
  right. exists m, e. split; [exact Hfin | lia].
Qed.

Lemma mul_pos_mag (x y : float) (D : Z) (my : positive) (ey : Z) :
  pos_mag false D (Prim2SF x) ->
  Prim2SF y = S754_finite false my ey ->
  emin < D + (dg my + ey) - 1 ->
  pos_mag false (D + (dg my + ey) - 1) (Prim2SF (x * y)).
Proof.
  intros Hx Hy Hmag. rewrite mul_spec, Hy. unfold SF64mul.
  destruct Hx as [-> | (m & e & -> & Hd)].
  - left. reflexivity.
  - apply pos_mag_weaken with (D := dg m + e + (dg my + ey) - 1); [lia |].
    apply SFmul_pos. lia.
Qed.

Lemma ceil_scaled_pos (m : positive) (e : Z) : 1 <= ceil_scaled (Z.pos m) e.
Proof.
  unfold ceil_scaled. destruct (0 <=? e) eqn:He.
  - apply Z.leb_le in He.
    assert (0 < 2 ^ e) by (apply Z.pow_pos_nonneg; lia). nia.
  - apply Z.leb_gt in He.
    assert (Hp : 0 < 2 ^ (- e)) by (apply Z.pow_pos_nonneg; lia).
    assert (- Z.pos m / 2 ^ (- e) < 0)
      by (apply Z.div_lt_upper_bound; [exact Hp | lia]).
    lia.
Qed.

Lemma py_ceil_pos_mag (x : float) (D c : Z) :
  pos_mag false D (Prim2SF x) -> py_ceil x = Ok c -> 1 <= c.
Proof.
  unfold py_ceil. intros [-> | (m & e & -> & _)]; [discriminate |].
  intros [= <-]. apply ceil_scaled_pos.
Qed.

(** A float above zero is [+inf] or a positive finite value of the
    format, whose exponent is at least [emin]. *)
Lemma float_pos_mag (x : float) :
  (0 <? x)%float = true -> pos_mag false (emin + 1) (Prim2SF x).
Proof.
  rewrite ltb_spec, Prim2SF_zero. pose proof (Prim2SF_valid x) as Hv.
  destruct (Prim2SF x) as [s | s | | s m e]; try destruct s; cbn;
    try discriminate; intros _.
  - left. reflexivity.
  - right. exists m, e. split; [reflexivity |].
    cbn [valid_binary] in Hv. unfold bounded, canonical_mantissa in Hv.
    apply andb_prop in Hv. destruct Hv as [Hc _].
    apply Z.eqb_eq in Hc. fold (dg m) in Hc.
    unfold fexp, SpecFloat.emin, prec, emax in *. pose proof (dg_pos m). lia.
Qed.

Lemma rne_shift_range (a k : Z) :
  Z.shiftr a k <= rne_shift a k <= Z.shiftr a k + 1.
Proof.
  unfold rne_shift.
  destruct (2 * (a - Z.shiftl (Z.shiftr a k) k) ?= 2 ^ k); try lia.
  destruct (Z.even (Z.shiftr a k)); lia.
Qed.

Lemma long_frexp_bounds (a : Z) :
  0 < a -> 1 <= fst (long_frexp a) <= 2 ^ 53 /\ 0 <= snd (long_frexp a).
Proof.
  intros Ha. unfold long_frexp.
  destruct (Z.log2_spec a Ha) as [Hlo Hhi].
  pose proof (Z.log2_nonneg a) as Hl.
  destruct (Z.log2 a + 1 <=? 53) eqn:Hd; cbn [fst snd].
  - apply Z.leb_le in Hd. split; [| lia]. split; [lia |].
    assert (2 ^ Z.succ (Z.log2 a) <= 2 ^ 53) by (apply Z.pow_le_mono_r; lia).
    lia.
  - apply Z.leb_gt in Hd. split; [| lia].
    set (k := Z.log2 a + 1 - 53) in *.
    assert (Hk : 0 < k) by (unfold k; lia).
    pose proof (rne_shift_range a k) as Hr.
    rewrite Z.shiftr_div_pow2 in Hr by lia.
    assert (Hp : 0 < 2 ^ k) by (apply Z.pow_pos_nonneg; lia).
    assert (Hq1 : 2 ^ 52 <= a / 2 ^ k).
    { apply Z.div_le_lower_bound; [exact Hp |].
      rewrite <- Z.pow_add_r by lia.
      replace (k + 52) with (Z.log2 a) by (unfold k; lia). exact Hlo. }
    assert (Hq2 : a / 2 ^ k < 2 ^ 53).
    { apply Z.div_lt_upper_bound; [exact Hp |].
      rewrite <- Z.pow_add_r by lia.
      replace (k + 53) with (Z.succ (Z.log2 a)) by (unfold k; lia).
      exact Hhi. }
    assert (0 < 2 ^ 52) by (apply Z.pow_pos_nonneg; lia).
    lia.
Qed.

(** A positive int converts to a float of magnitude at least one. *)
Lemma int_as_double_pos_mag (n : Z) (x : float) :
  0 < n -> int_as_double n = Ok x -> pos_mag false 1 (Prim2SF x).
Proof.
  intros Hn. unfold int_as_double.
  destruct n as [| p | p]; try lia.
  pose proof (long_frexp_bounds (Z.abs (Z.pos p)) Hn) as [[Hm1 Hm2] Hk].
  destruct (long_frexp (Z.abs (Z.pos p))) as [m k]. cbn [fst snd] in *.
  destruct (1024 <? Z.log2 m + 1 + k); [discriminate |].
  change (Z.pos p <? 0) with false. intros [= <-].
  rewrite Z_ldexp_spec, of_uint63_spec, Uint63.of_Z_spec.
  assert (H63 : 2 ^ 53 < Uint63.wB) by reflexivity.
  rewrite Z.mod_small by lia.
  destruct m as [| pm | pm]; try lia. cbn [binary_normalize].
  destruct (binary_round_pos false pm 0) as [-> | (m' & e' & -> & Hd)].
  - pose proof (dg_pos pm). unfold SpecFloat.emin, prec, emax. lia.
  - left. reflexivity.
  - pose proof (dg_pos pm).
    apply pos_mag_weaken with (D := dg m' + e' + k); [lia |].
    apply SFldexp_pos. unfold SpecFloat.emin, prec, emax. lia.
Qed.

Lemma Prim2SF_two : Prim2SF 2%float = S754_finite false 4503599627370496 (-51).
Proof. reflexivity. Qed.

Lemma Prim2SF_three_quarters :
  Prim2SF 0.75%float = S754_finite false 6755399441055744 (-53).
Proof. reflexivity. Qed.

(** [ceil(L * 2.0)] is at least one for a length above zero. *)
Lemma pickets_positive (L : float) (c : Z) :
  (0 <? L)%float = true -> py_ceil (L * 2)%float = Ok c -> 1 <= c.
Proof.
  intros HL Hc.
  apply (py_ceil_pos_mag (L * 2)%float (emin + 1 + (53 + -51) - 1) c);
    [| exact Hc].
  apply (mul_pos_mag L 2%float (emin + 1) 4503599627370496 (-51)).
  - apply float_pos_mag, HL.
  - exact Prim2SF_two.
  - change (dg 4503599627370496) with 53.
    unfold SpecFloat.emin, prec, emax. lia.
Qed.

(** [ceil(posts * 0.75)] is at least one for a positive number of posts. *)
Lemma concrete_positive (posts : Z) (bags : float) (c : Z) :
  0 < posts ->
  num_mul_float (PyInt posts) 0.75%float = Ok bags ->
  py_ceil bags = Ok c -> 1 <= c.
Proof.
  intros Hp Hb Hc. unfold num_mul_float in Hb. cbn [num_as_float] in Hb.
  destruct (int_as_double posts) as [x | e] eqn:Hx; [| discriminate].
  cbn [bind] in Hb. injection Hb as <-.
  apply (py_ceil_pos_mag (x * 0.75)%float (1 + (53 + -53) - 1) c);
    [| exact Hc].
  apply (mul_pos_mag x 0.75%float 1 6755399441055744 (-53)).
  - apply (int_as_double_pos_mag posts); assumption.
  - exact Prim2SF_three_quarters.
  - change (dg 6755399441055744) with 53.
    unfold SpecFloat.emin, prec, emax. lia.
Qed.

Lemma fence_quantities_positive (fence : FenceEstimateInput)
    (q : FenceQuantities) :
  (0 <? fence_length_ft fence)%float = true ->
  fence_quantities fence = Ok q ->
  0 < posts_qty q /\ 0 < rails_qty q /\ 0 < pickets_qty q /\
  0 < concrete_qty q /\ 0 < fasteners_boxes q /\ 0 <= gate_qty q.
Proof.
  intros HL Hq. apply fence_quantities_inv in Hq.
  destruct Hq as (c_posts & pickets & bags & conc & boxes & c_boxes & _
                  & H2 & H3 & H4 & _ & _ & ->).
  cbn [posts_qty rails_qty pickets_qty concrete_qty fasteners_boxes gate_qty].
  pose proof (pickets_positive _ _ HL H2).
  assert (1 <= conc) by (apply (concrete_positive (Z.max 2 c_posts) bags); [lia | assumption ..]).
  lia.
Qed.

Lemma price_lines_no_value_error (pb : Pricebook)
    (items : list LineItemInput) (acc : list LineItemEstimate) (mat : float)
    (msg : string) :
  Forall (fun line => num_pos (li_quantity line) = true) items ->
  price_lines pb items acc mat <> Raise (ValueError msg).
Proof.
  intros Hpos H. apply price_lines_value_error in H.
  destruct H as (pre & item & post & -> & _ & Hle & _).
  apply Forall_app in Hpos. destruct Hpos as [_ Hpos].
  apply Forall_cons_iff in Hpos. destruct Hpos as [Hitem _].
  apply num_pos_not_le0 in Hitem. congruence.
Qed.

(** C8, amended. For a fence length above zero, every line of a returned
    BOM, the five required ones and the gate line, has a quantity above
    zero; [calculate_estimate] on that BOM never raises the validation
    error of a non-positive quantity: the only [ValueError] it can raise
    is the one on labor hours, labor rate and margin. *)
Theorem bom_quantities_positive
    (pb : Pricebook) (fence : FenceEstimateInput) (bom : list LineItemInput) :
  (0 <? fence_length_ft fence)%float = true ->
  build_fence_bom pb fence = Ok bom ->
  Forall (fun line => num_pos (li_quantity line) = true) bom /\
  (forall lh lr mp msg,
     calculate_estimate pb bom lh lr mp = Raise (ValueError msg) ->
     ValueError msg = labor_error).
Proof.
  intros HL Hbom.
  assert (Hpos : Forall (fun line => num_pos (li_quantity line) = true) bom).
  { apply build_fence_bom_inv in Hbom.
    destruct Hbom as (q & post & rail & picket & concrete & fastener & Hq
                      & _ & _ & _ & _ & _ & ->).
    destruct (fence_quantities_positive fence q HL Hq)
      as (Hp & Hr & Hk & Hc & Hf & Hg).
    apply Forall_app. split.
    - unfold required_lines.
      repeat constructor; cbn [li_quantity num_pos]; apply Z.ltb_lt;
        assumption.
    - unfold gate_lines. destruct (0 <? gate_qty q) eqn:Hgq; [| constructor].
      destruct (pick_by_category pb "gate"); repeat constructor.
      exact Hgq. }
  split; [exact Hpos |].
  intros lh lr mp msg H. unfold calculate_estimate in H.
  destruct (float_lt0 lh || float_lt0 lr || float_lt0 mp); [congruence |].
  destruct (price_lines pb bom [] 0%float) as [[lines mat] | e] eqn:Hrun;
    cbn [bind] in H; [discriminate |].
  exfalso. apply (price_lines_no_value_error pb bom [] 0%float msg Hpos).
  congruence.
Qed.

Lemma bom_quantities_positive_witness :
  Forall (fun line => num_pos (li_quantity line) = true) demo_bom /\
  (forall lh lr mp msg,
     calculate_estimate demo_pricebook demo_bom lh lr mp =
       Raise (ValueError msg) ->
     ValueError msg = labor_error).
Proof.
  apply (bom_quantities_positive demo_pricebook demo_fence demo_bom);
    reflexivity.
Defined.

(** C8 as stated fails: for a fence length of zero the BOM is returned
    with a picket quantity of zero, and [calculate_estimate] raises the
    validation error on that line. *)
Lemma bom_quantities_positive_counterexample :
  exists bom,
    build_fence_bom demo_pricebook (mkFenceEstimateInput 0 "wood" 0.0833 0)
      = Ok bom /\
    Exists (fun line => num_le0 (li_quantity line) = true) (firstn 5 bom) /\
    calculate_estimate demo_pricebook bom 0 0 0 = Raise (quantity_error "K1").
Proof.
  eexists. split; [reflexivity |]. split; [| reflexivity].
  apply Exists_cons_tl, Exists_cons_tl, Exists_cons_hd. reflexivity.
Qed.

(* ===================================================================== *)
(** ** Further properties of the estimator *)
(* ===================================================================== *)

Lemma price_lines_ok_inv (pb : Pricebook) (items : list LineItemInput) :
  forall acc mat lines m,
    price_lines pb items acc mat = Ok (lines, m) ->
    exists ls,
      lines = acc ++ ls /\ map Some ls = map (priced_line pb) items.
Proof.
  induction items as [| item rest IH]; intros acc mat lines m H.
  - injection H as <- <-. exists []. rewrite app_nil_r. auto.
  - cbn [price_lines] in H.
    destruct (num_le0 (li_quantity item)); [discriminate |].
    unfold get_item, num_mul_float in H.
    cbn [map]. unfold priced_line at 1.
    destruct (pb_lookup pb (li_sku item)) as [pb_item |]; [| discriminate].
    cbn [bind] in H.
    destruct (num_as_float (li_quantity item)) as [q | e]; [| discriminate].
    cbn [bind] in H. apply IH in H. destruct H as (ls & -> & Hls).
    eexists (_ :: ls). rewrite <- app_assoc. split; [reflexivity |].
    cbn [map]. rewrite Hls. reflexivity.
Qed.

(** X1. The priced lines of a returned breakdown are the line items in
    input order, one line for each, a repeated SKU giving a line each
    time; a line carries the SKU, description, unit and unit price of the
    catalog entry found under the SKU asked for, and the quantity as it
    was given. *)
Theorem priced_lines_follow_input
    (pb : Pricebook) (items : list LineItemInput) (lh lr mp : float)
    (b : EstimateBreakdown) :
  calculate_estimate pb items lh lr mp = Ok b ->
  map Some (line_items b) = map (priced_line pb) items.
Proof.
  unfold calculate_estimate.
  destruct (float_lt0 lh || float_lt0 lr || float_lt0 mp); [discriminate |].
  destruct (price_lines pb items [] 0%float) as [[lines m] | e] eqn:Hrun;
    [| discriminate].
  cbn [bind]. intros [= <-]. cbn [line_items].
  apply price_lines_ok_inv in Hrun. destruct Hrun as (ls & -> & Hls).
  exact Hls.
Qed.

Lemma priced_lines_follow_input_witness :
  map Some
    [ mkLineItemEstimate "A" "Cedar picket" (PyFloat 3) "ea" 10 30;
      mkLineItemEstimate "A" "Cedar picket" (PyInt 2) "ea" 10 20 ] =
  map (priced_line single_pricebook)
    [mkLineItemInput "A" (PyFloat 3); mkLineItemInput "A" (PyInt 2)].
Proof.
  apply (priced_lines_follow_input single_pricebook
           [mkLineItemInput "A" (PyFloat 3); mkLineItemInput "A" (PyInt 2)]
           0 0 0
           (mkEstimateBreakdown 50 0 0 0 50 0 0 50
              [ mkLineItemEstimate "A" "Cedar picket" (PyFloat 3) "ea" 10 30;
                mkLineItemEstimate "A" "Cedar picket" (PyInt 2) "ea" 10 20 ])).
  reflexivity.
Defined.

(** *** Signs through rounding *)

Lemma shr_fexp_nonneg (m e : Z) (l : location) :
  0 <= m -> 0 <= shr_m (fst (shr_fexp prec emax m e l)).
Proof.
  intros Hm. unfold shr_fexp, shr.
  destruct (fexp prec emax (Zdigits2 m + e) - e) as [| k | k];
    cbn [fst]; rewrite ?shr_record_of_loc_m; try exact Hm.
  rewrite iter_shr_m by (rewrite shr_record_of_loc_m; exact Hm).
  rewrite shr_record_of_loc_m. apply Z.div_pos; [exact Hm | apply pow2_pos].
Qed.

Lemma round_nearest_even_nonneg (m : Z) (l : location) :
  0 <= m -> 0 <= round_nearest_even m l.
Proof.
  intros Hm. destruct l as [| []]; cbn [round_nearest_even]; try lia.
  destruct (Z.even m); lia.
Qed.

Lemma binary_round_aux_sign (s : bool) (m e : Z) (l : location) :
  0 <= m -> has_sign s (binary_round_aux prec emax s m e l).
Proof.
  intros Hm. unfold binary_round_aux.
  pose proof (shr_fexp_nonneg m e l Hm) as H1.
  destruct (shr_fexp prec emax m e l) as [mrs1 e1]. cbn [fst] in H1.
  pose proof (shr_fexp_nonneg _ e1 loc_Exact
                (round_nearest_even_nonneg _ (loc_of_shr_record mrs1) H1))
    as H2.
  destruct (shr_fexp prec emax _ e1 loc_Exact) as [mrs2 e2]. cbn [fst] in H2.
  destruct (shr_m mrs2) as [| p | p]; cbn [has_sign]; try reflexivity;
    try lia.
  destruct (e2 <=? emax - prec); reflexivity.
Qed.

Lemma binary_round_sign (s : bool) (m : positive) (e : Z) :
  has_sign s (binary_round prec emax s m e).
Proof.
  unfold binary_round.
  destruct (shl_align m e _) as [mz ez]. apply binary_round_aux_sign. lia.
Qed.

Lemma pos_mag_has_sign (s : bool) (D : Z) (x : spec_float) :
  pos_mag s D x -> has_sign s x.
Proof. intros [-> | (m & e & -> & _)]; reflexivity. Qed.

(** The product of two floats above zero is not NaN and not negative. *)
Lemma mul_pos_sign (x y : float) :
  (0 <? x)%float = true -> (0 <? y)%float = true ->
  has_sign false (Prim2SF (x * y)).
Proof.
  intros Hx Hy. apply float_pos_mag in Hx. apply float_pos_mag in Hy.
  rewrite mul_spec. unfold SF64mul.
  destruct Hx as [-> | (mx & ex & -> & _)];
    destruct Hy as [-> | (my & ey & -> & _)]; cbn [SFmul xorb has_sign];
    try reflexivity.
  apply binary_round_aux_sign. lia.
Qed.

Lemma py_ceil_signed (s : bool) (x : float) (msg : string) :
  has_sign s (Prim2SF x) -> py_ceil x <> Raise (ValueError msg).
Proof.
  unfold py_ceil. destruct (Prim2SF x); cbn [has_sign]; try discriminate.
  intros [].
Qed.

Lemma ceil_scaled_neg (m : positive) (e : Z) : ceil_scaled (Z.neg m) e <= 0.
Proof.
  unfold ceil_scaled. destruct (0 <=? e) eqn:He.
  - apply Z.leb_le in He.
    assert (0 < 2 ^ e) by (apply Z.pow_pos_nonneg; lia). nia.
  - apply Z.leb_gt in He.
    assert (Hp : 0 < 2 ^ (- e)) by (apply Z.pow_pos_nonneg; lia).
    assert (0 <= - Z.neg m / 2 ^ (- e)) by (apply Z.div_pos; lia).
    lia.
Qed.

Lemma py_ceil_negative (x : float) (c : Z) :
  has_sign true (Prim2SF x) -> py_ceil x = Ok c -> c <= 0.
Proof.
  unfold py_ceil. destruct (Prim2SF x) as [s | s | | s m e];
    cbn [has_sign]; try discriminate.
  - intros _ [= <-]. lia.
  - intros -> [= <-]. cbn [cond_Zopp Z.opp]. apply ceil_scaled_neg.
Qed.

(** [ceil(L * 2.0)] is at most zero when it exists and [L] is not above
    zero. *)
Lemma pickets_not_positive (L : float) (c : Z) :
  (0 <? L)%float = false -> py_ceil (L * 2)%float = Ok c -> c <= 0.
Proof.
  rewrite ltb_spec, Prim2SF_zero. unfold py_ceil at 1.
  rewrite mul_spec, Prim2SF_two. unfold SF64mul.
  destruct (Prim2SF L) as [s | s | | s m e]; cbn [SFmul];
    try discriminate.
  - intros _ [= <-]. lia.
  - destruct s; cbn; [| discriminate]. intros _.
    assert (Hs : has_sign true
                   (binary_round_aux prec emax true
                      (Z.pos (m * 4503599627370496)) (e + -51) loc_Exact))
      by (apply binary_round_aux_sign; lia).
    destruct (binary_round_aux prec emax true _ _ loc_Exact)
      as [s' | s' | | s' m' e']; cbn [has_sign] in Hs;
      try discriminate; try contradiction.
    + intros [= <-]. lia.
    + intros [= <-]. rewrite Hs. apply ceil_scaled_neg.
Qed.

Lemma SFldexp_sign (s : bool) (x : spec_float) (e : Z) :
  has_sign s x -> has_sign s (SFldexp prec emax x e).
Proof.
  destruct x as [s' | s' | | s' m' e']; cbn [SFldexp has_sign]; try tauto.
  intros ->. apply binary_round_sign.
Qed.

(** [SF2Prim] keeps the sign, and never yields NaN from a signed value. *)
Lemma SF2Prim_sign (s : bool) (q : spec_float) :
  has_sign s q -> has_sign s (Prim2SF (SF2Prim q)).
Proof.
  destruct q as [[|] | [|] | | b m e]; cbn [has_sign]; intros H;
    try (subst s; reflexivity); try contradiction.
  subst b. cbn [SF2Prim].
  assert (Hf : has_sign false
                 (Prim2SF (Z.ldexp (of_uint63 (Uint63.of_Z (Z.pos m))) e))).
  { rewrite Z_ldexp_spec, of_uint63_spec. apply SFldexp_sign.
    destruct (Uint63.to_Z (Uint63.of_Z (Z.pos m))) as [| p | p] eqn:Hz;
      cbn [binary_normalize].
    - reflexivity.
    - apply binary_round_sign.
    - pose proof (Uint63.to_Z_bounded (Uint63.of_Z (Z.pos m))). lia. }
  destruct s; [| exact Hf].
  rewrite opp_spec.
  destruct (Prim2SF (Z.ldexp (of_uint63 (Uint63.of_Z (Z.pos m))) e));
    cbn [has_sign SFopp] in *; try contradiction; subst; reflexivity.
Qed.

Lemma nearest_double_sign (s : bool) (p q : positive) :
  has_sign s (nearest_double s p q).
Proof.
  unfold nearest_double, SF64div. cbn [SFdiv].
  unfold SFdiv_core_binary.
  set (m' := match _ - _ - _ with Z.pos _ => _ | Z0 => _ | Z.neg _ => _ end).
  assert (Hm' : 0 <= m').
  { unfold m'. destruct (_ - _ - _); try lia. apply Z.shiftl_nonneg. lia. }
  pose proof (Z.div_pos m' (Z.pos q) Hm' eq_refl) as Hq. unfold Z.div in Hq.
  destruct (Z.div_eucl m' (Z.pos q)) as [qq r].
  replace (xorb s false) with s by (destruct s; reflexivity).
  apply binary_round_aux_sign. exact Hq.
Qed.

Lemma int_truediv_signed (a : Z) (b : positive) (x : float) :
  int_truediv a b = Ok x -> exists s, has_sign s (Prim2SF x).
Proof.
  unfold int_truediv. destruct a as [| p | p].
  - intros [= <-]. exists false. reflexivity.
  - pose proof (nearest_double_sign (Z.pos p <? 0) p b) as Hs.
    destruct (nearest_double (Z.pos p <? 0) p b) eqn:Hq;
      try discriminate; intros [= <-];
      exists (Z.pos p <? 0); exact (SF2Prim_sign _ _ Hs).
  - pose proof (nearest_double_sign (Z.neg p <? 0) p b) as Hs.
    destruct (nearest_double (Z.neg p <? 0) p b) eqn:Hq;
      try discriminate; intros [= <-];
      exists (Z.neg p <? 0); exact (SF2Prim_sign _ _ Hs).
Qed.

Lemma py_ceil_signed_cases (s : bool) (x : float) :
  has_sign s (Prim2SF x) ->
  is_ok (py_ceil x) = true \/ is_overflow (py_ceil x).
Proof.
  unfold py_ceil, is_overflow.
  destruct (Prim2SF x); cbn [has_sign is_ok]; try tauto.
  intros _. right. eexists. reflexivity.
Qed.

Lemma int_as_double_raises_overflow (n : Z) (e : exn) :
  int_as_double n = Raise e -> exists msg, e = OverflowError msg.
Proof.
  unfold int_as_double.
  destruct n; try discriminate; destruct (long_frexp _) as [m k];
    destruct (1024 <? Z.log2 m + 1 + k); try discriminate;
    intros [= <-]; eexists; reflexivity.
Qed.

Lemma num_as_float_raises_overflow (q : pynum) (e : exn) :
  num_as_float q = Raise e -> exists msg, e = OverflowError msg.
Proof.
  destruct q; cbn [num_as_float]; [apply int_as_double_raises_overflow |].
  discriminate.
Qed.

Lemma int_truediv_raises_overflow (a : Z) (b : positive) (e : exn) :
  int_truediv a b = Raise e -> exists msg, e = OverflowError msg.
Proof.
  unfold int_truediv.
  destruct a; try discriminate; destruct (nearest_double _ _ _);
    try discriminate; intros [= <-]; eexists; reflexivity.
Qed.

(** With a length and a post ratio above zero the quantity formulas
    evaluate, or [ceil] or a conversion overflows: no NaN can arise. *)
Lemma fence_quantities_ok_or_overflow (fence : FenceEstimateInput) :
  (0 <? fence_length_ft fence)%float = true ->
  (0 <? posts_per_ft fence)%float = true ->
  is_ok (fence_quantities fence) = true \/
  is_overflow (fence_quantities fence).
Proof.
  intros HL Hp. unfold fence_quantities.
  destruct (py_ceil_signed_cases false _ (mul_pos_sign _ _ HL Hp))
    as [H1 | [msg H1]]; [| right; exists msg; rewrite H1; reflexivity].
  destruct (py_ceil (fence_length_ft fence * posts_per_ft fence)%float)
    as [c_posts | e]; [clear H1 | discriminate].
  cbn [bind].
  replace (if String.eqb (style fence) "wood" then 2%float else 2%float)
    with 2%float by (destruct (String.eqb (style fence) "wood"); reflexivity).
  assert (H2s : has_sign false (Prim2SF (fence_length_ft fence * 2)%float)).
  { apply (mul_pos_sign _ 2%float HL). reflexivity. }
  destruct (py_ceil_signed_cases false _ H2s)
    as [H2 | [msg H2]]; [| right; exists msg; rewrite H2; reflexivity].
  destruct (py_ceil (fence_length_ft fence * 2)%float)
    as [pickets | e]; [clear H2 | discriminate].
  cbn [bind]. unfold num_mul_float. cbn [num_as_float].
  destruct (int_as_double (Z.max 2 c_posts)) as [x | e] eqn:Hx.
  2:{ right. apply int_as_double_raises_overflow in Hx.
      destruct Hx as [msg ->]. exists msg. reflexivity. }
  cbn [bind].
  assert (H3s : has_sign false (Prim2SF (x * 0.75)%float)).
  { apply (pos_mag_has_sign false (1 + (dg 6755399441055744 + -53) - 1)).
    apply (mul_pos_mag x 0.75%float 1 6755399441055744 (-53)).
    - apply (int_as_double_pos_mag (Z.max 2 c_posts)); [lia | exact Hx].
    - exact Prim2SF_three_quarters.
    - change (dg 6755399441055744) with 53.
      unfold SpecFloat.emin, prec, emax. lia. }
  destruct (py_ceil_signed_cases false _ H3s)
    as [H3 | [msg H3]]; [| right; exists msg; rewrite H3; reflexivity].
  destruct (py_ceil (x * 0.75)%float) as [concrete | e];
    [clear H3 | discriminate].
  cbn [bind].
  destruct (int_truediv pickets 200) as [boxes | e] eqn:Hb.
  2:{ right. apply int_truediv_raises_overflow in Hb.
      destruct Hb as [msg ->]. exists msg. reflexivity. }
  cbn [bind]. apply int_truediv_signed in Hb. destruct Hb as [s Hs].
  destruct (py_ceil_signed_cases s _ Hs)
    as [H4 | [msg H4]]; [| right; exists msg; rewrite H4; reflexivity].
  destruct (py_ceil boxes) as [c_boxes | e]; [| discriminate].
  left. reflexivity.
Qed.

(** [build_fence_bom] raises what the quantity formulas raise, or the
    error of a required category that no item carries. *)
Lemma build_fence_bom_raise_inv (pb : Pricebook) (fence : FenceEstimateInput)
    (e : exn) :
  build_fence_bom pb fence = Raise e ->
  fence_quantities fence = Raise e \/
  exists c,
    In c required_categories /\ no_item_with_category pb c /\
    e = category_error c.
Proof.
  unfold build_fence_bom.
  destruct (fence_quantities fence) as [q | e']; cbn [bind];
    [| intros [= ->]; left; reflexivity].
  assert (Hpick : forall c (k : PricebookItem -> result (list LineItemInput)),
            In c required_categories ->
            (forall item, k item = Raise e ->
               exists c', In c' required_categories /\
                          no_item_with_category pb c' /\
                          e = category_error c') ->
            bind (pick_by_category pb c) k = Raise e ->
            exists c', In c' required_categories /\
                       no_item_with_category pb c' /\ e = category_error c').
  { intros c k Hc Hk.
    destruct (pick_by_category pb c) as [item | e'] eqn:Hpk; cbn [bind].
    - apply Hk.
    - intros [= ->]. apply pick_raise in Hpk. destruct Hpk as [-> Hno].
      exists c. auto. }
  intros H. right. revert H.
  apply Hpick; [cbn; tauto |]. intros post.
  apply Hpick; [cbn; tauto |]. intros rail.
  apply Hpick; [cbn; tauto |]. intros picket.
  apply Hpick; [cbn; tauto |]. intros concrete.
  apply Hpick; [cbn; tauto |]. intros fastener.
  destruct (0 <? gate_qty q);
    [destruct (pick_by_category pb "gate") |]; discriminate.
Qed.

(** X2. With a fence length and a post ratio above zero, as the HTTP layer
    requires them, [build_fence_bom] returns a BOM, or raises the
    category-not-found [KeyError] of a required category, or an
    [OverflowError]; it never raises a [ValueError]. *)
Theorem validated_fence_bom_outcomes
    (pb : Pricebook) (fence : FenceEstimateInput) :
  (0 <? fence_length_ft fence)%float = true ->
  (0 <? posts_per_ft fence)%float = true ->
  is_ok (build_fence_bom pb fence) = true \/
  is_overflow (build_fence_bom pb fence) \/
  exists c,
    In c required_categories /\
    build_fence_bom pb fence = Raise (category_error c).
Proof.
  intros HL Hp.
  destruct (build_fence_bom pb fence) as [bom | e] eqn:Hbom;
    [left; reflexivity | right].
  destruct (build_fence_bom_raise_inv pb fence e Hbom)
    as [Hq | (c & Hc & _ & ->)].
  - left. destruct (fence_quantities_ok_or_overflow fence HL Hp)
      as [Hok | [msg Hov]].
    + rewrite Hq in Hok. discriminate.
    + rewrite Hq in Hov. injection Hov as ->. exists msg. reflexivity.
  - right. exists c. auto.
Qed.

Lemma validated_fence_bom_outcomes_witness :
  is_ok (build_fence_bom demo_pricebook demo_fence) = true \/
  is_overflow (build_fence_bom demo_pricebook demo_fence) \/
  exists c,
    In c required_categories /\
    build_fence_bom demo_pricebook demo_fence = Raise (category_error c).
Proof.
  apply (validated_fence_bom_outcomes demo_pricebook demo_fence);
    reflexivity.
Defined.

(** X3. In every returned BOM the post, rail, concrete and fastener lines
    have a quantity above zero, whatever the fence; the picket line has
    one exactly when the fence length is above zero. *)
Theorem only_pickets_can_be_non_positive
    (pb : Pricebook) (fence : FenceEstimateInput) (bom : list LineItemInput) :
  build_fence_bom pb fence = Ok bom ->
  exists post rail picket concrete fastener rest,
    bom = post :: rail :: picket :: concrete :: fastener :: rest /\
    num_pos (li_quantity post) = true /\
    num_pos (li_quantity rail) = true /\
    num_pos (li_quantity concrete) = true /\
    num_pos (li_quantity fastener) = true /\
    (num_pos (li_quantity picket) = true <->
     (0 <? fence_length_ft fence)%float = true).
Proof.
  intros H. apply build_fence_bom_inv in H.
  destruct H as (q & post & rail & picket & concrete & fastener & Hq & _
                 & _ & _ & _ & _ & ->).
  apply fence_quantities_inv in Hq.
  destruct Hq as (c_posts & pickets & bags & conc & boxes & c_boxes & _
                  & H2 & H3 & H4 & _ & _ & ->).
  unfold required_lines.
  cbn [posts_qty rails_qty pickets_qty concrete_qty fasteners_boxes app].
  do 6 eexists. split; [reflexivity |]. cbn [li_quantity num_pos].
  assert (1 <= conc)
    by (apply (concrete_positive (Z.max 2 c_posts) bags);
        [lia | assumption ..]).
  repeat (split; [apply Z.ltb_lt; lia |]).
  split.
  - intros Hpos. apply Z.ltb_lt in Hpos.
    destruct (0 <? fence_length_ft fence)%float eqn:HL; [reflexivity |].
    pose proof (pickets_not_positive _ _ HL H2). lia.
  - intros HL. apply Z.ltb_lt.
    pose proof (pickets_positive _ _ HL H2). lia.
Qed.

Lemma only_pickets_can_be_non_positive_witness :
  exists post rail picket concrete fastener rest,
    demo_bom = post :: rail :: picket :: concrete :: fastener :: rest /\
    num_pos (li_quantity post) = true /\
    num_pos (li_quantity rail) = true /\
    num_pos (li_quantity concrete) = true /\
    num_pos (li_quantity fastener) = true /\
    (num_pos (li_quantity picket) = true <->
     (0 <? fence_length_ft demo_fence)%float = true).
Proof.
  apply (only_pickets_can_be_non_positive demo_pricebook demo_fence demo_bom).
  reflexivity.
Defined.

(** X4. A gate count of zero or less is taken as zero: the outcome is the
    one for no gate. *)
Theorem non_positive_gates_as_zero
    (pb : Pricebook) (fence : FenceEstimateInput) :
  gates fence <= 0 ->
  build_fence_bom pb fence = build_fence_bom pb (with_gates fence 0).
Proof.
  intros Hg. unfold build_fence_bom. rewrite fence_quantities_with_gates.
  destruct (fence_quantities fence) as [q | e] eqn:Hq; [| reflexivity].
  cbn [bind].
  apply fence_quantities_inv in Hq.
  destruct Hq as (c_posts & pickets & bags & conc & boxes & c_boxes & _
                  & _ & _ & _ & _ & _ & ->).
  cbn [posts_qty rails_qty pickets_qty concrete_qty fasteners_boxes gate_qty].
  rewrite Z.max_l by lia. reflexivity.
Qed.

Lemma non_positive_gates_as_zero_witness :
  build_fence_bom demo_pricebook (with_gates demo_fence (-3)) =
  build_fence_bom demo_pricebook (with_gates (with_gates demo_fence (-3)) 0).
Proof.
  apply (non_positive_gates_as_zero demo_pricebook (with_gates demo_fence (-3))).
  cbn. lia.
Defined.

(** *** A pricebook keyed by SKU *)

Lemma keyed_lookup (pb : Pricebook) (item : PricebookItem) :
  keyed_by_sku pb -> In item (pb_values pb) ->
  pb_lookup pb (pb_sku item) <> None.
Proof.
  unfold keyed_by_sku, pb_values.
  induction pb as [| [k v] rest IH]; intros Hk Hin; [contradiction |].
  apply Forall_cons_iff in Hk. destruct Hk as [Hkv Hrest].
  cbn [fst snd] in Hkv. cbn [pb_lookup].
  destruct (String.eqb k (pb_sku item)) eqn:Heq; [discriminate |].
  cbn [map snd In] in Hin. destruct Hin as [-> | Hin].
  - rewrite Hkv, String.eqb_refl in Heq. discriminate.
  - apply IH; assumption.
Qed.

Lemma first_by_category_in (values : list PricebookItem) (c : string)
    (item : PricebookItem) :
  first_by_category values c = Ok item -> In item values.
Proof.
  intros H. apply first_by_category_ok in H.
  destruct H as (before & after & -> & _). apply in_elt.
Qed.

Lemma keyed_bom_in_catalog (pb : Pricebook) (fence : FenceEstimateInput)
    (bom : list LineItemInput) :
  keyed_by_sku pb -> build_fence_bom pb fence = Ok bom ->
  Forall (in_catalog pb) bom.
Proof.
  intros Hk H. apply build_fence_bom_inv in H.
  destruct H as (q & post & rail & picket & concrete & fastener & _ & H1
                 & H2 & H3 & H4 & H5 & ->).
  assert (Hin : forall c item,
            pick_by_category pb c = Ok item ->
            pb_lookup pb (pb_sku item) <> None).
  { intros c item Hp. apply keyed_lookup; [exact Hk |].
    apply (first_by_category_in _ c). exact Hp. }
  apply Forall_app. split.
  - unfold required_lines. repeat constructor; unfold in_catalog;
      cbn [li_sku]; eapply Hin; eassumption.
  - unfold gate_lines. destruct (0 <? gate_qty q); [| constructor].
    destruct (pick_by_category pb "gate") as [g | e] eqn:Hg;
      repeat constructor.
    unfold in_catalog. cbn [li_sku]. eapply Hin. exact Hg.
Qed.

Lemma price_lines_ok_or_overflow (pb : Pricebook)
    (items : list LineItemInput) :
  Forall (fun it => num_pos (li_quantity it) = true) items ->
  Forall (in_catalog pb) items ->
  forall acc mat,
    is_ok (price_lines pb items acc mat) = true \/
    is_overflow (price_lines pb items acc mat).
Proof.
  induction items as [| item rest IH]; intros Hpos Hcat acc mat.
  - left. reflexivity.
  - apply Forall_cons_iff in Hpos. destruct Hpos as [Hq Hpos].
    apply Forall_cons_iff in Hcat. destruct Hcat as [Hc Hcat].
    cbn [price_lines]. rewrite (num_pos_not_le0 _ Hq).
    unfold get_item, num_mul_float. unfold in_catalog in Hc.
    destruct (pb_lookup pb (li_sku item)) as [pb_item |]; [| congruence].
    cbn [bind].
    destruct (num_as_float (li_quantity item)) as [x | e] eqn:Hx.
    + cbn [bind]. apply IH; assumption.
    + right. apply num_as_float_raises_overflow in Hx.
      destruct Hx as [msg ->]. exists msg. reflexivity.
Qed.

Lemma bom_lines_num_pos (pb : Pricebook) (fence : FenceEstimateInput)
    (bom : list LineItemInput) :
  (0 <? fence_length_ft fence)%float = true ->
  build_fence_bom pb fence = Ok bom ->
  Forall (fun line => num_pos (li_quantity line) = true) bom.
Proof.
  intros HL Hbom. apply build_fence_bom_inv in Hbom.
  destruct Hbom as (q & post & rail & picket & concrete & fastener & Hq
                    & _ & _ & _ & _ & _ & ->).
  destruct (fence_quantities_positive fence q HL Hq)
    as (Hp & Hrl & Hpk & Hc & Hf & Hg).
  apply Forall_app. split.
  - unfold required_lines.
    repeat constructor; cbn [li_quantity num_pos]; apply Z.ltb_lt;
      assumption.
  - unfold gate_lines. destruct (0 <? gate_qty q) eqn:Hgq; [| constructor].
    destruct (pick_by_category pb "gate"); repeat constructor.
    exact Hgq.
Qed.

Lemma estimate_ok_or_overflow (pb : Pricebook) (items : list LineItemInput)
    (lh lr mp : float) :
  Forall (fun line => num_pos (li_quantity line) = true) items ->
  Forall (in_catalog pb) items ->
  float_nonneg lh = true -> float_nonneg lr = true ->
  float_nonneg mp = true ->
  is_ok (calculate_estimate pb items lh lr mp) = true \/
  is_overflow (calculate_estimate pb items lh lr mp).
Proof.
  intros Hpos Hcat Hh Hr Hm.
  unfold calculate_estimate. rewrite (labor_guard_passes _ _ _ Hh Hr Hm).
  destruct (price_lines_ok_or_overflow pb items Hpos Hcat [] 0%float)
    as [Hok | [msg Hov]].
  - destruct (price_lines pb items [] 0%float) as [[lines mat] | e];
      [| discriminate].
    left. reflexivity.
  - right. exists msg. rewrite Hov. reflexivity.
Qed.

(** X5. On a pricebook that stores every item under its own SKU, as a
    loaded pricebook does, every line of a returned BOM names a SKU of the
    pricebook, whatever the fence; and with a fence length above zero and
    non-negative labor hours, labor rate and margin, [calculate_estimate]
    on that BOM returns a breakdown or raises an [OverflowError], and no
    other exception. *)
Theorem bom_prices_on_keyed_pricebook
    (pb : Pricebook) (fence : FenceEstimateInput) (bom : list LineItemInput)
    (lh lr mp : float) :
  keyed_by_sku pb ->
  build_fence_bom pb fence = Ok bom ->
  Forall (in_catalog pb) bom /\
  ((0 <? fence_length_ft fence)%float = true ->
   float_nonneg lh = true -> float_nonneg lr = true ->
   float_nonneg mp = true ->
   is_ok (calculate_estimate pb bom lh lr mp) = true \/
   is_overflow (calculate_estimate pb bom lh lr mp)).
Proof.
  intros Hk Hbom.
  pose proof (keyed_bom_in_catalog pb fence bom Hk Hbom) as Hcat.
  split; [exact Hcat |].
  intros HL Hh Hr Hm.
  apply estimate_ok_or_overflow; try assumption.
  eapply bom_lines_num_pos; eassumption.
Qed.

Lemma bom_prices_on_keyed_pricebook_witness :
  Forall (in_catalog demo_pricebook) demo_bom /\
  (is_ok (calculate_estimate demo_pricebook demo_bom 2 50 10) = true \/
   is_overflow (calculate_estimate demo_pricebook demo_bom 2 50 10)).
Proof.
  assert (Hk : keyed_by_sku demo_pricebook) by (repeat constructor).
  destruct (bom_prices_on_keyed_pricebook demo_pricebook demo_fence demo_bom
              2 50 10 Hk eq_refl) as [Hcat Hprice].
  split; [exact Hcat |]. apply Hprice; reflexivity.
Defined.

(** *** A margin of zero *)

Lemma py_round2_finite_inv (x : float) :
  is_finite (py_round2 x) = true -> is_finite x = true.
Proof.
  unfold is_finite at 2. destruct (Prim2SF x) eqn:Hx; try reflexivity;
    unfold py_round2; rewrite Hx; unfold is_finite; rewrite Hx;
    discriminate.
Qed.

Lemma add_zero_share (s : float) :
  is_finite s = true -> (s + s * 0)%float = s.
Proof.
  intros Hf. apply Prim2SF_inj.
  rewrite add_spec, mul_spec, Prim2SF_zero. unfold is_finite in Hf.
  destruct (Prim2SF s) as [[|] | | | b m e]; try discriminate; reflexivity.
Qed.

Lemma zero_share_is_zero (s : float) :
  is_finite s = true -> (py_round2 (s * 0) =? 0)%float = true.
Proof.
  intros Hf.
  assert (Hz : exists b, Prim2SF (s * 0) = S754_zero b).
  { rewrite mul_spec, Prim2SF_zero. unfold is_finite in Hf.
    destruct (Prim2SF s) as [b | | | b m e]; try discriminate;
      eexists; reflexivity. }
  destruct Hz as [b Hz].
  rewrite eqb_spec, Prim2SF_zero. unfold py_round2. rewrite Hz, Hz.
  reflexivity.
Qed.

(** X6. With a margin of zero and a finite subtotal, the margin amount of
    the breakdown is zero and the total is the subtotal. *)
Theorem zero_margin_total_is_subtotal
    (pb : Pricebook) (items : list LineItemInput) (lh lr : float)
    (b : EstimateBreakdown) :
  calculate_estimate pb items lh lr 0 = Ok b ->
  is_finite (subtotal b) = true ->
  total b = subtotal b /\ (margin_amount b =? 0)%float = true.
Proof.
  unfold calculate_estimate.
  destruct (float_lt0 lh || float_lt0 lr || float_lt0 0); [discriminate |].
  destruct (price_lines pb items [] 0%float) as [[lines m] | e];
    [| discriminate].
  cbn [bind]. intros [= <-]. cbn [subtotal total margin_amount].
  unfold _round_money. change (0 / 100)%float with 0%float.
  intros Hf. apply py_round2_finite_inv in Hf.
  rewrite (add_zero_share _ Hf). split; [reflexivity |].
  apply zero_share_is_zero, Hf.
Qed.

Lemma zero_margin_total_is_subtotal_witness :
  total (mkEstimateBreakdown 30 2 50 100 130 0 0 130
           [mkLineItemEstimate "A" "Cedar picket" (PyFloat 3) "ea" 10 30]) =
  subtotal (mkEstimateBreakdown 30 2 50 100 130 0 0 130
              [mkLineItemEstimate "A" "Cedar picket" (PyFloat 3) "ea" 10 30]) /\
  (margin_amount
     (mkEstimateBreakdown 30 2 50 100 130 0 0 130
        [mkLineItemEstimate "A" "Cedar picket" (PyFloat 3) "ea" 10 30])
   =? 0)%float = true.
Proof.
  apply (zero_margin_total_is_subtotal single_pricebook
           [mkLineItemInput "A" (PyFloat 3)] 2 50); reflexivity.
Defined.

(* ===================================================================== *)
(** ** Dicts *)
(* ===================================================================== *)

Section Dicts.

Context {V : Type}.

Lemma dict_get_set_same (d : list (string * V)) (k : string) (v : V) :
  dict_get (dict_set d k v) k = Some v.
Proof.
  induction d as [| [k' v'] rest IH]; cbn [dict_set dict_get].
  - rewrite String.eqb_refl. reflexivity.
  - destruct (String.eqb k' k) eqn:Hk; cbn [dict_get].
    + rewrite String.eqb_refl. reflexivity.
    + rewrite Hk. exact IH.
Qed.

Lemma dict_get_set_other (d : list (string * V)) (k k' : string) (v : V) :
  k <> k' -> dict_get (dict_set d k v) k' = dict_get d k'.
Proof.
  intros Hne. induction d as [| [k0 v0] rest IH]; cbn [dict_set dict_get].
  - destruct (String.eqb k k') eqn:Hk; [| reflexivity].
    apply String.eqb_eq in Hk. contradiction.
  - destruct (String.eqb k0 k) eqn:Hk0; cbn [dict_get].
    + apply String.eqb_eq in Hk0. subst k0.
      destruct (String.eqb k k') eqn:Hk; [| reflexivity].
      apply String.eqb_eq in Hk. contradiction.
    + destruct (String.eqb k0 k'); [reflexivity | exact IH].
Qed.

Lemma dict_get_set (d : list (string * V)) (k k' : string) (v : V) :
  dict_get (dict_set d k v) k' =
  if String.eqb k k' then Some v else dict_get d k'.
Proof.
  destruct (String.eqb k k') eqn:Hk.
  - apply String.eqb_eq in Hk. subst k'. apply dict_get_set_same.
  - apply dict_get_set_other. intros ->. rewrite String.eqb_refl in Hk.
    discriminate.
Qed.

Lemma dict_set_in (d : list (string * V)) (k : string) (v : V)
    (entry : string * V) :
  In entry (dict_set d k v) -> entry = (k, v) \/ In entry d.
Proof.
  induction d as [| [k' v'] rest IH]; cbn [dict_set].
  - intros [<- | []]. left. reflexivity.
  - destruct (String.eqb k' k); cbn [In]; intros [<- | H]; auto.
    destruct (IH H); auto.
Qed.

Lemma dict_set_keys_in (d : list (string * V)) (k : string) (v : V)
    (k' : string) :
  In k' (map fst (dict_set d k v)) -> k' = k \/ In k' (map fst d).
Proof.
  intros H. apply in_map_iff in H. destruct H as ([k0 v0] & <- & Hin).
  apply dict_set_in in Hin. destruct Hin as [[= -> ->] | Hin]; [auto |].
  right. apply (in_map fst) in Hin. exact Hin.
Qed.

Lemma dict_set_nodup (d : list (string * V)) (k : string) (v : V) :
  NoDup (map fst d) -> NoDup (map fst (dict_set d k v)).
Proof.
  induction d as [| [k' v'] rest IH]; cbn [dict_set map fst]; intros Hnd.
  - repeat constructor. intros [].
  - apply NoDup_cons_iff in Hnd. destruct Hnd as [Hnin Hnd].
    destruct (String.eqb k' k) eqn:Hk; cbn [map fst].
    + apply String.eqb_eq in Hk. subst k'. constructor; assumption.
    + constructor; [| apply IH; exact Hnd].
      intros Hin. apply dict_set_keys_in in Hin.
      destruct Hin as [-> | Hin]; [| contradiction].
      rewrite String.eqb_refl in Hk. discriminate.
Qed.

End Dicts.

Lemma find_app_first {A : Type} (f : A -> bool) (l1 l2 : list A) :
  find f (l1 ++ l2) =
  match find f l1 with
  | Some x => Some x
  | None => find f l2
  end.
Proof.
  induction l1 as [| a l1 IH]; cbn [app find]; [reflexivity |].
  destruct (f a); [reflexivity | exact IH].
Qed.

Lemma dict_get_not_in {V : Type} (d : list (string * V)) (k : string) :
  ~ In k (map fst d) -> dict_get d k = None.
Proof.
  induction d as [| [k' v'] rest IH]; cbn [dict_get map fst In];
    [reflexivity |].
  intros Hnin. destruct (String.eqb k' k) eqn:Hk.
  - apply String.eqb_eq in Hk. tauto.
  - apply IH. tauto.
Qed.

Lemma pb_lookup_dict_get (pb : Pricebook) (sku : string) :
  pb_lookup pb sku = dict_get pb sku.
Proof.
  induction pb as [| [k v] rest IH]; cbn [pb_lookup dict_get];
    [reflexivity |].
  rewrite IH. reflexivity.
Qed.

(* ===================================================================== *)
(** ** The header map *)
(* ===================================================================== *)

Section HeaderMap.

Variable B : Builtins.

Lemma normalised_fold_get (headers : list string) (alias : string) :
  forall d,
    dict_get
      (fold_left (fun d h => dict_set d (_normalise_header B h) h) headers d)
      alias =
    match find (fun h => String.eqb (_normalise_header B h) alias)
            (rev headers) with
    | Some h => Some h
    | None => dict_get d alias
    end.
Proof.
  induction headers as [| h rest IH]; intros d; cbn [fold_left rev find].
  - reflexivity.
  - rewrite IH, find_app_first. cbn [find].
    destruct (find _ (rev rest)); [reflexivity |].
    rewrite dict_get_set.
    destruct (String.eqb (_normalise_header B h) alias); reflexivity.
Qed.

(** A normalised header stands for the last header that gives it. *)
Lemma normalised_headers_get (headers : list string) (alias : string) :
  dict_get (normalised_headers B headers) alias =
  find (fun h => String.eqb (_normalise_header B h) alias) (rev headers).
Proof.
  unfold normalised_headers. rewrite normalised_fold_get.
  destruct (find _ (rev headers)); reflexivity.
Qed.

Lemma normalised_headers_none (headers : list string) (alias : string) :
  dict_get (normalised_headers B headers) alias = None <->
  header_named B headers alias = false.
Proof.
  rewrite normalised_headers_get. unfold header_named. split.
  - intros H. apply not_true_is_false. intros Hex.
    apply existsb_exists in Hex. destruct Hex as (h & Hin & Hh).
    apply in_rev in Hin.
    pose proof (find_none _ _ H h Hin) as Hno. cbn beta in Hno.
    congruence.
  - intros H. destruct (find _ (rev headers)) as [h |] eqn:Hf;
      [| reflexivity].
    apply find_some in Hf. destruct Hf as [Hin Hh].
    apply in_rev in Hin.
    assert (existsb (fun h => String.eqb (_normalise_header B h) alias)
              headers = true)
      by (apply existsb_exists; exists h; auto).
    congruence.
Qed.

Lemma first_alias_none (headers : list string) (aliases : list string) :
  first_alias (normalised_headers B headers) aliases = None <->
  existsb (header_named B headers) aliases = false.
Proof.
  induction aliases as [| a rest IH]; cbn [first_alias existsb].
  - tauto.
  - destruct (dict_get (normalised_headers B headers) a) as [h |] eqn:Hg.
    + assert (Hn : header_named B headers a = true).
      { destruct (header_named B headers a) eqn:Hn; [reflexivity |].
        apply normalised_headers_none in Hn. congruence. }
      rewrite Hn. cbn. split; discriminate.
    + apply normalised_headers_none in Hg. rewrite Hg. cbn. exact IH.
Qed.

Lemma alias_fold_get (normalised : list (string * string))
    (table : list (string * list string)) :
  NoDup (map fst table) ->
  forall acc field,
    dict_get
      (fold_left
         (fun mapping entry =>
            match first_alias normalised (snd entry) with
            | Some header => dict_set mapping (fst entry) header
            | None => mapping
            end) table acc) field =
    match dict_get table field with
    | Some aliases =>
        match first_alias normalised aliases with
        | Some header => Some header
        | None => dict_get acc field
        end
    | None => dict_get acc field
    end.
Proof.
  induction table as [| [f al] rest IH]; intros Hnd acc field;
    cbn [fold_left dict_get fst snd]; [reflexivity |].
  cbn [map fst] in Hnd. apply NoDup_cons_iff in Hnd.
  destruct Hnd as [Hnin Hnd]. rewrite (IH Hnd).
  destruct (String.eqb f field) eqn:Hf.
  - apply String.eqb_eq in Hf. subst field.
    rewrite (dict_get_not_in rest f Hnin).
    destruct (first_alias normalised al); [| reflexivity].
    apply dict_get_set_same.
  - assert (Hacc : dict_get
                     match first_alias normalised al with
                     | Some header => dict_set acc f header
                     | None => acc
                     end field = dict_get acc field).
    { destruct (first_alias normalised al); [| reflexivity].
      apply dict_get_set_other. intros ->. rewrite String.eqb_refl in Hf.
      discriminate. }
    rewrite Hacc. reflexivity.
Qed.

Lemma field_names_nodup : NoDup (map fst _FIELD_ALIASES).
Proof.
  cbn. repeat constructor; cbn; intuition discriminate.
Qed.

(** The field of the mapping is the first alias, in the order of the
    aliases, that is a normalised header. *)
Lemma alias_mapping_get (normalised : list (string * string))
    (field : string) :
  dict_get (alias_mapping normalised) field =
  first_alias normalised (aliases_of field).
Proof.
  unfold alias_mapping, aliases_of.
  rewrite (alias_fold_get normalised _ field_names_nodup).
  destruct (dict_get _FIELD_ALIASES field); cbn [dict_get first_alias];
    [| reflexivity].
  destruct (first_alias normalised l); reflexivity.
Qed.

End HeaderMap.

Section HeaderMapTheorems.

Variable B : Builtins.

Lemma missing_filter_recognised (headers : list string) (fields : list string) :
  filter
    (fun f =>
       match dict_get (alias_mapping (normalised_headers B headers)) f with
       | Some _ => false
       | None => true
       end) fields =
  filter (fun f => negb (recognised B headers f)) fields.
Proof.
  apply filter_ext. intros f. rewrite alias_mapping_get. unfold recognised.
  destruct (first_alias (normalised_headers B headers) (aliases_of f))
    eqn:Hfa.
  - destruct (existsb (header_named B headers) (aliases_of f)) eqn:Hex;
      [reflexivity |].
    apply first_alias_none in Hex. congruence.
  - apply first_alias_none in Hfa. rewrite Hfa. reflexivity.
Qed.

(** X7. [_build_header_map] returns a mapping exactly when each of "sku",
    "description", "unit" and "unit_price" has an alias that some header
    equals once stripped and lower-cased; "unit_cost" and "category" may
    be absent. Otherwise it raises the [ValueError] that lists the
    required fields without such a header, in that order. *)
Theorem header_map_required_columns (headers : list string) :
  _build_header_map B headers =
  match filter (fun f => negb (recognised B headers f)) required_fields with
  | [] => Returned (alias_mapping (normalised_headers B headers))
  | missing =>
      Raised (Core (ValueError
        ("Pricebook CSV is missing required columns: " ++
         String.concat ", " missing)%string))
  end.
Proof.
  unfold _build_header_map. rewrite missing_filter_recognised.
  destruct (filter _ required_fields); reflexivity.
Qed.

Lemma first_alias_some (normalised : list (string * string))
    (aliases : list string) (h : string) :
  first_alias normalised aliases = Some h ->
  exists before alias after,
    aliases = before ++ alias :: after /\
    Forall (fun a => dict_get normalised a = None) before /\
    dict_get normalised alias = Some h.
Proof.
  induction aliases as [| a rest IH]; cbn [first_alias]; [discriminate |].
  destruct (dict_get normalised a) as [h' |] eqn:Hg.
  - intros [= ->]. exists [], a, rest. auto.
  - intros H. destruct (IH H) as (before & alias & after & -> & Hb & Ha).
    exists (a :: before), alias, after. auto.
Qed.

Lemma find_rev_last {A : Type} (f : A -> bool) (l : list A) (x : A) :
  find f (rev l) = Some x ->
  exists l1 l2,
    l = l1 ++ x :: l2 /\ f x = true /\ Forall (fun y => f y = false) l2.
Proof.
  induction l as [| a l IH] using rev_ind; [discriminate |].
  rewrite rev_unit. cbn [find]. destruct (f a) eqn:Hfa.
  - intros [= ->]. exists l, []. auto.
  - intros H. destruct (IH H) as (l1 & l2 & -> & Hx & Hl2).
    exists l1, (l2 ++ [a]). rewrite <- app_assoc. repeat split; auto.
    apply Forall_app. auto.
Qed.

(** X8. The header that the mapping gives for a field is one of the
    headers; stripped and lower-cased it is an alias of the field, the
    first in the order of the aliases that any header matches; and among
    the headers that match this alias it is the last. *)
Theorem header_map_choice (headers : list string)
    (mapping : list (string * string)) (field header : string) :
  _build_header_map B headers = Returned mapping ->
  dict_get mapping field = Some header ->
  exists before alias after hs1 hs2,
    aliases_of field = before ++ alias :: after /\
    Forall (fun a => header_named B headers a = false) before /\
    headers = hs1 ++ header :: hs2 /\
    _normalise_header B header = alias /\
    Forall (fun h => _normalise_header B h <> alias) hs2.
Proof.
  unfold _build_header_map.
  destruct (filter _ required_fields); [| discriminate].
  intros [= <-]. rewrite alias_mapping_get. intros Hfa.
  apply first_alias_some in Hfa.
  destruct Hfa as (before & alias & after & Hal & Hb & Hg).
  rewrite normalised_headers_get in Hg. apply find_rev_last in Hg.
  destruct Hg as (hs1 & hs2 & Hh & Heq & Hlast).
  exists before, alias, after, hs1, hs2. repeat split; auto.
  - eapply Forall_impl; [| exact Hb]. intros a Ha. cbn beta in Ha.
    apply normalised_headers_none. exact Ha.
  - apply String.eqb_eq. exact Heq.
  - eapply Forall_impl; [| exact Hlast]. intros h Hn. cbn beta in Hn.
    intros Heq'. apply String.eqb_eq in Heq'. congruence.
Qed.

End HeaderMapTheorems.

Example header_map_examples :
  _build_header_map ascii_builtins ["Price"; " SKU "; "unit_price"; "Desc";
                                    "uom"; "PRICE"] =
    Returned [ ("sku", " SKU "); ("description", "Desc"); ("unit", "uom");
               ("unit_price", "unit_price") ] /\
  _build_header_map ascii_builtins ["sku"; "price"; "category"] =
    Raised (Core (ValueError
      "Pricebook CSV is missing required columns: description, unit")).
Proof. split; reflexivity. Qed.

Lemma header_map_choice_witness :
  exists before alias after hs1 hs2,
    aliases_of "unit_price" = before ++ alias :: after /\
    Forall (fun a => header_named ascii_builtins demo_headers a = false)
      before /\
    demo_headers = hs1 ++ "Price" :: hs2 /\
    _normalise_header ascii_builtins "Price" = alias /\
    Forall (fun h => _normalise_header ascii_builtins h <> alias) hs2.
Proof.
  apply (header_map_choice ascii_builtins demo_headers
           [ ("sku", " SKU "); ("description", "Name"); ("unit", "UOM");
             ("unit_price", "Price"); ("category", "Group") ]);
    reflexivity.
Defined.

(* ===================================================================== *)
(** ** The loop over the rows *)
(* ===================================================================== *)

Section LoadLoop.

Variable B : Builtins.
Variable header_map : list (string * string).


Variable stop : option io_exn.

Lemma load_rows_returned (rows : list csv_row) :
  forall idx items pb,
    load_rows B header_map rows stop idx items = Returned pb <->
    stop = None /\
    exists loaded,
      rows_loaded B header_map rows idx loaded /\
      pb = store items (somes loaded).
Proof.
  induction rows as [| row rest IH]; intros idx items pb;
    cbn [load_rows].
  - split.
    + destruct stop; [discriminate |]. intros [= <-].
      split; [reflexivity |]. exists []. split; [constructor | reflexivity].
    + intros (-> & loaded & Hl & ->). inversion Hl; subst. reflexivity.
  - split.
    + destruct (load_row B header_map idx row) as [r | e] eqn:Hrow;
        cbn [and_then]; [| discriminate].
      intros H.
      assert (Hrest : load_rows B header_map rest stop (idx + 1)
                        (store items (somes [r])) = Returned pb)
        by (destruct r; exact H).
      apply IH in Hrest. destruct Hrest as (Hstop & loaded & Hl & ->).
      split; [exact Hstop |].
      exists (r :: loaded). split; [constructor; assumption |].
      destruct r; reflexivity.
    + intros (Hstop & loaded & Hl & ->). inversion Hl; subst loaded.
      match goal with
      | H : load_row B header_map idx row = _ |- _ => rewrite H
      end.
      cbn [and_then].
      assert (Hrest : load_rows B header_map rest stop (idx + 1)
                        (store items (somes [r])) =
                      Returned (store (store items (somes [r])) (somes rs)))
        by (apply IH; split; [exact Hstop |];
            eexists; split; [eassumption | reflexivity]).
      destruct r; exact Hrest.
Qed.

Lemma load_rows_raised (rows : list csv_row) (e : pyexn) :
  forall idx items,
    load_rows B header_map rows stop idx items = Raised e <->
    (exists before row after loaded,
       rows = before ++ row :: after /\
       rows_loaded B header_map before idx loaded /\
       load_row B header_map (idx + Z.of_nat (List.length before)) row =
         Raised e) \/
    (exists loaded io,
       rows_loaded B header_map rows idx loaded /\
       stop = Some io /\ e = IO io).
Proof.
  induction rows as [| row rest IH]; intros idx items; cbn [load_rows].
  - split.
    + destruct stop as [io |]; [| discriminate]. intros [= <-].
      right. exists [], io. repeat split. constructor.
    + intros [(before & r & after & loaded & Heq & _)
             | (loaded & io & _ & -> & ->)];
        [destruct before; discriminate | reflexivity].
  - split.
    + destruct (load_row B header_map idx row) as [r | e'] eqn:Hrow;
        cbn [and_then].
      * intros H.
        assert (Hrest : load_rows B header_map rest stop (idx + 1)
                          (store items (somes [r])) = Raised e)
          by (destruct r; exact H).
        apply IH in Hrest.
        destruct Hrest as [(before & r' & after & loaded & -> & Hl & Hr)
                          | (loaded & io & Hl & Hstop & ->)].
        -- left. exists (row :: before), r', after, (r :: loaded).
           repeat split; [constructor; assumption |].
           cbn [List.length]. rewrite Nat2Z.inj_succ.
           replace (idx + Z.succ (Z.of_nat (List.length before)))
             with (idx + 1 + Z.of_nat (List.length before)) by lia.
           exact Hr.
        -- right. exists (r :: loaded), io.
           repeat split; [constructor; assumption | exact Hstop].
      * intros [= ->]. left. exists [], row, rest, [].
        repeat split; [constructor |].
        cbn [List.length Z.of_nat]. rewrite Z.add_0_r. exact Hrow.
    + intros [(before & r' & after & loaded & Heq & Hl & Hr)
             | (loaded & io & Hl & Hstop & ->)].
      * destruct before as [| b before]; cbn [app] in Heq.
        -- injection Heq as <- <-. cbn [List.length Z.of_nat] in Hr.
           rewrite Z.add_0_r in Hr. rewrite Hr. reflexivity.
        -- injection Heq as <- ->. inversion Hl; subst loaded.
           match goal with
           | H : load_row B header_map idx row = _ |- _ => rewrite H
           end.
           cbn [and_then].
           assert (Hrest : load_rows B header_map (before ++ r' :: after)
                             stop (idx + 1) (store items (somes [r])) =
                           Raised e).
           { apply IH. left. exists before, r', after, rs.
             repeat split; [assumption |].
             cbn [List.length] in Hr. rewrite Nat2Z.inj_succ in Hr.
             replace (idx + 1 + Z.of_nat (List.length before))
               with (idx + Z.succ (Z.of_nat (List.length before))) by lia.
             exact Hr. }
           destruct r; exact Hrest.
      * inversion Hl; subst loaded.
        match goal with
        | H : load_row B header_map idx row = _ |- _ => rewrite H
        end.
        cbn [and_then].
        assert (Hrest : load_rows B header_map rest stop (idx + 1)
                          (store items (somes [r])) = Raised (IO io)).
        { apply IH. right. exists rs, io. auto. }
        destruct r; exact Hrest.
Qed.

(** What a row gives when the body of the loop returns does not depend
    on its number, which only goes into the messages. *)
Lemma load_row_returned_any_idx (idx idx' : Z) (row : csv_row)
    (r : option PricebookItem) :
  load_row B header_map idx row = Returned r -> load_row B header_map idx' row = Returned r.
Proof.
  unfold load_row.
  destruct (get B header_map row "sku") as [sku |]; cbn [and_then];
    [| discriminate].
  destruct (String.eqb sku "").
  - destruct (any_stripped B (map snd row)) as [[|] |]; cbn [and_then];
      try discriminate. auto.
  - destruct (get B header_map row "description"); cbn [and_then];
      [| discriminate].
    destruct (get B header_map row "unit"); cbn [and_then];
      [| discriminate].
    destruct (get B header_map row "unit_price") as [p |]; cbn [and_then];
      [| discriminate].
    destruct (String.eqb p ""); [discriminate |].
    destruct (py_float B p); [| discriminate]. auto.
Qed.

Lemma rows_loaded_any_idx (rows : list csv_row)
    (loaded : list (option PricebookItem)) :
  forall idx idx',
    rows_loaded B header_map rows idx loaded -> rows_loaded B header_map rows idx' loaded.
Proof.
  revert loaded. induction rows as [| row rest IH]; intros loaded idx idx' H;
    inversion H; subst; constructor.
  - eapply load_row_returned_any_idx. eassumption.
  - eapply IH. eassumption.
Qed.

Lemma rows_loaded_app (rows1 rows2 : list csv_row) :
  forall idx loaded,
    rows_loaded B header_map (rows1 ++ rows2) idx loaded <->
    exists l1 l2,
      loaded = l1 ++ l2 /\ rows_loaded B header_map rows1 idx l1 /\
      rows_loaded B header_map rows2 (idx + Z.of_nat (List.length rows1)) l2.
Proof.
  induction rows1 as [| row rest IH]; intros idx loaded; cbn [app List.length].
  - cbn [Z.of_nat]. rewrite Z.add_0_r. split.
    + intros H. exists [], loaded. repeat split; [constructor | exact H].
    + intros (l1 & l2 & -> & H1 & H2). inversion H1; subst. exact H2.
  - rewrite Nat2Z.inj_succ.
    replace (idx + Z.succ (Z.of_nat (List.length rest)))
      with (idx + 1 + Z.of_nat (List.length rest)) by lia.
    split.
    + intros H. inversion H; subst.
      match goal with H' : rows_loaded B header_map (rest ++ rows2) _ _ |- _ =>
        apply IH in H'; destruct H' as (l1 & l2 & -> & Hl1 & Hl2) end.
      exists (r :: l1), l2. repeat split; [constructor |]; assumption.
    + intros (l1 & l2 & -> & H1 & H2). inversion H1; subst.
      cbn [app]. constructor; [assumption |].
      apply IH. eexists _, _. repeat split; eassumption.
Qed.

Lemma rows_loaded_functional (rows : list csv_row) :
  forall idx l1 l2,
    rows_loaded B header_map rows idx l1 -> rows_loaded B header_map rows idx l2 -> l1 = l2.
Proof.
  induction rows as [| row rest IH]; intros idx l1 l2 H1 H2;
    inversion H1; inversion H2; subst; [reflexivity |].
  f_equal; [congruence | eapply IH; eassumption].
Qed.

Lemma somes_app {A : Type} (l1 l2 : list (option A)) :
  somes (l1 ++ l2) = somes l1 ++ somes l2.
Proof.
  induction l1 as [| [a |] l1 IH]; cbn [app somes]; [reflexivity | |];
    rewrite IH; reflexivity.
Qed.

(** The item of a row that gives one: its SKU is not empty, and neither
    is its category when it has one. *)
Lemma load_row_item (idx : Z) (row : csv_row) (item : PricebookItem) :
  load_row B header_map idx row = Returned (Some item) ->
  pb_sku item <> "" /\ pb_category item <> Some "".
Proof.
  unfold load_row.
  destruct (get B header_map row "sku") as [sku |]; cbn [and_then];
    [| discriminate].
  destruct (String.eqb sku "") eqn:Hsku.
  - destruct (any_stripped B (map snd row)) as [[|] |]; cbn [and_then];
      discriminate.
  - destruct (get B header_map row "description"); cbn [and_then];
      [| discriminate].
    destruct (get B header_map row "unit"); cbn [and_then];
      [| discriminate].
    destruct (get B header_map row "unit_price") as [p |]; cbn [and_then];
      [| discriminate].
    destruct (String.eqb p ""); [discriminate |].
    destruct (py_float B p); [| discriminate].
    destruct (get B header_map row "unit_cost"); cbn [and_then];
      [| discriminate].
    destruct (get B header_map row "category") as [c |]; cbn [and_then];
      [| discriminate].
    intros [= <-]. cbn [pb_sku pb_category]. split.
    + intros ->. discriminate.
    + destruct (String.eqb c "") eqn:Hc; [discriminate |].
      intros [= ->]. discriminate.
Qed.

Lemma rows_loaded_items (rows : list csv_row) :
  forall idx loaded,
    rows_loaded B header_map rows idx loaded ->
    Forall (fun item => pb_sku item <> "" /\ pb_category item <> Some "")
      (somes loaded).
Proof.
  induction rows as [| row rest IH]; intros idx loaded H; inversion H; subst;
    cbn [somes]; [constructor |].
  destruct r as [item |]; [constructor |]; eauto using load_row_item.
Qed.

End LoadLoop.

Lemma store_well_keyed (loaded : list PricebookItem) :
  forall items,
    Forall (fun item => pb_sku item <> "" /\ pb_category item <> Some "")
      loaded ->
    well_keyed items -> well_keyed (store items loaded).
Proof.
  induction loaded as [| item rest IH]; intros items Hl Hw; cbn [store fold_left];
    [exact Hw |].
  inversion Hl as [| ? ? [Hs Hc] Hrest]; subst.
  apply IH; [exact Hrest |].
  destruct Hw as [Hnd Hall]. split; [apply dict_set_nodup; exact Hnd |].
  apply Forall_forall. intros entry Hin. apply dict_set_in in Hin.
  destruct Hin as [-> | Hin]; [cbn [fst snd]; auto |].
  revert entry Hin. apply Forall_forall. exact Hall.
Qed.

Lemma store_get (loaded : list PricebookItem) (sku : string) :
  forall items,
    dict_get (store items loaded) sku =
    match last_with_sku loaded sku with
    | Some item => Some item
    | None => dict_get items sku
    end.
Proof.
  unfold last_with_sku.
  induction loaded as [| item rest IH]; intros items;
    cbn [store fold_left rev find]; [reflexivity |].
  change (fold_left _ rest ?d) with (store d rest).
  rewrite IH, find_app_first. cbn [find].
  destruct (find _ (rev rest)); [reflexivity |].
  rewrite dict_get_set. destruct (String.eqb (pb_sku item) sku); reflexivity.
Qed.

(* ===================================================================== *)
(** ** The pricebook that [load_pricebook] returns *)
(* ===================================================================== *)

Lemma well_keyed_nil : well_keyed [].
Proof. split; constructor. Qed.

Lemma well_keyed_keyed_by_sku (pb : Pricebook) :
  well_keyed pb -> keyed_by_sku pb.
Proof.
  intros [_ H]. unfold keyed_by_sku. eapply Forall_impl; [| exact H].
  intros entry (Hk & _). exact Hk.
Qed.

Lemma load_pricebook_returned (B : Builtins) (path : string)
    (file : option csv_file) (pb : Pricebook) :
  load_pricebook B path file = Returned pb ->
  exists fieldnames rows header_map loaded,
    file = Some (Rows fieldnames rows None) /\
    _build_header_map B fieldnames = Returned header_map /\
    rows_loaded B header_map rows 2 loaded /\
    pb = store [] (somes loaded).
Proof.
  unfold load_pricebook.
  destruct file as [[e | e | | fieldnames rows stop] |]; try discriminate.
  destruct (_build_header_map B fieldnames) as [header_map |] eqn:Hmap;
    cbn [and_then]; [| discriminate].
  intros H. apply load_rows_returned in H.
  destruct H as (-> & loaded & Hl & ->).
  exists fieldnames, rows, header_map, loaded. auto.
Qed.

(** X9. A pricebook that [load_pricebook] returns holds each SKU once,
    holds every item under its own SKU, and holds no empty SKU and no
    empty category: a blank category cell is stored as no category. *)
Theorem loaded_pricebook_well_keyed (B : Builtins) (path : string)
    (file : option csv_file) (pb : Pricebook) :
  load_pricebook B path file = Returned pb -> well_keyed pb.
Proof.
  intros H. apply load_pricebook_returned in H.
  destruct H as (fieldnames & rows & header_map & loaded & _ & _ & Hl & ->).
  apply store_well_keyed; [| exact well_keyed_nil].
  eapply rows_loaded_items. exact Hl.
Qed.

(** X10. When the file loads, every row went through the body of the loop
    without raising, and looking a SKU up in the pricebook gives the item
    of the last row that carries it; a SKU that no row carries is not
    found. *)
Theorem last_row_with_sku_wins (B : Builtins) (path : string)
    (fieldnames : list string) (rows : list csv_row) (stop : option io_exn)
    (pb : Pricebook) :
  load_pricebook B path (Some (Rows fieldnames rows stop)) = Returned pb ->
  exists header_map loaded,
    _build_header_map B fieldnames = Returned header_map /\
    rows_loaded B header_map rows 2 loaded /\
    forall sku,
      get_item pb sku =
      match last_with_sku (somes loaded) sku with
      | Some item => Ok item
      | None => Raise (KeyError ("SKU not found in pricebook: " ++ sku)%string)
      end.
Proof.
  intros H. apply load_pricebook_returned in H.
  destruct H as (fn & rs & header_map & loaded & [= <- <- ->] & Hmap & Hl
                 & ->).
  exists header_map, loaded. repeat split; [exact Hmap | exact Hl |].
  intros sku. unfold get_item.
  rewrite pb_lookup_dict_get, store_get. cbn [dict_get].
  destruct (last_with_sku (somes loaded) sku); reflexivity.
Qed.

(** X11. With a header row that is accepted, [load_pricebook] raises
    exactly in two cases. The body of the loop raises on some row after
    returning on every row before it: the exception is the one of that
    row, and the row number in its message is the position of the row
    among the rows of the reader, counted from 2. Or the body returns on
    every row that the reader yields, and the reader then raises: the
    exception is the one of the reader. No pricebook is returned,
    whatever the rows before and after hold. *)
Theorem first_failing_row_aborts (B : Builtins) (path : string)
    (fieldnames : list string) (rows : list csv_row) (stop : option io_exn)
    (header_map : list (string * string)) (e : pyexn) :
  _build_header_map B fieldnames = Returned header_map ->
  (load_pricebook B path (Some (Rows fieldnames rows stop)) = Raised e <->
   (exists before row after loaded,
      rows = before ++ row :: after /\
      rows_loaded B header_map before 2 loaded /\
      load_row B header_map (2 + Z.of_nat (List.length before)) row =
        Raised e) \/
   (exists loaded io,
      rows_loaded B header_map rows 2 loaded /\
      stop = Some io /\ e = IO io)).
Proof.
  intros Hmap. unfold load_pricebook. rewrite Hmap. cbn [and_then].
  apply load_rows_raised.
Qed.

(** X12. A row that the loop skips, a row with no SKU and nothing but
    white space in its cells, can be taken out of the file or put into it
    at any place: the file loads to the same pricebook with it and
    without it. *)
Theorem skipped_row_changes_nothing (B : Builtins) (path : string)
    (fieldnames : list string) (before after : list csv_row) (row : csv_row)
    (stop : option io_exn) (header_map : list (string * string)) (idx : Z)
    (pb : Pricebook) :
  _build_header_map B fieldnames = Returned header_map ->
  load_row B header_map idx row = Returned None ->
  (load_pricebook B path
     (Some (Rows fieldnames (before ++ row :: after) stop)) = Returned pb <->
   load_pricebook B path (Some (Rows fieldnames (before ++ after) stop)) =
     Returned pb).
Proof.
  intros Hmap Hrow. unfold load_pricebook. rewrite Hmap. cbn [and_then].
  rewrite !load_rows_returned. split.
  - intros (Hstop & loaded & Hl & ->). split; [exact Hstop |].
    apply rows_loaded_app in Hl.
    destruct Hl as (l1 & l2 & -> & Hl1 & Hl2).
    inversion Hl2 as [| ? ? ? r rs Hr Hrest]; subst.
    assert (r = None) as ->.
    { apply (load_row_returned_any_idx B header_map _ idx) in Hr.
      congruence. }
    exists (l1 ++ rs). split.
    + apply rows_loaded_app. exists l1, rs. repeat split; [exact Hl1 |].
      eapply rows_loaded_any_idx. exact Hrest.
    + rewrite !somes_app. reflexivity.
  - intros (Hstop & loaded & Hl & ->). split; [exact Hstop |].
    apply rows_loaded_app in Hl.
    destruct Hl as (l1 & l2 & -> & Hl1 & Hl2).
    exists (l1 ++ None :: l2). split.
    + apply rows_loaded_app. exists l1, (None :: l2).
      repeat split; [exact Hl1 |]. constructor.
      * eapply load_row_returned_any_idx. exact Hrow.
      * eapply rows_loaded_any_idx. exact Hl2.
    + rewrite !somes_app. reflexivity.
Qed.

Lemma get_returns (B : Builtins) (header_map : list (string * string))
    (row : csv_row) (field : string) :
  reader_row row -> exists s, get B header_map row field = Returned s.
Proof.
  intros Hrow. unfold get.
  destruct (dict_get header_map field) as [header |]; [| eauto].
  destruct (String.eqb header ""); [eauto |].
  destruct (row_get row header) as [[| s | [| x l]] |] eqn:Hget; eauto.
  apply Hrow in Hget. discriminate.
Qed.

(** X13. A row of the reader loads as soon as its SKU cell and its price
    cell are not blank and [float] accepts the price: the item takes the
    stripped SKU and the price, and nothing in the description, unit,
    cost or category cells, nor a column that is absent, makes the row
    fail. A cost that [float] refuses is stored as no cost. *)
Theorem row_loads_on_sku_and_price (B : Builtins)
    (header_map : list (string * string)) (idx : Z) (row : csv_row)
    (sku price : string) (unit_price : float) :
  reader_row row ->
  get B header_map row "sku" = Returned sku -> sku <> "" ->
  get B header_map row "unit_price" = Returned price -> price <> "" ->
  py_float B price = Some unit_price ->
  exists description unit cost category,
    load_row B header_map idx row =
      Returned (Some (mkPricebookItem sku description unit unit_price
                        (if String.eqb cost "" then None
                         else py_float B cost)
                        (if String.eqb category "" then None
                         else Some category))) /\
    get B header_map row "unit_cost" = Returned cost /\
    get B header_map row "category" = Returned category.
Proof.
  intros Hrow Hsku Hne Hprice Hpne Hfloat. unfold load_row.
  rewrite Hsku. cbn [and_then].
  destruct (String.eqb sku "") eqn:Hs;
    [apply String.eqb_eq in Hs; contradiction |].
  destruct (get_returns B header_map row "description" Hrow) as [d ->].
  destruct (get_returns B header_map row "unit" Hrow) as [u ->].
  rewrite Hprice. cbn [and_then].
  destruct (String.eqb price "") eqn:Hp;
    [apply String.eqb_eq in Hp; contradiction |].
  rewrite Hfloat.
  destruct (get_returns B header_map row "unit_cost" Hrow) as [c ->].
  destruct (get_returns B header_map row "category" Hrow) as [g ->].
  cbn [and_then]. exists d, u, c, g. auto.
Qed.

Example load_pricebook_examples :
  load_pricebook ascii_builtins "pb.csv"
    (Some (Rows demo_headers demo_rows None)) =
    Returned demo_pricebook_loaded /\
  load_pricebook ascii_builtins "pb.csv"
    (Some (Rows demo_headers
             [ demo_row "P1" "Post" "ea" "12.50" "post";
               demo_row "" "Rail" "ea" "8" "" ] None)) =
    Raised (Core (ValueError "Row 3: missing SKU")) /\
  load_pricebook ascii_builtins "pb.csv"
    (Some (Rows demo_headers
             [ demo_row "P1" "Post" "ea" "n/a" "post" ] None)) =
    Raised (Core (ValueError "Row 2 (SKU P1): invalid unit_price 'n/a'")) /\
  load_pricebook ascii_builtins "pb.csv"
    (Some (Rows demo_headers
             [ demo_row "P1" "Post" "ea" "n/a" "post" ]
             (Some (CsvError "field larger than field limit (131072)")))) =
    Raised (Core (ValueError "Row 2 (SKU P1): invalid unit_price 'n/a'")) /\
  load_pricebook ascii_builtins "pb.csv"
    (Some (Rows demo_headers demo_rows
             (Some (CsvError "field larger than field limit (131072)")))) =
    Raised (IO (CsvError "field larger than field limit (131072)")) /\
  load_pricebook ascii_builtins "pb.csv"
    (Some (OpenRaises (OSError "IsADirectoryError"
                         "[Errno 21] Is a directory: 'pb.csv'"))) =
    Raised (IO (OSError "IsADirectoryError"
                  "[Errno 21] Is a directory: 'pb.csv'")) /\
  load_pricebook ascii_builtins "pb.csv" (Some NoHeader) =
    Raised (Core (ValueError "Pricebook CSV has no header row")) /\
  load_pricebook ascii_builtins "pb.csv" None =
    Raised (FileNotFoundError "Pricebook CSV not found: pb.csv").
Proof. repeat split; vm_compute; reflexivity. Qed.

Lemma loaded_pricebook_well_keyed_witness :
  well_keyed demo_pricebook_loaded.
Proof.
  apply (loaded_pricebook_well_keyed ascii_builtins "pb.csv"
           (Some (Rows demo_headers demo_rows None))).
  vm_compute. reflexivity.
Defined.

Lemma last_row_with_sku_wins_witness :
  exists header_map loaded,
    _build_header_map ascii_builtins demo_headers = Returned header_map /\
    rows_loaded ascii_builtins header_map demo_rows 2 loaded /\
    forall sku,
      get_item demo_pricebook_loaded sku =
      match last_with_sku (somes loaded) sku with
      | Some item => Ok item
      | None => Raise (KeyError ("SKU not found in pricebook: " ++ sku)%string)
      end.
Proof.
  apply (last_row_with_sku_wins ascii_builtins "pb.csv" demo_headers
           demo_rows None demo_pricebook_loaded).
  vm_compute. reflexivity.
Defined.

Lemma first_failing_row_aborts_witness :
  load_pricebook ascii_builtins "pb.csv"
    (Some (Rows demo_headers
             (demo_rows ++ [demo_row "G1" "Gate" "ea" "" "gate"])
             (Some (UnicodeDecodeError "invalid start byte")))) =
    Raised (Core (ValueError "Row 6 (SKU G1): missing unit_price/price")) <->
  (exists before row after loaded,
     demo_rows ++ [demo_row "G1" "Gate" "ea" "" "gate"] =
       before ++ row :: after /\
     rows_loaded ascii_builtins demo_header_map before 2 loaded /\
     load_row ascii_builtins demo_header_map
       (2 + Z.of_nat (List.length before)) row =
       Raised (Core (ValueError "Row 6 (SKU G1): missing unit_price/price"))) \/
  (exists loaded io,
     rows_loaded ascii_builtins demo_header_map
       (demo_rows ++ [demo_row "G1" "Gate" "ea" "" "gate"]) 2 loaded /\
     Some (UnicodeDecodeError "invalid start byte") = Some io /\
     Core (ValueError "Row 6 (SKU G1): missing unit_price/price") = IO io).
Proof.
  apply (first_failing_row_aborts ascii_builtins "pb.csv" demo_headers
           (demo_rows ++ [demo_row "G1" "Gate" "ea" "" "gate"])
           (Some (UnicodeDecodeError "invalid start byte"))
           demo_header_map).
  vm_compute. reflexivity.
Defined.

Lemma skipped_row_changes_nothing_witness :
  load_pricebook ascii_builtins "pb.csv"
    (Some (Rows demo_headers
             ([demo_row "P1" "Post 4x4" "ea" "12.50" "post"] ++
              demo_row "" "" "" " " "" ::
              [demo_row "R1" "Rail" "ea" "8" "";
               demo_row " P1 " "Post 6x6" "ea" "19.75" "post"]) None)) =
    Returned demo_pricebook_loaded <->
  load_pricebook ascii_builtins "pb.csv"
    (Some (Rows demo_headers
             ([demo_row "P1" "Post 4x4" "ea" "12.50" "post"] ++
              [demo_row "R1" "Rail" "ea" "8" "";
               demo_row " P1 " "Post 6x6" "ea" "19.75" "post"]) None)) =
    Returned demo_pricebook_loaded.
Proof.
  apply (skipped_row_changes_nothing ascii_builtins "pb.csv" demo_headers
           _ _ (demo_row "" "" "" " " "") None demo_header_map 7
           demo_pricebook_loaded);
    vm_compute; reflexivity.
Defined.

Lemma demo_row_reader_row (sku name uom price group : string) :
  reader_row (demo_row sku name uom price group).
Proof.
  intros header l. unfold demo_row. cbn [row_get].
  repeat match goal with
         | |- context [String.eqb ?a header] => destruct (String.eqb a header)
         end; discriminate.
Qed.

Lemma row_loads_on_sku_and_price_witness :
  exists description unit cost category,
    load_row ascii_builtins demo_header_map 2
      (demo_row " P1 " "" "" "19.75" " ") =
      Returned (Some (mkPricebookItem "P1" description unit 19.75
                        (if String.eqb cost "" then None
                         else py_float ascii_builtins cost)
                        (if String.eqb category "" then None
                         else Some category))) /\
    get ascii_builtins demo_header_map (demo_row " P1 " "" "" "19.75" " ")
      "unit_cost" = Returned cost /\
    get ascii_builtins demo_header_map (demo_row " P1 " "" "" "19.75" " ")
      "category" = Returned category.
Proof.
  apply (row_loads_on_sku_and_price ascii_builtins demo_header_map 2
           (demo_row " P1 " "" "" "19.75" " ") "P1" "19.75" 19.75).
  - apply demo_row_reader_row.
  - vm_compute. reflexivity.
  - discriminate.
  - vm_compute. reflexivity.
  - discriminate.
  - vm_compute. reflexivity.
Defined.

(* ===================================================================== *)
(** ** The quote *)
(* ===================================================================== *)

Lemma item_lines_returns (lines : list LineItemEstimate) :
  Forall (fun line => float_valued (le_quantity line) = true) lines ->
  exists text, item_lines lines = Returned text.
Proof.
  induction 1 as [| line rest Hq _ IH]; cbn [item_lines]; [eauto |].
  unfold format_num, float_valued in *.
  destruct (num_as_float (le_quantity line)); [| discriminate].
  cbn [lift and_then]. destruct IH as [more ->]. cbn [and_then]. eauto.
Qed.

Lemma item_lines_raised (lines : list LineItemEstimate) (e : pyexn) :
  item_lines lines = Raised e ->
  exists line msg,
    In line lines /\ num_as_float (le_quantity line) = Raise (OverflowError msg).
Proof.
  induction lines as [| line rest IH]; cbn [item_lines]; [discriminate |].
  unfold format_num.
  destruct (num_as_float (le_quantity line)) as [x | e'] eqn:Hq.
  - cbn [lift and_then].
    destruct (item_lines rest) as [more | e'']; cbn [and_then];
      [discriminate |].
    intros H. destruct (IH H) as (l & msg & Hin & Hl).
    exists l, msg. split; [right; exact Hin | exact Hl].
  - intros _.
    destruct (num_as_float_raises_overflow _ _ Hq) as [msg ->].
    exists line, msg. split; [left; reflexivity | exact Hq].
Qed.

Lemma priced_lines_float_valued (pb : Pricebook) (items : list LineItemInput) :
  forall lines,
    map Some lines = map (priced_line pb) items ->
    Forall (fun line => float_valued (le_quantity line) = true) lines.
Proof.
  induction items as [| item rest IH]; intros [| line lines] H;
    try discriminate; constructor.
  - cbn [map] in H. injection H as Hl _. unfold priced_line in Hl.
    destruct (pb_lookup pb (li_sku item)); [| discriminate].
    unfold float_valued.
    destruct (num_as_float (li_quantity item)) eqn:Hq; [| discriminate].
    injection Hl as ->. cbn [le_quantity]. rewrite Hq. reflexivity.
  - apply IH. cbn [map] in H. injection H as _ H. exact H.
Qed.

Lemma estimate_lines_float_valued (pb : Pricebook)
    (items : list LineItemInput) (lh lr mp : float) (b : EstimateBreakdown) :
  calculate_estimate pb items lh lr mp = Ok b ->
  Forall (fun line => float_valued (le_quantity line) = true) (line_items b).
Proof.
  unfold calculate_estimate.
  destruct (float_lt0 lh || float_lt0 lr || float_lt0 mp); [discriminate |].
  destruct (price_lines pb items [] 0%float) as [[lines mat] | e] eqn:Hp;
    [| discriminate].
  cbn [bind]. intros [= <-]. cbn [line_items].
  apply price_lines_ok_inv in Hp. destruct Hp as (ls & -> & Hls).
  cbn [app]. eapply priced_lines_float_valued. exact Hls.
Qed.

Lemma num_as_float_raise_message (q : pynum) (e : exn) :
  num_as_float q = Raise e ->
  e = OverflowError "int too large to convert to float".
Proof.
  destruct q as [n | x]; cbn [num_as_float]; [| discriminate].
  unfold int_as_double. destruct n as [| p | p]; [discriminate | |];
    destruct (long_frexp _) as [m k];
    destruct (1024 <? Z.log2 m + 1 + k); congruence.
Qed.

Lemma item_lines_raised_message (lines : list LineItemEstimate) (e : pyexn) :
  item_lines lines = Raised e ->
  e = Core (OverflowError "int too large to convert to float").
Proof.
  induction lines as [| line rest IH]; cbn [item_lines]; [discriminate |].
  unfold format_num.
  destruct (num_as_float (le_quantity line)) as [x | e'] eqn:Hq.
  - cbn [lift and_then].
    destruct (item_lines rest) as [more | e'']; cbn [and_then];
      [discriminate |].
    intros [= <-]. apply IH. reflexivity.
  - cbn [lift and_then]. intros [= <-].
    rewrite (num_as_float_raise_message _ _ Hq). reflexivity.
Qed.

Lemma item_lines_not_valued (lines : list LineItemEstimate)
    (line : LineItemEstimate) :
  In line lines -> float_valued (le_quantity line) = false ->
  exists e, item_lines lines = Raised e.
Proof.
  induction lines as [| l rest IH]; [contradiction |].
  intros Hin Hq. cbn [item_lines]. unfold format_num.
  destruct (num_as_float (le_quantity l)) as [x | e'] eqn:Hl;
    cbn [lift and_then]; [| eauto].
  destruct Hin as [-> | Hin].
  - unfold float_valued in Hq. rewrite Hl in Hq. discriminate.
  - destruct (IH Hin Hq) as [e ->]. cbn [and_then]. eauto.
Qed.

Lemma quote_content_returns (now : string) (b : EstimateBreakdown)
    (customer project : option string) :
  Forall (fun line => float_valued (le_quantity line) = true) (line_items b) ->
  exists content, quote_content now b customer project = Returned content.
Proof.
  intros Hq. unfold quote_content.
  destruct (item_lines_returns _ Hq) as [text ->]. cbn [and_then]. eauto.
Qed.

Lemma quote_content_raised (now : string) (b : EstimateBreakdown)
    (customer project : option string) (e : pyexn) :
  quote_content now b customer project = Raised e ->
  e = Core (OverflowError "int too large to convert to float") /\
  exists line, In line (line_items b) /\
               float_valued (le_quantity line) = false.
Proof.
  unfold quote_content.
  destruct (item_lines (line_items b)) as [text | e'] eqn:Hi;
    cbn [and_then]; [discriminate |].
  intros [= <-]. split; [eapply item_lines_raised_message; exact Hi |].
  apply item_lines_raised in Hi. destruct Hi as (line & msg & Hin & Hq).
  exists line. split; [exact Hin |]. unfold float_valued. rewrite Hq.
  reflexivity.
Qed.

(** Without an output path the function returns what [encode] returns
    on the text, and raises what building the text or [encode] raises. *)
Lemma render_without_output (now : string)
    (write_file : string -> string -> option pyexn) (b : EstimateBreakdown)
    (customer project output_path : option string) :
  given output_path = false ->
  render_quote_pdf now write_file b customer project output_path =
  (content <~ quote_content now b customer project ;; encode_utf8 content).
Proof.
  intros Hout. unfold render_quote_pdf. rewrite Hout.
  destruct (quote_content now b customer project) as [content | e];
    cbn [and_then]; [| reflexivity].
  destruct (encode_utf8 content); reflexivity.
Qed.

Lemma encode_utf8_cases (s : string) :
  (first_surrogates s 0 = None /\ encode_utf8 s = Returned s) \/
  (exists start stop,
     first_surrogates s 0 = Some (start, stop) /\
     encode_utf8 s = Raised (UnicodeEncodeError start stop)).
Proof.
  unfold encode_utf8. destruct (first_surrogates s 0) as [[start stop] |];
    [right; eauto | left; auto].
Qed.

(** The quote of a breakdown that [calculate_estimate] returned: the
    bytes, or the [UnicodeEncodeError] of [encode]. *)
Lemma render_estimate_cases (now : string) (pb : Pricebook)
    (items : list LineItemInput) (lh lr mp : float) (b : EstimateBreakdown)
    (customer project : option string) :
  calculate_estimate pb items lh lr mp = Ok b ->
  (exists pdf,
     render_quote_pdf now no_write b customer project None = Returned pdf) \/
  (exists start stop,
     render_quote_pdf now no_write b customer project None =
       Raised (UnicodeEncodeError start stop)).
Proof.
  intros Hb. rewrite render_without_output by reflexivity.
  destruct (quote_content_returns now b customer project
              (estimate_lines_float_valued _ _ _ _ _ _ Hb)) as [content ->].
  cbn [and_then].
  destruct (encode_utf8_cases content)
    as [[_ ->] | (start & stop & _ & ->)]; eauto.
Qed.

(** X14. For every breakdown that [calculate_estimate] returns, and
    whatever the names given, the text of the quote is built without an
    exception: formatting a quantity can fail only on an int too large
    for a float, and [calculate_estimate] has multiplied every quantity
    with a price. With no output path [render_quote_pdf] then returns
    the bytes of the text, or, when the text holds a lone surrogate, it
    raises the [UnicodeEncodeError] of [encode] on the first of them. *)
Theorem quote_text_of_every_estimate (now : string)
    (write_file : string -> string -> option pyexn) (pb : Pricebook)
    (items : list LineItemInput) (lh lr mp : float) (b : EstimateBreakdown)
    (customer project output_path : option string) :
  calculate_estimate pb items lh lr mp = Ok b ->
  given output_path = false ->
  exists content,
    quote_content now b customer project = Returned content /\
    ((first_surrogates content 0 = None /\
      render_quote_pdf now write_file b customer project output_path =
        Returned content) \/
     (exists start stop,
        first_surrogates content 0 = Some (start, stop) /\
        render_quote_pdf now write_file b customer project output_path =
          Raised (UnicodeEncodeError start stop))).
Proof.
  intros Hb Hout.
  destruct (quote_content_returns now b customer project
              (estimate_lines_float_valued _ _ _ _ _ _ Hb))
    as [content Hc].
  exists content. split; [exact Hc |].
  rewrite (render_without_output now write_file b customer project
             output_path Hout), Hc.
  cbn [and_then]. apply encode_utf8_cases.
Qed.

(** X15. With no output path given, [render_quote_pdf] raises in two
    cases and no other: some priced line holds an int quantity too large
    for a float, and the exception is the [OverflowError] of the
    conversion (a breakdown built by hand can hold such a line, a float
    quantity never does); or every quantity formats and the text holds a
    lone surrogate, and the exception is the [UnicodeEncodeError] of
    [encode] with the range of the first surrogates. *)
Theorem quote_failures (now : string)
    (write_file : string -> string -> option pyexn) (b : EstimateBreakdown)
    (customer project output_path : option string) (e : pyexn) :
  given output_path = false ->
  (render_quote_pdf now write_file b customer project output_path =
     Raised e <->
   ((exists line, In line (line_items b) /\
                  float_valued (le_quantity line) = false) /\
    e = Core (OverflowError "int too large to convert to float")) \/
   (exists content start stop,
      quote_content now b customer project = Returned content /\
      first_surrogates content 0 = Some (start, stop) /\
      e = UnicodeEncodeError start stop)).
Proof.
  intros Hout.
  rewrite (render_without_output now write_file b customer project
             output_path Hout).
  split.
  - destruct (quote_content now b customer project) as [content | e']
      eqn:Hc; cbn [and_then].
    + intros H. right.
      destruct (encode_utf8_cases content)
        as [[_ He] | (start & stop & Hs & He)]; rewrite He in H;
        [discriminate |].
      injection H as <-. exists content, start, stop. auto.
    + intros [= <-]. left. apply quote_content_raised in Hc.
      destruct Hc as [-> Hline]. auto.
  - intros [[(line & Hin & Hq) ->] | (content & start & stop & Hc & Hs & ->)].
    + destruct (quote_content now b customer project) as [content | e']
        eqn:Hc; cbn [and_then].
      * exfalso. unfold quote_content in Hc.
        destruct (item_lines_not_valued _ _ Hin Hq) as [e'' He].
        rewrite He in Hc. discriminate.
      * apply quote_content_raised in Hc. destruct Hc as [-> _].
        reflexivity.
    + rewrite Hc. cbn [and_then]. unfold encode_utf8. rewrite Hs.
      reflexivity.
Qed.

(* ===================================================================== *)
(** ** The handlers *)
(* ===================================================================== *)

(** Line items with float quantities above zero: the loop returns when
    every SKU is in the pricebook, and otherwise raises the [KeyError] of
    the first SKU that is not. *)
Lemma price_lines_of_request (pb : Pricebook) (items : list LineItem) :
  forallb valid_line_item items = true ->
  forall acc mat,
    (Forall (fun item => pb_lookup pb (item_sku item) <> None) items /\
     is_ok (price_lines pb (line_inputs_of items) acc mat) = true) \/
    (exists before item after,
       items = before ++ item :: after /\
       Forall (fun item => pb_lookup pb (item_sku item) <> None) before /\
       pb_lookup pb (item_sku item) = None /\
       price_lines pb (line_inputs_of items) acc mat =
         Raise (KeyError
                  ("SKU not found in pricebook: " ++ item_sku item)%string)).
Proof.
  induction items as [| item rest IH]; intros Hv acc mat.
  - left. split; [constructor | reflexivity].
  - cbn [forallb] in Hv. apply andb_true_iff in Hv. destruct Hv as [Hq Hv].
    unfold valid_line_item in Hq.
    cbn [line_inputs_of map price_lines li_quantity li_sku num_le0].
    rewrite (float_pos_not_le0 _ Hq). unfold get_item.
    destruct (pb_lookup pb (item_sku item)) as [pb_item |] eqn:Hl.
    + cbn [bind num_mul_float num_as_float].
      match goal with
      | |- context [price_lines pb _ ?a ?m] =>
          destruct (IH Hv a m)
            as [[Hall Hok] | (before & it & after & -> & Hb & Hn & Hr)]
      end.
      * left. split; [| exact Hok]. constructor; [congruence | exact Hall].
      * right. exists (item :: before), it, after.
        repeat split; [constructor; [congruence | exact Hb] | exact Hn |].
        exact Hr.
    + right. exists [], item, rest. repeat split; [constructor | exact Hl].
Qed.

Lemma estimate_of_request (pb : Pricebook) (items : list LineItem)
    (lh lr mp : float) :
  forallb valid_line_item items = true ->
  float_nonneg lh = true -> float_nonneg lr = true ->
  float_nonneg mp = true ->
  (Forall (fun item => pb_lookup pb (item_sku item) <> None) items /\
   is_ok (calculate_estimate pb (line_inputs_of items) lh lr mp) = true) \/
  (exists before item after,
     items = before ++ item :: after /\
     Forall (fun item => pb_lookup pb (item_sku item) <> None) before /\
     pb_lookup pb (item_sku item) = None /\
     calculate_estimate pb (line_inputs_of items) lh lr mp =
       Raise (KeyError
                ("SKU not found in pricebook: " ++ item_sku item)%string)).
Proof.
  intros Hv Hh Hr Hm. unfold calculate_estimate.
  rewrite (labor_guard_passes _ _ _ Hh Hr Hm).
  destruct (price_lines_of_request pb items Hv [] 0%float)
    as [[Hall Hok] | (before & it & after & -> & Hb & Hn & Hraise)].
  - left. split; [exact Hall |].
    destruct (price_lines pb (line_inputs_of items) [] 0%float)
      as [[lines mat] | e]; [reflexivity | discriminate].
  - right. exists before, it, after. repeat split; try assumption.
    rewrite Hraise. reflexivity.
Qed.

Lemma ensure_pricebook_cases (state : option Pricebook) :
  (exists pb, state = Some pb /\ pb <> [] /\
              _ensure_pricebook state = Returned pb) \/
  ((state = None \/ state = Some []) /\
   _ensure_pricebook state =
     Raised (HTTPException 500 "Pricebook is not loaded")).
Proof.
  destruct state as [[| entry rest] |]; cbn [_ensure_pricebook]; auto.
  left. eexists. repeat split. discriminate.
Qed.

(** Once the estimate is there, a handler gives the payload, or lets
    the [UnicodeEncodeError] of a quote that was asked for go out. *)
Lemma answers_with_estimate_intro (now : string) (pb : Pricebook)
    (items : list LineItemInput) (lh lr mp : float)
    (estimate : EstimateBreakdown) (customer project : option string)
    (include_pdf : bool) :
  calculate_estimate pb items lh lr mp = Ok estimate ->
  answers_with_estimate now estimate customer project include_pdf
    (if include_pdf then
       pdf_bytes <~ render_quote_pdf now no_write estimate customer project
                      None ;;
       Returned (mkEstimatePayload estimate (Some (b64encode pdf_bytes)))
     else Returned (mkEstimatePayload estimate None)).
Proof.
  intros Hc. unfold answers_with_estimate.
  destruct include_pdf; [right; split; [reflexivity |] | left; auto].
  destruct (render_estimate_cases now pb items lh lr mp estimate customer
              project Hc) as [[pdf Hpdf] | (start & stop & Hpdf)];
    rewrite Hpdf; cbn [and_then]; [left | right]; eauto.
Qed.

(** X16. [create_estimate] on a request that passed validation ends in
    one of these ways, and in no other: with no line item, HTTP 400; else
    with no pricebook or an empty one, HTTP 500; else with a SKU that the
    pricebook lacks, HTTP 400 whose detail is the [repr] of the message
    naming the first such SKU; else the estimate is computed, and the
    handler returns it, with the quote in base 64 when it was asked for,
    or, when the quote was asked for and its text holds a lone surrogate,
    the [UnicodeEncodeError] of [encode] goes out, raised outside the
    [try]. The messages on quantities and on labor never go out. *)
Theorem estimate_endpoint_outcomes (B : Builtins) (now : string)
    (state : option Pricebook) (request : EstimateRequest) :
  valid_estimate_request request = true ->
  let response := create_estimate B now state request in
  (er_line_items request = [] /\
   response =
     Raised (HTTPException 400 "At least one line item is required")) \/
  (er_line_items request <> [] /\ (state = None \/ state = Some []) /\
   response = Raised (HTTPException 500 "Pricebook is not loaded")) \/
  (exists pb before item after,
     state = Some pb /\ pb <> [] /\
     er_line_items request = before ++ item :: after /\
     Forall (fun item => pb_lookup pb (item_sku item) <> None) before /\
     pb_lookup pb (item_sku item) = None /\
     response =
       Raised (HTTPException 400
                 (py_repr B ("SKU not found in pricebook: " ++
                             item_sku item)%string))) \/
  (exists pb estimate,
     state = Some pb /\ er_line_items request <> [] /\
     calculate_estimate pb (line_inputs_of (er_line_items request))
       (er_labor_hours request) (er_labor_rate request)
       (er_margin_pct request) = Ok estimate /\
     answers_with_estimate now estimate (er_customer_name request)
       (er_project_name request) (er_include_pdf request) response).
Proof.
  intros Hv. cbv zeta. unfold valid_estimate_request in Hv.
  apply andb_true_iff in Hv. destruct Hv as [Hv Hm].
  apply andb_true_iff in Hv. destruct Hv as [Hv Hr].
  apply andb_true_iff in Hv. destruct Hv as [Hv Hh].
  unfold create_estimate.
  destruct (er_line_items request) as [| first others] eqn:Hitems;
    [left; auto |].
  right.
  destruct (ensure_pricebook_cases state)
    as [(pb & -> & Hne & ->) | [Hst ->]]; cbn [and_then].
  2:{ left. repeat split; [discriminate | exact Hst]. }
  right.
  destruct (estimate_of_request pb (first :: others) _ _ _ Hv Hh Hr Hm)
    as [[Hall Hok] | (before & it & after & Heq & Hb & Hn & Hraise)].
  - right.
    destruct (calculate_estimate pb (line_inputs_of (first :: others))
                (er_labor_hours request) (er_labor_rate request)
                (er_margin_pct request)) as [estimate | e] eqn:Hc;
      [| discriminate].
    cbn [as_bad_request and_then].
    exists pb, estimate.
    split; [reflexivity |]. split; [discriminate |].
    split; [exact Hc |].
    exact (answers_with_estimate_intro now pb _ _ _ _ estimate _ _ _ Hc).
  - left. exists pb, before, it, after. rewrite Hraise.
    repeat split; assumption.
Qed.

(** X17. [create_purchase_order] on a request that passed validation
    ends in one of these ways, and in no other: HTTP 400 with no line
    item; HTTP 500 with no pricebook or an empty one; HTTP 400 naming the
    first SKU that the pricebook lacks; else the estimate with no labor
    and no margin is computed, and the handler returns its quote as
    [application/pdf], or, when the text of the quote holds a lone
    surrogate, the [UnicodeEncodeError] of [encode] goes out. *)
Theorem purchase_order_endpoint_outcomes (B : Builtins) (now : string)
    (state : option Pricebook) (request : PORequest) :
  valid_po_request request = true ->
  let response := create_purchase_order B now state request in
  (po_line_items request = [] /\
   response =
     Raised (HTTPException 400 "At least one line item is required")) \/
  (po_line_items request <> [] /\ (state = None \/ state = Some []) /\
   response = Raised (HTTPException 500 "Pricebook is not loaded")) \/
  (exists pb before item after,
     state = Some pb /\ pb <> [] /\
     po_line_items request = before ++ item :: after /\
     Forall (fun item => pb_lookup pb (item_sku item) <> None) before /\
     pb_lookup pb (item_sku item) = None /\
     response =
       Raised (HTTPException 400
                 (py_repr B ("SKU not found in pricebook: " ++
                             item_sku item)%string))) \/
  (exists pb estimate,
     state = Some pb /\ po_line_items request <> [] /\
     calculate_estimate pb (line_inputs_of (po_line_items request)) 0 0 0 =
       Ok estimate /\
     ((exists pdf,
         render_quote_pdf now no_write estimate (po_customer_name request)
           (po_project_name request) None = Returned pdf /\
         response =
           Returned (mkStreamingResponse pdf "application/pdf"
             [ ("Content-Disposition",
                ("attachment; filename=" ++ dquote ++ "po.pdf" ++
                 dquote)%string) ])) \/
      (exists start stop,
         render_quote_pdf now no_write estimate (po_customer_name request)
           (po_project_name request) None =
           Raised (UnicodeEncodeError start stop) /\
         response = Raised (UnicodeEncodeError start stop)))).
Proof.
  intros Hv. cbv zeta. unfold valid_po_request in Hv.
  unfold create_purchase_order.
  destruct (po_line_items request) as [| first others] eqn:Hitems;
    [left; auto |].
  right.
  destruct (ensure_pricebook_cases state)
    as [(pb & -> & Hne & ->) | [Hst ->]]; cbn [and_then].
  2:{ left. repeat split; [discriminate | exact Hst]. }
  right.
  destruct (estimate_of_request pb (first :: others) 0 0 0 Hv
              eq_refl eq_refl eq_refl)
    as [[Hall Hok] | (before & it & after & Heq & Hb & Hn & Hraise)].
  - right.
    destruct (calculate_estimate pb (line_inputs_of (first :: others)) 0 0 0)
      as [estimate | e] eqn:Hc; [| discriminate].
    cbn [as_bad_request and_then].
    exists pb, estimate.
    split; [reflexivity |]. split; [discriminate |].
    split; [exact Hc |].
    destruct (render_estimate_cases now pb _ _ _ _ estimate
                (po_customer_name request) (po_project_name request) Hc)
      as [[pdf Hpdf] | (start & stop & Hpdf)];
      rewrite Hpdf; cbn [and_then]; [left | right]; eauto.
  - left. exists pb, before, it, after. rewrite Hraise.
    repeat split; assumption.
Qed.

Lemma load_first_returned (B : Builtins)
    (file_at : string -> option csv_file)
    (paths : list string) (pb : Pricebook) :
  load_first B file_at paths = Returned pb ->
  exists candidate file,
    In candidate paths /\ file_at candidate = Some file /\
    load_pricebook B candidate (Some file) = Returned pb.
Proof.
  induction paths as [| candidate rest IH]; cbn [load_first];
    [discriminate |].
  destruct (negb (String.eqb candidate "")).
  - destruct (file_at candidate) as [file |] eqn:Hf.
    + intros H. exists candidate, file. cbn [In]. auto.
    + intros H. destruct (IH H) as (c & f & Hin & Hc & Hl).
      exists c, f. cbn [In]. auto.
  - intros H. destruct (IH H) as (c & f & Hin & Hc & Hl).
    exists c, f. cbn [In]. auto.
Qed.

Lemma startup_state_well_keyed (B : Builtins) (env_path : option string)
    (sep : string)
    (file_at : string -> option csv_file)
    (state : option Pricebook) :
  startup_event B env_path sep file_at = Returned state ->
  exists pb, state = Some pb /\ well_keyed pb.
Proof.
  unfold startup_event, _load_pricebook_for_app.
  destruct (load_first B file_at (candidates env_path sep)) as [pb | e] eqn:Hl;
    cbn [and_then]; [| discriminate].
  intros [= <-]. exists pb. split; [reflexivity |].
  apply load_first_returned in Hl. destruct Hl as (c & f & _ & _ & Hl).
  apply load_pricebook_returned in Hl.
  destruct Hl as (fieldnames & rows & header_map & loaded & _ & _ & Hl & ->).
  apply store_well_keyed; [| exact well_keyed_nil].
  eapply rows_loaded_items. exact Hl.
Qed.

(** X18. After a startup that loaded a pricebook, [create_fence_estimate]
    on a request that passed validation ends in one of these ways, and in
    no other: HTTP 500 when the file held no item; HTTP 400 whose detail
    is the [repr] of the message of a required category that no item
    carries; an [OverflowError] that no clause catches, when a quantity
    cannot be computed or priced; else the estimate of the BOM is
    computed, and the handler returns it, with the quote in base 64 when
    it was asked for, or, when the quote was asked for and its text holds
    a lone surrogate, the [UnicodeEncodeError] of [encode] goes out. No
    [ValueError] of the estimator arises: the checks on quantities and
    labor always pass, and every SKU of the BOM is found. *)
Theorem fence_endpoint_outcomes (B : Builtins) (now : string)
    (env_path : option string) (sep : string)
    (file_at : string -> option csv_file)
    (state : option Pricebook) (request : FenceEstimateRequest) :
  startup_event B env_path sep file_at = Returned state ->
  valid_fence_request request = true ->
  let response := create_fence_estimate B now state request in
  let fence_input :=
    mkFenceEstimateInput (fr_fence_length_ft request) (fr_style request)
      (fr_posts_per_ft request) (fr_gates request) in
  (state = Some [] /\
   response = Raised (HTTPException 500 "Pricebook is not loaded")) \/
  (exists pb c,
     state = Some pb /\ In c required_categories /\
     no_item_with_category pb c /\
     response =
       Raised (HTTPException 400
                 (py_repr B ("No pricebook item with category='" ++ c ++
                             "'")%string))) \/
  (exists msg, response = Raised (Core (OverflowError msg))) \/
  (exists pb bom estimate,
     state = Some pb /\
     build_fence_bom pb fence_input = Ok bom /\
     calculate_estimate pb bom (fr_labor_hours request)
       (fr_labor_rate request) (fr_margin_pct request) = Ok estimate /\
     answers_with_estimate now estimate (fr_customer_name request)
       (fr_project_name request) (fr_include_pdf request) response).
Proof.
  intros Hstart Hv. cbv zeta.
  apply startup_state_well_keyed in Hstart.
  destruct Hstart as (pb & -> & Hwk).
  apply well_keyed_keyed_by_sku in Hwk.
  unfold valid_fence_request in Hv.
  apply andb_true_iff in Hv. destruct Hv as [Hv Hm].
  apply andb_true_iff in Hv. destruct Hv as [Hv Hr].
  apply andb_true_iff in Hv. destruct Hv as [Hv Hh].
  apply andb_true_iff in Hv. destruct Hv as [Hv Hg].
  apply andb_true_iff in Hv. destruct Hv as [HL Hp].
  unfold create_fence_estimate.
  destruct (ensure_pricebook_cases (Some pb))
    as [(pb' & [= <-] & Hne & ->) | [[Hst | [= ->]] ->]];
    cbn [and_then]; [| discriminate | left; auto].
  right.
  set (fence := mkFenceEstimateInput (fr_fence_length_ft request)
                  (fr_style request) (fr_posts_per_ft request)
                  (fr_gates request)).
  destruct (build_fence_bom pb fence) as [bom | e] eqn:Hbom; cbn [bind].
  - pose proof (keyed_bom_in_catalog pb fence bom Hwk Hbom) as Hcat.
    pose proof (bom_lines_num_pos pb fence bom HL Hbom) as Hpos.
    destruct (estimate_ok_or_overflow pb bom _ _ _ Hpos Hcat Hh Hr Hm)
      as [Hok | [msg Hov]].
    + right. right.
      destruct (calculate_estimate pb bom (fr_labor_hours request)
                  (fr_labor_rate request) (fr_margin_pct request))
        as [estimate | e] eqn:Hc; [| discriminate].
      cbn [as_bad_request and_then].
      exists pb, bom, estimate.
      split; [reflexivity |]. split; [exact Hbom |]. split; [exact Hc |].
      exact (answers_with_estimate_intro now pb _ _ _ _ estimate _ _ _ Hc).
    + right. left. exists msg. rewrite Hov. reflexivity.
  - destruct (build_fence_bom_raise_inv pb fence e Hbom)
      as [Hq | (c & Hc & Hno & ->)].
    + right. left.
      destruct (fence_quantities_ok_or_overflow fence HL Hp)
        as [Hok | [msg Hov]].
      * rewrite Hq in Hok. discriminate.
      * rewrite Hq in Hov. injection Hov as ->. exists msg. reflexivity.
    + left. exists pb, c. repeat split; assumption.
Qed.

(** *** The quote and the handlers on values *)

Lemma quote_text_of_every_estimate_witness :
  exists content,
    quote_content "2026-01-02T03:04:05" demo_estimate
      (Some surrogate_name) None = Returned content /\
    ((first_surrogates content 0 = None /\
      render_quote_pdf "2026-01-02T03:04:05" no_write demo_estimate
        (Some surrogate_name) None None = Returned content) \/
     (exists start stop,
        first_surrogates content 0 = Some (start, stop) /\
        render_quote_pdf "2026-01-02T03:04:05" no_write demo_estimate
          (Some surrogate_name) None None =
          Raised (UnicodeEncodeError start stop))).
Proof.
  apply (quote_text_of_every_estimate "2026-01-02T03:04:05" no_write
           demo_pricebook demo_bom 2 50 10 demo_estimate
           (Some surrogate_name) None None);
    vm_compute; reflexivity.
Defined.

Lemma quote_failures_witness :
  render_quote_pdf "2026-01-02T03:04:05" no_write huge_estimate
    None None None =
    Raised (Core (OverflowError "int too large to convert to float")) <->
  ((exists line, In line (line_items huge_estimate) /\
                 float_valued (le_quantity line) = false) /\
   Core (OverflowError "int too large to convert to float") =
     Core (OverflowError "int too large to convert to float")) \/
  (exists content start stop,
     quote_content "2026-01-02T03:04:05" huge_estimate None None =
       Returned content /\
     first_surrogates content 0 = Some (start, stop) /\
     Core (OverflowError "int too large to convert to float") =
       UnicodeEncodeError start stop).
Proof.
  apply (quote_failures "2026-01-02T03:04:05" no_write huge_estimate
           None None None).
  reflexivity.
Defined.

(** In the quote for the customer [surrogate_name], 97 characters come
    before the surrogate. *)
Example quote_examples :
  render_quote_pdf "2026-01-02T03:04:05" no_write huge_estimate
    None None None =
    Raised (Core (OverflowError "int too large to convert to float")) /\
  render_quote_pdf "2026-01-02T03:04:05" no_write demo_estimate
    (Some surrogate_name) None None = Raised (UnicodeEncodeError 97 98) /\
  (exists pdf,
     render_quote_pdf "2026-01-02T03:04:05" no_write demo_estimate
       (Some "Ann") None None = Returned pdf) /\
  map (format_float 7 2) [0.125; 2.675; -0.001; 12345.678; infinity]%float =
    ["   0.12"; "   2.67"; "  -0.00"; "12345.68"; "    inf"] /\
  format_num 7 2 (PyInt 9) = Returned "   9.00" /\
  ljust 12 "P1" = "P1          " /\
  b64encode "FENCE QUOTE" = "RkVOQ0UgUVVPVEU=".
Proof.
  split; [vm_compute; reflexivity |].
  split; [vm_compute; reflexivity |].
  split; [eexists; vm_compute; reflexivity |].
  repeat split; vm_compute; reflexivity.
Qed.

Lemma estimate_endpoint_outcomes_witness :
  let request := demo_estimate_request in
  let state := Some demo_pricebook in
  let response :=
    create_estimate ascii_builtins "2026-01-02T03:04:05" state request in
  (er_line_items request = [] /\
   response =
     Raised (HTTPException 400 "At least one line item is required")) \/
  (er_line_items request <> [] /\ (state = None \/ state = Some []) /\
   response = Raised (HTTPException 500 "Pricebook is not loaded")) \/
  (exists pb before item after,
     state = Some pb /\ pb <> [] /\
     er_line_items request = before ++ item :: after /\
     Forall (fun item => pb_lookup pb (item_sku item) <> None) before /\
     pb_lookup pb (item_sku item) = None /\
     response =
       Raised (HTTPException 400
                 (py_repr ascii_builtins
                    ("SKU not found in pricebook: " ++
                     item_sku item)%string))) \/
  (exists pb estimate,
     state = Some pb /\ er_line_items request <> [] /\
     calculate_estimate pb (line_inputs_of (er_line_items request))
       (er_labor_hours request) (er_labor_rate request)
       (er_margin_pct request) = Ok estimate /\
     answers_with_estimate "2026-01-02T03:04:05" estimate
       (er_customer_name request) (er_project_name request)
       (er_include_pdf request) response).
Proof.
  apply (estimate_endpoint_outcomes ascii_builtins "2026-01-02T03:04:05"
           (Some demo_pricebook) demo_estimate_request).
  reflexivity.
Defined.

Example estimate_endpoint_examples :
  create_estimate ascii_builtins "2026-01-02T03:04:05" (Some demo_pricebook)
    demo_estimate_request =
    Raised (HTTPException 400 "'SKU not found in pricebook: ZZ'") /\
  create_estimate ascii_builtins "2026-01-02T03:04:05" (Some [])
    demo_estimate_request =
    Raised (HTTPException 500 "Pricebook is not loaded") /\
  create_estimate ascii_builtins "2026-01-02T03:04:05" None
    (mkEstimateRequest [] 0 0 0 None None false) =
    Raised (HTTPException 400 "At least one line item is required") /\
  create_estimate ascii_builtins "2026-01-02T03:04:05" (Some demo_pricebook)
    (mkEstimateRequest [mkLineItem "K1" 200.5] 2.5 45 12.5 None None false) =
    Returned
      (mkEstimatePayload
         (mkEstimateBreakdown 471.18 2.5 45 112.5 583.67 12.5 72.96 656.63
            [mkLineItemEstimate "K1" "K1 item" (PyFloat 200.5) "ea" 2.35
               471.18])
         None) /\
  create_estimate ascii_builtins "2026-01-02T03:04:05" (Some demo_pricebook)
    (mkEstimateRequest [mkLineItem "K1" 200.5] 2.5 45 12.5
       (Some surrogate_name) None true) =
    Raised (UnicodeEncodeError 97 98) /\
  create_estimate ascii_builtins "2026-01-02T03:04:05" (Some demo_pricebook)
    (mkEstimateRequest [mkLineItem "K1" 200.5] 2.5 45 12.5
       (Some surrogate_name) None false) =
    Returned
      (mkEstimatePayload
         (mkEstimateBreakdown 471.18 2.5 45 112.5 583.67 12.5 72.96 656.63
            [mkLineItemEstimate "K1" "K1 item" (PyFloat 200.5) "ea" 2.35
               471.18])
         None).
Proof. repeat split; vm_compute; reflexivity. Qed.

Lemma purchase_order_endpoint_outcomes_witness :
  let request := demo_po_request in
  let state := Some demo_pricebook in
  let response :=
    create_purchase_order ascii_builtins "2026-01-02T03:04:05" state
      request in
  (po_line_items request = [] /\
   response =
     Raised (HTTPException 400 "At least one line item is required")) \/
  (po_line_items request <> [] /\ (state = None \/ state = Some []) /\
   response = Raised (HTTPException 500 "Pricebook is not loaded")) \/
  (exists pb before item after,
     state = Some pb /\ pb <> [] /\
     po_line_items request = before ++ item :: after /\
     Forall (fun item => pb_lookup pb (item_sku item) <> None) before /\
     pb_lookup pb (item_sku item) = None /\
     response =
       Raised (HTTPException 400
                 (py_repr ascii_builtins
                    ("SKU not found in pricebook: " ++
                     item_sku item)%string))) \/
  (exists pb estimate,
     state = Some pb /\ po_line_items request <> [] /\
     calculate_estimate pb (line_inputs_of (po_line_items request)) 0 0 0 =
       Ok estimate /\
     ((exists pdf,
         render_quote_pdf "2026-01-02T03:04:05" no_write estimate
           (po_customer_name request) (po_project_name request) None =
           Returned pdf /\
         response =
           Returned (mkStreamingResponse pdf "application/pdf"
             [ ("Content-Disposition",
                ("attachment; filename=" ++ dquote ++ "po.pdf" ++
                 dquote)%string) ])) \/
      (exists start stop,
         render_quote_pdf "2026-01-02T03:04:05" no_write estimate
           (po_customer_name request) (po_project_name request) None =
           Raised (UnicodeEncodeError start stop) /\
         response = Raised (UnicodeEncodeError start stop)))).
Proof.
  apply (purchase_order_endpoint_outcomes ascii_builtins
           "2026-01-02T03:04:05" (Some demo_pricebook) demo_po_request).
  reflexivity.
Defined.

Example purchase_order_endpoint_examples :
  (exists pdf,
     create_purchase_order ascii_builtins "2026-01-02T03:04:05"
       (Some demo_pricebook) demo_po_request =
     Returned (mkStreamingResponse pdf "application/pdf"
       [ ("Content-Disposition",
          ("attachment; filename=" ++ dquote ++ "po.pdf" ++
           dquote)%string) ])) /\
  create_purchase_order ascii_builtins "2026-01-02T03:04:05"
    (Some demo_pricebook)
    (mkPORequest [mkLineItem "P1" 9] None (Some surrogate_name)) =
    Raised (UnicodeEncodeError 96 97).
Proof.
  split; [eexists; vm_compute; reflexivity | vm_compute; reflexivity].
Qed.

Lemma fence_endpoint_outcomes_witness :
  let request := demo_fence_request in
  let state := Some demo_pricebook_loaded in
  let response :=
    create_fence_estimate ascii_builtins "2026-01-02T03:04:05" state
      request in
  let fence_input :=
    mkFenceEstimateInput (fr_fence_length_ft request) (fr_style request)
      (fr_posts_per_ft request) (fr_gates request) in
  (state = Some [] /\
   response = Raised (HTTPException 500 "Pricebook is not loaded")) \/
  (exists pb c,
     state = Some pb /\ In c required_categories /\
     no_item_with_category pb c /\
     response =
       Raised (HTTPException 400
                 (py_repr ascii_builtins
                    ("No pricebook item with category='" ++ c ++
                     "'")%string))) \/
  (exists msg, response = Raised (Core (OverflowError msg))) \/
  (exists pb bom estimate,
     state = Some pb /\
     build_fence_bom pb fence_input = Ok bom /\
     calculate_estimate pb bom (fr_labor_hours request)
       (fr_labor_rate request) (fr_margin_pct request) = Ok estimate /\
     answers_with_estimate "2026-01-02T03:04:05" estimate
       (fr_customer_name request) (fr_project_name request)
       (fr_include_pdf request) response).
Proof.
  apply (fence_endpoint_outcomes ascii_builtins "2026-01-02T03:04:05"
           None "/" (only_pricebook_csv demo_rows)
           (Some demo_pricebook_loaded) demo_fence_request);
    vm_compute; reflexivity.
Defined.

Example fence_endpoint_examples :
  startup_event ascii_builtins None "/" (only_pricebook_csv fence_rows) =
    Returned (Some
      [ ("P1", mkPricebookItem "P1" "Post 4x4" "ea" 12.5 None (Some "post"));
        ("R1", mkPricebookItem "R1" "Rail 2x4" "ea" 8 None (Some "rail"));
        ("K1", mkPricebookItem "K1" "Picket" "ea" 2.35 None (Some "picket"));
        ("C1", mkPricebookItem "C1" "Concrete bag" "bag" 6.99 None
                 (Some "concrete"));
        ("F1", mkPricebookItem "F1" "Screws" "box" 24 None (Some "fastener"));
        ("G1", mkPricebookItem "G1" "Gate kit" "ea" 149.99 None
                 (Some "gate")) ]) /\
  (exists state payload,
     startup_event ascii_builtins None "/" (only_pricebook_csv fence_rows) =
       Returned state /\
     create_fence_estimate ascii_builtins "2026-01-02T03:04:05" state
       demo_fence_request = Returned payload /\
     map le_quantity (line_items (payload_estimate payload)) =
       [PyInt 9; PyInt 16; PyInt 200; PyInt 7; PyInt 1; PyInt 1] /\
     materials_subtotal (payload_estimate payload) = 933.42%float /\
     total (payload_estimate payload) = 1136.76%float) /\
  create_fence_estimate ascii_builtins "2026-01-02T03:04:05"
    (Some demo_pricebook_loaded) demo_fence_request =
    Raised (HTTPException 400
              (dquote ++ "No pricebook item with category='rail'" ++
               dquote)%string) /\
  create_fence_estimate ascii_builtins "2026-01-02T03:04:05"
    (Some demo_pricebook_loaded)
    (mkFenceEstimateRequest 1e308 "wood" 0.0833 0 0 0 0 None None false) =
    Raised (Core (OverflowError "cannot convert float infinity to integer")).
Proof.
  split; [vm_compute; reflexivity |].
  split; [eexists _, _; repeat split; vm_compute; reflexivity |].
  split; vm_compute; reflexivity.
Qed.

(* ===================================================================== *)
(** ** The exceptions of the loader, and the pricebook of the app *)
(* ===================================================================== *)




Lemma build_header_map_raised (B : Builtins) (headers : list string)
    (e : pyexn) :
  _build_header_map B headers = Raised e -> exists msg, e = Core (ValueError msg).
Proof.
  unfold _build_header_map.
  destruct (filter _ required_fields); [discriminate |].
  intros [= <-]. eauto.
Qed.

Lemma get_raised (B : Builtins) (header_map : list (string * string))
    (row : csv_row) (field : string) (e : pyexn) :
  get B header_map row field = Raised e -> e = strip_error.
Proof.
  unfold get. destruct (dict_get header_map field) as [header |];
    [| discriminate].
  destruct (String.eqb header ""); [discriminate |].
  destruct (row_get row header) as [[| s | [| x l]] |]; try discriminate.
  intros [= <-]. reflexivity.
Qed.

Lemma any_stripped_raised (B : Builtins) (values : list cell) (e : pyexn) :
  any_stripped B values = Raised e -> e = strip_error.
Proof.
  induction values as [| [| s | [| x l]] rest IH]; cbn [any_stripped];
    try discriminate; try exact IH.
  - destruct (String.eqb s ""); [exact IH |].
    destruct (String.eqb (py_strip B s) ""); [exact IH | discriminate].
  - intros [= <-]. reflexivity.
Qed.

(** The body of the loop raises a [ValueError], or the [AttributeError]
    of a list that is stripped. *)
Lemma load_row_raised_kind (B : Builtins)
    (header_map : list (string * string)) (idx : Z) (row : csv_row)
    (e : pyexn) :
  load_row B header_map idx row = Raised e ->
  (exists msg, e = Core (ValueError msg)) \/ e = strip_error.
Proof.
  unfold load_row.
  destruct (get B header_map row "sku") as [sku | e1] eqn:H1;
    cbn [and_then];
    [| intros [= <-]; right; eapply get_raised; exact H1].
  destruct (String.eqb sku "").
  - destruct (any_stripped B (map snd row)) as [[|] | e2] eqn:H2;
      cbn [and_then].
    + intros [= <-]. left. eauto.
    + discriminate.
    + intros [= <-]. right. eapply any_stripped_raised. exact H2.
  - destruct (get B header_map row "description") as [d | e2] eqn:H2;
      cbn [and_then];
      [| intros [= <-]; right; eapply get_raised; exact H2].
    destruct (get B header_map row "unit") as [u | e3] eqn:H3;
      cbn [and_then];
      [| intros [= <-]; right; eapply get_raised; exact H3].
    destruct (get B header_map row "unit_price") as [p | e4] eqn:H4;
      cbn [and_then];
      [| intros [= <-]; right; eapply get_raised; exact H4].
    destruct (String.eqb p ""); [intros [= <-]; left; eauto |].
    destruct (py_float B p); [| intros [= <-]; left; eauto].
    destruct (get B header_map row "unit_cost") as [c | e5] eqn:H5;
      cbn [and_then];
      [| intros [= <-]; right; eapply get_raised; exact H5].
    destruct (get B header_map row "category") as [g | e6] eqn:H6;
      cbn [and_then];
      [discriminate | intros [= <-]; right; eapply get_raised; exact H6].
Qed.



(** A row with a field beyond the header row and nothing else but white
    space makes the loader fail on the list of the further fields. *)
Example further_fields_on_blank_row :
  load_pricebook ascii_builtins "pb.csv"
    (Some (Rows demo_headers
             [ demo_row "" "" "" " " "" ++ [(None, CellList ["x"])] ]
             None)) =
    Raised (AttributeError "'list' object has no attribute 'strip'") /\
  load_pricebook ascii_builtins "pb.csv"
    (Some (Rows demo_headers
             [ demo_row "" "Rail" "" " " "" ++ [(None, CellList ["x"])] ]
             None)) =
    Raised (Core (ValueError "Row 2: missing SKU")) /\
  load_pricebook ascii_builtins "pb.csv"
    (Some (Rows demo_headers
             [ demo_row "R1" "Rail" "ea" "8" "" ++ [(None, CellList ["x"])] ]
             None)) =
    Returned [("R1", mkPricebookItem "R1" "Rail" "ea" 8 None None)].
Proof. repeat split; vm_compute; reflexivity. Qed.

Lemma load_pricebook_file_found (B : Builtins) (path : string)
    (file : csv_file) (msg : string) :
  load_pricebook B path (Some file) <> Raised (FileNotFoundError msg).
Proof.
  destruct file as [e | e | | fieldnames rows stop]; cbn [load_pricebook];
    try discriminate.
  destruct (_build_header_map B fieldnames) as [header_map | e] eqn:Hm;
    cbn [and_then].
  - intros H. apply load_rows_raised in H.
    destruct H as [(before & row & after & loaded & _ & _ & Hrow)
                  | (loaded & io & _ & _ & [=])].
    apply load_row_raised_kind in Hrow.
    destruct Hrow as [[m Hrow] | Hrow]; discriminate.
  - apply build_header_map_raised in Hm. destruct Hm as [m ->].
    discriminate.
Qed.

(** X20. [_load_pricebook_for_app] loads the first candidate at which
    something exists, and nothing else: the path of [PRICEBOOK_PATH] when
    it is set, not empty and exists, whatever the loader makes of the
    file; else [pricebook.csv]; else the file under [samples]; a path of
    [PRICEBOOK_PATH] at which nothing exists is passed over in silence.
    It raises the [RuntimeError] when nothing exists at any candidate,
    and never the [FileNotFoundError] of the loader. *)
Theorem app_pricebook_candidates (B : Builtins) (env_path : option string)
    (sep : string)
    (file_at : string -> option csv_file) :
  let result := _load_pricebook_for_app B env_path sep file_at in
  let samples := ("samples" ++ sep ++ "pricebook.csv")%string in
  (forall file,
     given env_path = true -> file_at (text_of env_path) = Some file ->
     result = load_pricebook B (text_of env_path) (Some file)) /\
  (given env_path = false \/ file_at (text_of env_path) = None ->
   (forall file,
      file_at "pricebook.csv" = Some file ->
      result = load_pricebook B "pricebook.csv" (Some file)) /\
   (forall file,
      file_at "pricebook.csv" = None -> file_at samples = Some file ->
      result = load_pricebook B samples (Some file)) /\
   (file_at "pricebook.csv" = None -> file_at samples = None ->
    result =
      Raised (RuntimeError
        "No pricebook CSV found. Set PRICEBOOK_PATH or add pricebook.csv."))) /\
  (forall msg, result <> Raised (FileNotFoundError msg)).
Proof.
  cbv zeta. unfold _load_pricebook_for_app, candidates.
  assert (Hrest :
    (forall file,
       file_at "pricebook.csv" = Some file ->
       load_first B file_at
         ["pricebook.csv"; ("samples" ++ sep ++ "pricebook.csv")%string] =
       load_pricebook B "pricebook.csv" (Some file)) /\
    (forall file,
       file_at "pricebook.csv" = None ->
       file_at ("samples" ++ sep ++ "pricebook.csv")%string = Some file ->
       load_first B file_at
         ["pricebook.csv"; ("samples" ++ sep ++ "pricebook.csv")%string] =
       load_pricebook B ("samples" ++ sep ++ "pricebook.csv")%string
         (Some file)) /\
    (file_at "pricebook.csv" = None ->
     file_at ("samples" ++ sep ++ "pricebook.csv")%string = None ->
     load_first B file_at
       ["pricebook.csv"; ("samples" ++ sep ++ "pricebook.csv")%string] =
     Raised (RuntimeError
       "No pricebook CSV found. Set PRICEBOOK_PATH or add pricebook.csv."))).
  { cbn [load_first String.eqb Ascii.eqb Bool.eqb negb append].
    repeat split.
    - intros file ->. reflexivity.
    - intros file -> ->. reflexivity.
    - intros -> ->. reflexivity. }
  split; [| split].
  - intros file Hg Hf. rewrite Hg. cbn [app load_first].
    unfold given in Hg. destruct env_path as [p |]; [| discriminate].
    cbn [text_of] in *. rewrite Hg, Hf. reflexivity.
  - intros Henv.
    assert (Heq : load_first B file_at
                    ((if given env_path then [text_of env_path] else []) ++
                     ["pricebook.csv";
                      ("samples" ++ sep ++ "pricebook.csv")%string]) =
                  load_first B file_at
                    ["pricebook.csv";
                     ("samples" ++ sep ++ "pricebook.csv")%string]).
    { destruct (given env_path) eqn:Hg; [| reflexivity].
      destruct Henv as [Hd | Hnone]; [discriminate |].
      cbn [app load_first]. rewrite Hnone.
      destruct (negb (String.eqb (text_of env_path) "")); reflexivity. }
    rewrite Heq. exact Hrest.
  - intros msg H.
    destruct (load_first B file_at _) as [pb | e] eqn:Hl in H;
      [discriminate |].
    injection H as ->. revert Hl.
    generalize ((if given env_path then [text_of env_path] else []) ++
                ["pricebook.csv";
                 ("samples" ++ sep ++ "pricebook.csv")%string]).
    intros paths. induction paths as [| c rest IH]; cbn [load_first];
      [discriminate |].
    destruct (negb (String.eqb c "")); [| exact IH].
    destruct (file_at c) as [file |]; [| exact IH].
    apply load_pricebook_file_found.
Qed.

Lemma app_pricebook_candidates_witness :
  _load_pricebook_for_app ascii_builtins (Some "prices/2026.csv") "/"
    (only_pricebook_csv demo_rows) =
  load_pricebook ascii_builtins "pricebook.csv"
    (Some (Rows demo_headers demo_rows None)).
Proof.
  apply (proj1 (proj1 (proj2 (app_pricebook_candidates ascii_builtins
                          (Some "prices/2026.csv") "/"
                          (only_pricebook_csv demo_rows)))
                 (or_intror eq_refl))).
  reflexivity.
Defined.
